(** * The training orchestration core of [src/trainer.py]

    A shallow embedding of [cosine_sim], [evaluate], [initialize_writer],
    [save_best_model], [setup_scheduler], [log_metrics], [train_loop],
    [train] and [train_worker], followed by the properties of the
    specification that concern them.

    Conventions of the embedding.
    - Python [int] is [Z]; [len] of a container is [Z.of_nat (length _)].
    - A Python [float] is [pyfloat]: a rational, an infinity or NaN.  Every
      finite double is a rational and comparisons of doubles are exact, so
      comparisons are modelled exactly; the rounding of the arithmetic is
      not modelled.
    - A [dict] is an association list in insertion order, because
      [train_loop] takes the first key that contains "validation".
    - Side effects (printing, metric logging, checkpoint files, calls into
      the optimizer, the process group) are events appended to a trace that
      is part of the state; an exception keeps the state reached so far.
    - The libraries the file calls into (the model, the optimizer, the
      gradient scaler, the learning-rate schedule, the distributed samplers,
      [torch.sqrt], [pearsonr], [spearmanr], the class of the exception of
      [torch.cat] on an empty list) are the fields of the class
      [Collaborators]; every theorem holds for all of them. *)

From Stdlib Require Import List String ZArith QArith Bool Lia Lqa.
Import ListNotations.

Local Open Scope string_scope.
Local Open Scope list_scope.
Local Open Scope Z_scope.

(** ** Python exceptions and results *)

Inductive exn : Type :=
| KeyError (key : string)
| IndexError
| ZeroDivisionError
| RuntimeError (msg : string)
| ValueError (msg : string).

Inductive outcome (A : Type) : Type :=
| Ok (a : A)
| Raise (e : exn).

Arguments Ok {A} a.
Arguments Raise {A} e.

(** ** Python floats *)

Inductive pyfloat : Type :=
| Fin (q : Q)
| PInf
| NInf
| NaN.

(** The sign of a float that is not NaN. *)
Definition fsgn (a : pyfloat) : comparison :=
  match a with
  | Fin q => (q ?= 0)%Q
  | PInf => Gt
  | NInf => Lt
  | NaN => Eq
  end.

Definition sgn_mul (c d : comparison) : comparison :=
  match c, d with
  | Eq, _ | _, Eq => Eq
  | Gt, Gt | Lt, Lt => Gt
  | _, _ => Lt
  end.

Definition inf_of (c : comparison) : pyfloat :=
  match c with Gt => PInf | Lt => NInf | Eq => NaN end.

Definition fadd (a b : pyfloat) : pyfloat :=
  match a, b with
  | NaN, _ | _, NaN => NaN
  | Fin x, Fin y => Fin (x + y)
  | PInf, NInf | NInf, PInf => NaN
  | PInf, _ | _, PInf => PInf
  | NInf, _ | _, NInf => NInf
  end.

Definition fmul (a b : pyfloat) : pyfloat :=
  match a, b with
  | NaN, _ | _, NaN => NaN
  | Fin x, Fin y => Fin (x * y)
  | _, _ => inf_of (sgn_mul (fsgn a) (fsgn b))
  end.

(** Division of tensors and of numpy scalars: a zero divisor gives an
    infinity or NaN, never an exception.  The sign of a zero is not
    modelled. *)
Definition fdiv (a b : pyfloat) : pyfloat :=
  match a, b with
  | NaN, _ | _, NaN => NaN
  | Fin x, Fin y => if Qeq_bool y 0 then inf_of (x ?= 0)%Q else Fin (x / y)
  | Fin _, _ => Fin 0
  | _, Fin y => match (y ?= 0)%Q with Lt => inf_of (sgn_mul (fsgn a) Lt) | _ => a end
  | _, _ => NaN
  end.

(** [a > b] on floats; false as soon as one side is NaN. *)
Definition float_gt (a b : pyfloat) : bool :=
  match a, b with
  | NaN, _ | _, NaN => false
  | Fin x, Fin y => negb (Qle_bool x y)
  | PInf, PInf => false
  | PInf, _ => true
  | _, PInf => false
  | NInf, _ => false
  | _, NInf => true
  end.

(** [a <= b] on floats; false as soon as one side is NaN. *)
Definition float_le (a b : pyfloat) : bool :=
  match a, b with
  | NaN, _ | _, NaN => false
  | Fin x, Fin y => Qle_bool x y
  | _, PInf => true
  | PInf, _ => false
  | NInf, _ => true
  | _, NInf => false
  end.

(** [a == b] on floats; false as soon as one side is NaN. *)
Definition float_eqb (a b : pyfloat) : bool :=
  match a, b with
  | Fin x, Fin y => Qeq_bool x y
  | PInf, PInf | NInf, NInf => true
  | _, _ => false
  end.

Definition is_nan (a : pyfloat) : bool :=
  match a with NaN => true | _ => false end.

Definition float_is_zero (a : pyfloat) : bool :=
  match a with Fin q => Qeq_bool q 0 | _ => false end.

(** Python's [x / y] on a float [x] and a float [y]. *)
Definition py_truediv (x y : pyfloat) : outcome pyfloat :=
  if float_is_zero y then Raise ZeroDivisionError else Ok (fdiv x y).

(** Python's [x / n] on a float [x] and an int [n]. *)
Definition py_truediv_int (x : pyfloat) (n : Z) : outcome pyfloat :=
  if n =? 0 then Raise ZeroDivisionError else Ok (fdiv x (Fin (inject_Z n))).

(** Python's [n + y] on an int [n] and a float [y]. *)
Definition py_int_add_float (n : Z) (y : pyfloat) : pyfloat :=
  fadd (Fin (inject_Z n)) y.

(** The literal [1e-6], taken as the rational it denotes; like the other
    finite floats it is not rounded to a double. *)
Definition eps_1e_6 : pyfloat := Fin (1 # 1000000).

(** ** Dictionaries in insertion order *)

Definition dict (V : Type) : Type := list (string * V).

Fixpoint dict_get {V} (d : dict V) (k : string) : option V :=
  match d with
  | [] => None
  | (k', v) :: d' => if String.eqb k k' then Some v else dict_get d' k
  end.

(** [d[k]] *)
Definition getitem {V} (d : dict V) (k : string) : outcome V :=
  match dict_get d k with
  | Some v => Ok v
  | None => Raise (KeyError k)
  end.

(** [k in d] *)
Definition dict_mem {V} (d : dict V) (k : string) : bool :=
  match dict_get d k with Some _ => true | None => false end.

(** [d.keys()] *)
Definition keys {V} (d : dict V) : list string := map fst d.

(** [d[k] = v]: an existing key keeps its place, a new key goes last. *)
Fixpoint dict_set {V} (d : dict V) (k : string) (v : V) : dict V :=
  match d with
  | [] => [(k, v)]
  | (k', v') :: d' =>
      if String.eqb k k' then (k', v) :: d' else (k', v') :: dict_set d' k v
  end.

(** [needle in s] on strings. *)
Fixpoint contains (needle s : string) : bool :=
  String.prefix needle s ||
  match s with
  | EmptyString => false
  | String _ s' => contains needle s'
  end.

Definition obind {A B} (r : outcome A) (k : A -> outcome B) : outcome B :=
  match r with
  | Ok a => k a
  | Raise e => Raise e
  end.

Notation "'let!' x ':=' r 'in' k" := (obind r (fun x => k))
  (at level 10, x pattern, r at level 100, k at level 200).

(** ** Tensors and [cosine_sim] (lines 16-21)

    The scalar type and its operations are parameters, so what is proved of
    [cosine_sim] holds for any arithmetic, that of float16 and float32
    tensors included. *)

Record tensor2 (F : Type) : Type := mk_tensor2 {
  ncols : nat;
  rows : list (list F)
}.

Arguments mk_tensor2 {F} ncols rows.
Arguments ncols {F} t.
Arguments rows {F} t.

Definition nrows {F} (a : tensor2 F) : nat := List.length (rows a).

(** Every row has the width the tensor declares. *)
Definition well_shaped {F} (a : tensor2 F) : Prop :=
  Forall (fun r => List.length r = ncols a) (rows a).

Definition entry {F} (a : tensor2 F) (i j : nat) : option F :=
  match nth_error (rows a) i with
  | Some r => nth_error r j
  | None => None
  end.

Fixpoint diagonal_from {F} (i : nat) (rs : list (list F)) : list F :=
  match rs with
  | [] => []
  | r :: rs' =>
      match nth_error r i with
      | Some x => x :: diagonal_from (S i) rs'
      | None => []
      end
  end.

(** [a.numpy().diagonal()] *)
Definition diagonal {F} (a : tensor2 F) : list F := diagonal_from 0 (rows a).

(** [torch.cat(ts)] along the first axis.  On an empty list it raises
    "torch.cat(): expected a non-empty list of Tensors"; the class of that
    exception is [RuntimeError] or [ValueError] according to the version of
    [torch], so it is the parameter [empty_error]. *)
Definition torch_cat {F} (empty_error : exn) (ts : list (tensor2 F))
  : outcome (tensor2 F) :=
  match ts with
  | [] => Raise empty_error
  | t :: ts' =>
      if forallb (fun t' => Nat.eqb (ncols t') (ncols t)) ts'
      then Ok (mk_tensor2 (ncols t) (List.concat (map rows ts)))
      else Raise (RuntimeError "Sizes of tensors must match except in dimension 0")
  end.

Section Einsum.
Context {F : Type}.
Variables (zero : F) (add mul div : F -> F -> F) (sqrt : F -> F).

(** The sum over [j] of [u_j * v_j]. *)
Definition dot (u v : list F) : F :=
  fold_left (fun acc p => add acc (mul (fst p) (snd p))) (combine u v) zero.

(** A row of width 1 stretched to the width [n], as broadcasting does. *)
Definition stretch (n : nat) (u : list F) : list F :=
  match u with
  | [x] => repeat x n
  | _ => u
  end.

(** [torch.einsum("ij,kj->ik", a, b)].  The axis [j] of the two operands
    has to have one size, or size 1 on one side, which is then broadcast;
    any other pair of widths raises. *)
Definition einsum_ij_kj_ik (a b : tensor2 F) : outcome (tensor2 F) :=
  if Nat.eqb (ncols a) (ncols b)
  then Ok (mk_tensor2 (nrows b)
             (map (fun ai => map (fun bk => dot ai bk) (rows b)) (rows a)))
  else if Nat.eqb (ncols a) 1
  then Ok (mk_tensor2 (nrows b)
             (map (fun ai => map (fun bk => dot (stretch (ncols b) ai) bk) (rows b))
                (rows a)))
  else if Nat.eqb (ncols b) 1
  then Ok (mk_tensor2 (nrows b)
             (map (fun ai => map (fun bk => dot ai (stretch (ncols a) bk)) (rows b))
                (rows a)))
  else Raise (RuntimeError "einsum(): operands do not broadcast").

(** [torch.einsum("ij,ij->i", a, a)]: in both calls of [cosine_sim] the
    two operands are one and the same tensor, so the shapes agree and the
    call returns the squared norm of every row. *)
Definition einsum_ij_ij_i (a : tensor2 F) : list F :=
  map (fun p => dot (fst p) (snd p)) (combine (rows a) (rows a)).

(** [torch.einsum("i,j->ij", u, v)] *)
Definition einsum_i_j_ij (u v : list F) : tensor2 F :=
  mk_tensor2 (List.length v) (map (fun x => map (fun y => mul x y) v) u).

(** [a / b] entry by entry.  Both operands of the division in
    [cosine_sim] have the shape (m, n), so broadcasting does not arise. *)
Definition tensor_div (a b : tensor2 F) : tensor2 F :=
  mk_tensor2 (ncols a)
    (map (fun p => map (fun q => div (fst q) (snd q)) (combine (fst p) (snd p)))
         (combine (rows a) (rows b))).

Definition cosine_sim (a b : tensor2 F) : outcome (tensor2 F) :=
  let! dot_product := einsum_ij_kj_ik a b in
  let norm_a := map sqrt (einsum_ij_ij_i a) in
  let norm_b := map sqrt (einsum_ij_ij_i b) in
  let norm_product := einsum_i_j_ij norm_a norm_b in
  Ok (tensor_div dot_product norm_product).

(** The Euclidean norm of a row, as [cosine_sim] computes it. *)
Definition norm (u : list F) : F := sqrt (dot u u).

(** Line 51 of [evaluate]: [cosine_sim(a, b).numpy().diagonal()]. *)
Definition similarities (vectors_one vectors_two : tensor2 F) : outcome (list F) :=
  let! sim := cosine_sim vectors_one vectors_two in
  Ok (diagonal sim).

End Einsum.

(** ** The data model *)

(** A batch is a tuple of tensors; a loader yields its batches in order and
    [len] of it is their number. *)
Definition Batch (T : Type) : Type := list T.

Record Loader (T : Type) : Type := mk_loader {
  batches : list (Batch T)
}.

Arguments mk_loader {T} batches.
Arguments batches {T} l.

Definition len {T} (l : Loader T) : Z := Z.of_nat (List.length (batches l)).

(** [SummaryWriter(log_dir=...)] *)
Record SummaryWriter : Type := mk_writer {
  log_dir : string
}.

Inductive message : Type :=
| MsgEpoch (epoch num_epochs : Z)
| MsgTrainVal (dataset_name : string) (avg_train_loss avg_val_loss : pyfloat)
| MsgTrainNoVal (dataset_name : string) (avg_train_loss : pyfloat)
| MsgStsb (dataset_name : string) (pearson spearman : pyfloat)
| MsgSaved (path : string)
| MsgBlank.

Inductive event : Type :=
| EPrint (m : message)
| EWriterOpen (dir : string)
| EAddScalar (dir dataset_name metric_name : string) (value : pyfloat) (step : Z)
| EWriterClose (dir : string)
| EMakedirs (path : string)
| ETorchSave (path : string)
| EEvaluate
| ESetEpoch (dataset_name : string) (epoch : Z)
| ESetupScheduler (num_warmup_steps num_training_steps : Z)
| EZeroGrad
| EAutocastForward
| EScaleLoss
| EBackward
| EScalerStep (applied : bool)
| EScalerUpdate
| ESchedulerStep
| EValForward
| EInitProcessGroup (rank world_size : Z)
| EDestroyProcessGroup.

(** The collaborators of the training core.  [World] is the state they own
    between them: the parameters and gradients of the embedder, the
    optimizer, the gradient scaler and the learning-rate schedule. *)
Class Collaborators : Type := {
  Tensor : Type;
  World : Type;
  (** [t.cpu().numpy()] of a label tensor *)
  tensor_values : Tensor -> list pyfloat;
  (** [torch.sqrt] on one entry *)
  tensor_sqrt : pyfloat -> pyfloat;
  (** [embedder.train()], [embedder.eval()] *)
  model_train : World -> World;
  model_eval : World -> World;
  (** [model.eval()] in [evaluate], where [model] is [embedder.model]: the
      inner model and its submodules go to evaluation mode, the embedder
      around it keeps the mode it has *)
  inner_model_eval : World -> World;
  (** what [torch.cat] raises on an empty list *)
  torch_cat_empty : exn;
  (** [optimizer.zero_grad()] *)
  zero_grad : World -> World;
  (** [embedder(batch)] *)
  embedder_loss : World -> Batch Tensor -> pyfloat;
  (** [scaler.scale(train_loss).backward()] *)
  scale_backward : World -> Batch Tensor -> World;
  (** [scaler.step(optimizer)]: the flag tells whether the optimizer step
      was applied, that is, no gradient overflowed *)
  scaler_step : World -> World * bool;
  (** [scaler.update()] *)
  scaler_update : World -> World;
  (** [scheduler.step()] *)
  scheduler_step : World -> World;
  (** [model(input_ids=..., attention_mask=...)[1]] *)
  embed : World -> Tensor -> Tensor -> tensor2 pyfloat;
  (** [transformers.get_linear_schedule_with_warmup] *)
  get_linear_schedule_with_warmup : World -> Z -> Z -> outcome World;
  (** [GradScaler("cuda")] *)
  grad_scaler : World -> World;
  (** [DataLoader(loader.dataset, ..., sampler=DistributedSampler(
      loader.dataset, num_replicas, rank, shuffle))] *)
  distributed_loader : Loader Tensor -> Z -> Z -> bool -> Loader Tensor;
  (** the first component of [scipy.stats.pearsonr], [spearmanr] *)
  pearsonr : list pyfloat -> list pyfloat -> outcome pyfloat;
  spearmanr : list pyfloat -> list pyfloat -> outcome pyfloat
}.

Record Experiment `{Collaborators} : Type := mk_experiment {
  data_loaders : dict (dict (Loader Tensor));
  train_datasets : list string;
  num_epochs : Z;
  warmup_steps : Z
}.

(** ** State, trace and exceptions

    A computation takes the state and returns a value or an exception
    together with the state it reached. *)

Definition M (S A : Type) : Type := S -> outcome A * S.

Definition ret {S A} (a : A) : M S A := fun s => (Ok a, s).

Definition bind {S A B} (m : M S A) (k : A -> M S B) : M S B :=
  fun s =>
    match m s with
    | (Ok a, s') => k a s'
    | (Raise e, s') => (Raise e, s')
    end.

Definition lift {S A} (r : outcome A) : M S A := fun s => (r, s).

Notation "x <- m ;; k" := (bind m (fun x => k))
  (at level 61, m at next level, right associativity).
Notation "m ;; k" := (bind m (fun _ => k))
  (at level 61, right associativity).

Definition when {S} (b : bool) (m : M S unit) : M S unit :=
  if b then m else ret tt.

(** [for x in l: acc = body(acc, x)] *)
Fixpoint for_fold {S A B} (l : list A) (acc : B) (body : B -> A -> M S B) : M S B :=
  match l with
  | [] => ret acc
  | x :: l' => acc' <- body acc x ;; for_fold l' acc' body
  end.

(** [for x in l: body(x)] *)
Definition for_each {S A} (l : list A) (body : A -> M S unit) : M S unit :=
  for_fold l tt (fun _ x => body x).

(** [range(n)] *)
Definition range (n : Z) : list Z := map Z.of_nat (seq 0 (Z.to_nat n)).

(** [t[i]] on a tuple. *)
Definition tuple_get {T} (t : list T) (i : nat) : outcome T :=
  match nth_error t i with
  | Some x => Ok x
  | None => Raise IndexError
  end.

Section Trainer.
Context `{Collaborators}.

(** The state of one process: what the collaborators own, the trace of
    side effects, and the two variables [train_loop] carries across its
    loops. *)
Record state : Type := mk_state {
  world : World;
  events : list event;
  global_step : Z;
  best_stsb_score : pyfloat
}.

Definition emit (e : event) : M state unit :=
  fun s => (Ok tt, mk_state (world s) (events s ++ [e]) (global_step s) (best_stsb_score s)).

Definition get_world : M state World := fun s => (Ok (world s), s).

Definition set_world (w : World) : M state unit :=
  fun s => (Ok tt, mk_state w (events s) (global_step s) (best_stsb_score s)).

Definition get_global_step : M state Z := fun s => (Ok (global_step s), s).

Definition set_global_step (n : Z) : M state unit :=
  fun s => (Ok tt, mk_state (world s) (events s) n (best_stsb_score s)).

Definition get_best : M state pyfloat := fun s => (Ok (best_stsb_score s), s).

Definition set_best (b : pyfloat) : M state unit :=
  fun s => (Ok tt, mk_state (world s) (events s) (global_step s) b).

Definition modify_world (f : World -> World) : M state unit :=
  w <- get_world ;; set_world (f w).

(** *** [evaluate] (lines 24-54) *)

(** The body of the loop over the benchmark batches: the accumulator is
    [(vectors_one, vectors_two, labels)]. *)
Definition evaluate_batch (w : World)
    (acc : list (tensor2 pyfloat) * list (tensor2 pyfloat) * list pyfloat)
    (batch : Batch Tensor)
  : outcome (list (tensor2 pyfloat) * list (tensor2 pyfloat) * list pyfloat) :=
  let '(vectors_one, vectors_two, labels) := acc in
  let! ids1 := tuple_get batch 0 in
  let! mask1 := tuple_get batch 1 in
  let embeddings1 := embed w ids1 mask1 in
  let! ids2 := tuple_get batch 2 in
  let! mask2 := tuple_get batch 3 in
  let embeddings2 := embed w ids2 mask2 in
  let! label := tuple_get batch 4 in
  Ok (vectors_one ++ [embeddings1], vectors_two ++ [embeddings2],
      labels ++ tensor_values label).

Fixpoint evaluate_batches (w : World)
    (acc : list (tensor2 pyfloat) * list (tensor2 pyfloat) * list pyfloat)
    (bs : list (Batch Tensor))
  : outcome (list (tensor2 pyfloat) * list (tensor2 pyfloat) * list pyfloat) :=
  match bs with
  | [] => Ok acc
  | b :: bs' => let! acc' := evaluate_batch w acc b in evaluate_batches w acc' bs'
  end.

(** [cosine_sim] and the diagonal on float tensors. *)
Definition float_similarities : tensor2 pyfloat -> tensor2 pyfloat -> outcome (list pyfloat) :=
  similarities (Fin 0) fadd fmul fdiv tensor_sqrt.

Definition evaluate (data_loader : dict (dict (Loader Tensor))) : M state (pyfloat * pyfloat) :=
  emit EEvaluate ;;
  modify_world inner_model_eval ;;
  stsb <- lift (getitem data_loader "stsb") ;;
  validation <- lift (getitem stsb "validation") ;;
  w <- get_world ;;
  acc <- lift (evaluate_batches w ([], [], []) (batches validation)) ;;
  let '(vectors_one, vectors_two, labels) := acc in
  vectors_one <- lift (torch_cat torch_cat_empty vectors_one) ;;
  vectors_two <- lift (torch_cat torch_cat_empty vectors_two) ;;
  sims <- lift (float_similarities vectors_one vectors_two) ;;
  eval_pearson_cosine <- lift (pearsonr sims labels) ;;
  eval_spearman_cosine <- lift (spearmanr sims labels) ;;
  ret (eval_pearson_cosine, eval_spearman_cosine).

(** *** The small helpers (lines 57-86) *)

Definition initialize_writer (name : string) (is_master : bool)
  : M state (option SummaryWriter) :=
  if is_master
  then emit (EWriterOpen ("runs/" ++ name)%string) ;;
       ret (Some (mk_writer ("runs/" ++ name)%string))
  else ret None.

Definition save_best_model (name : string) : M state unit :=
  emit (EMakedirs "weights") ;;
  emit (ETorchSave ("weights/" ++ name ++ ".pt")%string) ;;
  emit (EPrint (MsgSaved ("weights/" ++ name ++ ".pt")%string)).

Definition setup_scheduler (warmup_steps total_steps : Z) : M state unit :=
  emit (ESetupScheduler warmup_steps total_steps) ;;
  w <- get_world ;;
  w' <- lift (get_linear_schedule_with_warmup w warmup_steps total_steps) ;;
  set_world w'.

Definition setup_scaler : M state unit := modify_world grad_scaler.

(** [writer.add_scalar(f"{dataset_name}/{metric_name}", value, step)]: the
    event keeps the two parts of the tag apart. *)
Definition log_metrics (writer : SummaryWriter) (dataset_name metric_name : string)
    (value : pyfloat) (step : Z) : M state unit :=
  emit (EAddScalar (log_dir writer) dataset_name metric_name value step).

Definition writer_close (writer : SummaryWriter) : M state unit :=
  emit (EWriterClose (log_dir writer)).

(** [if writer and rank == 0: body] *)
Definition if_writer_and_rank0 (writer : option SummaryWriter) (rank : Z)
    (body : SummaryWriter -> M state unit) : M state unit :=
  match writer with
  | Some wr => if rank =? 0 then body wr else ret tt
  | None => ret tt
  end.

(** *** [train_loop] (lines 89-232) *)

(** Lines 108-112: [sum(len(loaders[d]["train"]) for d in dataset_names
    if "train" in loaders[d])], with the running sum as accumulator. *)
Fixpoint sum_train_lens (data : dict (dict (Loader Tensor)))
    (dataset_names : list string) (acc : Z) : outcome Z :=
  match dataset_names with
  | [] => Ok acc
  | dataset_name :: rest =>
      let! splits := getitem data dataset_name in
      if dict_mem splits "train"
      then let! splits' := getitem data dataset_name in
           let! train_loader := getitem splits' "train" in
           sum_train_lens data rest (acc + len train_loader)
      else sum_train_lens data rest acc
  end.

Definition total_steps_per_epoch (data : dict (dict (Loader Tensor)))
    (dataset_names : list string) : outcome Z :=
  sum_train_lens data dataset_names 0.

(** An operation of a collaborator: the call is recorded, then the
    state it owns changes. *)
Definition call (e : event) (f : World -> World) : M state unit :=
  emit e ;; modify_world f.

(** Lines 158-179: one training batch.  Returns the new
    [total_train_loss]. *)
Definition train_batch (writer : option SummaryWriter) (rank : Z)
    (dataset_name : string) (total_train_loss : pyfloat) (batch : Batch Tensor)
  : M state pyfloat :=
  call EZeroGrad zero_grad ;;
  emit EAutocastForward ;;
  w <- get_world ;;
  let train_loss := embedder_loss w batch in
  emit EScaleLoss ;;
  call EBackward (fun w => scale_backward w batch) ;;
  w <- get_world ;;
  emit (EScalerStep (snd (scaler_step w))) ;;
  set_world (fst (scaler_step w)) ;;
  call EScalerUpdate scaler_update ;;
  call ESchedulerStep scheduler_step ;;
  let total_train_loss := fadd total_train_loss train_loss in
  step <- get_global_step ;;
  set_global_step (step + 1) ;;
  if_writer_and_rank0 writer rank (fun wr =>
    step <- get_global_step ;;
    log_metrics wr dataset_name "train_loss" train_loss step) ;;
  ret total_train_loss.

(** Lines 190-192: one validation batch. *)
Definition validation_batch (total_val_loss : pyfloat) (batch : Batch Tensor)
  : M state pyfloat :=
  emit EValForward ;;
  w <- get_world ;;
  let val_loss := embedder_loss w batch in
  ret (fadd total_val_loss val_loss).

(** Lines 133-155: the loader of the first split whose name contains
    "validation", rebuilt over a non-shuffling distributed sampler in
    distributed mode. *)
Definition find_val_loader (data : dict (dict (Loader Tensor))) (dataset_name : string)
    (is_ddp : bool) (world_size rank : Z) : outcome (option (Loader Tensor)) :=
  let! splits := getitem data dataset_name in
  let val_split_keys := filter (contains "validation") (keys splits) in
  match val_split_keys with
  | [] => Ok None
  | val_loader_key :: _ =>
      let! splits' := getitem data dataset_name in
      let! val_loader := getitem splits' val_loader_key in
      if is_ddp
      then Ok (Some (distributed_loader val_loader world_size rank false))
      else Ok (Some val_loader)
  end.

(** Line 181. *)
Definition avg_train_loss (total_train_loss : pyfloat) (train_loader : Loader Tensor)
  : outcome pyfloat :=
  py_truediv_int total_train_loss (len train_loader).

(** Line 194.  The quotient is the exact one; what is proved of it below
    is what does not depend on how a double rounds it. *)
Definition avg_val_loss (total_val_loss : pyfloat) (val_loader : Loader Tensor)
  : outcome pyfloat :=
  py_truediv total_val_loss (py_int_add_float (len val_loader) eps_1e_6).

(** Lines 222-227. *)
Definition checkpoint_check (name : string) (is_ddp : bool)
    (current_stsb_score : pyfloat) : M state unit :=
  best <- get_best ;;
  if float_gt current_stsb_score best
  then set_best current_stsb_score ;;
       (if is_ddp then save_best_model name else save_best_model name)
  else ret tt.

(** Lines 212-227, the body of the last [if writer and rank == 0]. *)
Definition evaluate_and_checkpoint (data : dict (dict (Loader Tensor)))
    (name : string) (is_ddp : bool) (dataset_name : string) (wr : SummaryWriter)
  : M state unit :=
  results <- evaluate data ;;
  emit (EPrint (MsgStsb dataset_name (fst results) (snd results))) ;;
  step <- get_global_step ;;
  log_metrics wr dataset_name "pearsonr" (fst results) step ;;
  step <- get_global_step ;;
  log_metrics wr dataset_name "spearmanr" (snd results) step ;;
  let current_stsb_score := fdiv (fadd (fst results) (snd results)) (Fin 2) in
  checkpoint_check name is_ddp current_stsb_score.

(** Lines 126-227: the body of the loop over the dataset names. *)
Definition dataset_epoch (data : dict (dict (Loader Tensor))) (name : string)
    (writer : option SummaryWriter) (is_ddp : bool) (world_size rank : Z)
    (epoch : Z) (dataset_name : string) : M state unit :=
  modify_world model_train ;;
  splits <- lift (getitem data dataset_name) ;;
  train_loader <- lift (getitem splits "train") ;;
  when is_ddp (emit (ESetEpoch dataset_name epoch)) ;;
  val_loader <- lift (find_val_loader data dataset_name is_ddp world_size rank) ;;
  total_train_loss <-
    for_fold (batches train_loader) (Fin 0) (train_batch writer rank dataset_name) ;;
  avg_train <- lift (avg_train_loss total_train_loss train_loader) ;;
  match val_loader with
  | Some val_loader =>
      modify_world model_eval ;;
      total_val_loss <- for_fold (batches val_loader) (Fin 0) validation_batch ;;
      avg_val <- lift (avg_val_loss total_val_loss val_loader) ;;
      if_writer_and_rank0 writer rank (fun wr =>
        emit (EPrint (MsgTrainVal dataset_name avg_train avg_val)) ;;
        step <- get_global_step ;;
        log_metrics wr dataset_name "val_loss" avg_val step)
  | None =>
      if_writer_and_rank0 writer rank (fun _ =>
        emit (EPrint (MsgTrainNoVal dataset_name avg_train)))
  end ;;
  if_writer_and_rank0 writer rank
    (evaluate_and_checkpoint data name is_ddp dataset_name).

(** Lines 121-230: the body of the loop over the epochs. *)
Definition epoch_body (experiment : Experiment) (name : string)
    (writer : option SummaryWriter) (is_ddp : bool) (world_size rank : Z)
    (epoch : Z) : M state unit :=
  when (rank =? 0) (emit (EPrint (MsgEpoch (epoch + 1) (num_epochs experiment)))) ;;
  for_each (train_datasets experiment)
    (dataset_epoch (data_loaders experiment) name writer is_ddp world_size rank epoch) ;;
  when (rank =? 0) (emit (EPrint MsgBlank)).

Definition total_steps (experiment : Experiment) : outcome Z :=
  let! per_epoch := total_steps_per_epoch (data_loaders experiment) (train_datasets experiment) in
  Ok (per_epoch * num_epochs experiment).

Definition train_loop (experiment : Experiment) (name : string)
    (writer : option SummaryWriter) (is_ddp : bool) (world_size rank : Z)
  : M state unit :=
  steps <- lift (total_steps experiment) ;;
  setup_scheduler (warmup_steps experiment) steps ;;
  setup_scaler ;;
  set_global_step 0 ;;
  set_best NInf ;;
  for_each (range (num_epochs experiment))
    (epoch_body experiment name writer is_ddp world_size rank).

(** *** [train] (lines 235-257) *)

Definition train (experiment : Experiment) (name : string) : M state unit :=
  writer <- initialize_writer name true ;;
  train_loop experiment name writer false 1 0 ;;
  match writer with
  | Some wr => writer_close wr
  | None => ret tt
  end.

(** *** [train_worker] (lines 260-318) *)

(** Lines 289-300: every train loader is replaced by one over a
    shuffling distributed sampler. *)
Fixpoint replace_train_loaders (data : dict (dict (Loader Tensor)))
    (dataset_names : list string) (world_size rank : Z)
  : outcome (dict (dict (Loader Tensor))) :=
  match dataset_names with
  | [] => Ok data
  | dataset_name :: rest =>
      let! splits := getitem data dataset_name in
      let! train_loader := getitem splits "train" in
      let new_loader := distributed_loader train_loader world_size rank true in
      replace_train_loaders
        (dict_set data dataset_name (dict_set splits "train" new_loader))
        rest world_size rank
  end.

Definition train_worker (rank world_size : Z) (experiment : Experiment)
    (name : string) : M state unit :=
  emit (EInitProcessGroup rank world_size) ;;
  let is_master := rank =? 0 in
  writer <- initialize_writer name is_master ;;
  when is_master (emit (EMakedirs "weights")) ;;
  data <- lift (replace_train_loaders (data_loaders experiment)
                  (train_datasets experiment) world_size rank) ;;
  let experiment' :=
    mk_experiment _ data (train_datasets experiment)
      (num_epochs experiment) (warmup_steps experiment) in
  train_loop experiment' name writer true world_size rank ;;
  match writer with
  | Some wr => when is_master (writer_close wr)
  | None => ret tt
  end ;;
  emit EDestroyProcessGroup.

(** The state a process starts from. *)
Definition initial_state (w : World) : state := mk_state w [] 0 NInf.

End Trainer.

(** ** A concrete set of collaborators

    Used to run the embedding on concrete inputs.  The learning-rate
    schedule follows [transformers]; the other collaborators are small
    stand-ins with the same interface. *)

(** The multiplier [get_linear_schedule_with_warmup] gives the learning rate
    at [current_step]:
    [current_step / max(1, num_warmup_steps)] below [num_warmup_steps], then
    [max(0, (num_training_steps - current_step) /
            max(1, num_training_steps - num_warmup_steps))]. *)
Definition linear_schedule_lr_lambda (num_warmup_steps num_training_steps current_step : Z) : Q :=
  if current_step <? num_warmup_steps
  then inject_Z current_step / inject_Z (Z.max 1 num_warmup_steps)
  else
    let r := (inject_Z (num_training_steps - current_step)
              / inject_Z (Z.max 1 (num_training_steps - num_warmup_steps)))%Q in
    if Qle_bool 0 r then r else 0%Q.

Module Stub.

Record world : Type := mk_world {
  (** the mode of the embedder, and that of the model inside it *)
  training : bool;
  model_training : bool;
  found_inf : bool;
  optimizer_steps : Z;
  scheduler_steps : Z;
  schedule : option (Z * Z)
}.

(** The learning rate multiplier in force. *)
Definition lr_multiplier (w : world) : option Q :=
  match schedule w with
  | Some (warmup, total) => Some (linear_schedule_lr_lambda warmup total (scheduler_steps w))
  | None => None
  end.

Definition is_finite (a : pyfloat) : bool :=
  match a with Fin _ => true | _ => false end.

(** The loss of a batch is the sum of the entries of its first tensor. *)
Definition loss (b : Batch (list pyfloat)) : pyfloat :=
  match b with
  | t :: _ => fold_left fadd t (Fin 0)
  | [] => Fin 0
  end.

Definition sqrt (a : pyfloat) : pyfloat :=
  match a with
  | Fin q =>
      if Qle_bool 0 q
      then Fin (Z.sqrt (Qnum q * Z.pos (Qden q)) # Qden q)
      else NaN
  | PInf => PInf
  | _ => NaN
  end.

(** A stand-in for the correlation coefficients: the mean of the products
    of similarity and label; at least two observations are required, as
    [scipy] does. *)
Definition correlation (xs ys : list pyfloat) : outcome pyfloat :=
  if negb (Nat.eqb (List.length xs) (List.length ys))
  then Raise (ValueError "x and y must have the same length")
  else if Nat.ltb (List.length xs) 2
  then Raise (ValueError "x and y must have length at least 2")
  else Ok (fdiv (fold_left fadd (map (fun p => fmul (fst p) (snd p)) (combine xs ys)) (Fin 0))
                (Fin (inject_Z (Z.of_nat (List.length xs))))).

(** Every [world_size]-th batch, starting at [rank]. *)
Fixpoint shard {A} (l : list A) (skip period : nat) : list A :=
  match l with
  | [] => []
  | x :: l' =>
      match skip with
      | O => x :: shard l' (Nat.pred period) period
      | S k => shard l' k period
      end
  end.

#[export] Instance collaborators : Collaborators := {|
  Tensor := list pyfloat;
  World := world;
  tensor_values := fun t => t;
  tensor_sqrt := sqrt;
  model_train := fun w =>
    mk_world true true (found_inf w) (optimizer_steps w) (scheduler_steps w) (schedule w);
  model_eval := fun w =>
    mk_world false false (found_inf w) (optimizer_steps w) (scheduler_steps w) (schedule w);
  inner_model_eval := fun w =>
    mk_world (training w) false (found_inf w) (optimizer_steps w) (scheduler_steps w)
      (schedule w);
  torch_cat_empty := RuntimeError "torch.cat(): expected a non-empty list of Tensors";
  zero_grad := fun w =>
    mk_world (training w) (model_training w) false (optimizer_steps w) (scheduler_steps w)
      (schedule w);
  embedder_loss := fun _ b => loss b;
  scale_backward := fun w b =>
    mk_world (training w) (model_training w) (negb (is_finite (loss b)))
      (optimizer_steps w) (scheduler_steps w) (schedule w);
  scaler_step := fun w =>
    if found_inf w then (w, false)
    else (mk_world (training w) (model_training w) false (optimizer_steps w + 1)
            (scheduler_steps w) (schedule w), true);
  scaler_update := fun w => w;
  scheduler_step := fun w =>
    mk_world (training w) (model_training w) (found_inf w) (optimizer_steps w)
      (scheduler_steps w + 1) (schedule w);
  embed := fun _ ids _ => mk_tensor2 2 (map (fun v => [v; Fin 1]) ids);
  get_linear_schedule_with_warmup := fun w warmup total =>
    Ok (mk_world (training w) (model_training w) (found_inf w) (optimizer_steps w) 0
          (Some (warmup, total)));
  grad_scaler := fun w => w;
  distributed_loader := fun l world_size rank _ =>
    mk_loader (shard (batches l) (Z.to_nat rank) (Z.to_nat world_size));
  pearsonr := correlation;
  spearmanr := correlation
|}.

(** The world a process starts in. *)
Definition start : World := mk_world true true false 0 0 None.

Definition batch (loss_value : Q) : Batch Tensor := [[Fin loss_value]].

(** A benchmark batch [(ids_a, mask_a, ids_b, mask_b, label)]. *)
Definition stsb_batch : Batch Tensor :=
  [ [Fin 1; Fin 2]; [Fin 1; Fin 1]; [Fin 1; Fin 3]; [Fin 1; Fin 1]; [Fin 1; Fin 0] ].

Definition stsb : string * dict (Loader Tensor) :=
  ("stsb", [("validation", mk_loader [stsb_batch])]).

(** One dataset with a train split of two batches and no validation
    split, next to the benchmark. *)
Definition data_no_validation : dict (dict (Loader Tensor)) :=
  [ ("nli", [("train", mk_loader [batch 1; batch 2])]); stsb ].

(** One dataset with four training batches and two validation batches. *)
Definition data_with_validation : dict (dict (Loader Tensor)) :=
  [ ("nli", [("train", mk_loader [batch 1; batch 2; batch 3; batch 4]);
             ("validation_matched", mk_loader [batch 3; batch 5])]); stsb ].

(** A dataset whose train loader yields no batch. *)
Definition data_empty_train : dict (dict (Loader Tensor)) :=
  [ ("nli", [("train", mk_loader [])]); stsb ].

(** A dataset without a train split. *)
Definition data_no_train : dict (dict (Loader Tensor)) :=
  [ ("nli", [("validation", mk_loader [batch 1])]); stsb ].

Definition experiment (data : dict (dict (Loader Tensor)))
    (epochs warmup : Z) : Experiment :=
  mk_experiment _ data ["nli"] epochs warmup.

Definition writer : SummaryWriter := mk_writer "runs/demo".

End Stub.

(** * Properties *)

(** ** Lists *)

Lemma nth_error_combine {A B} (l1 : list A) (l2 : list B) (i : nat) :
  nth_error (combine l1 l2) i =
  match nth_error l1 i, nth_error l2 i with
  | Some x, Some y => Some (x, y)
  | _, _ => None
  end.
Proof.
  revert l2 i. induction l1 as [|x l1 IH]; intros [|y l2] [|i]; simpl; auto.
  all: destruct (nth_error l1 i); reflexivity.
Qed.

Lemma combine_diag {A} (l : list A) : combine l l = map (fun x => (x, x)) l.
Proof. induction l; simpl; congruence. Qed.

Lemma diagonal_from_length {F} (n : nat) (rs : list (list F)) (k : nat) :
  Forall (fun r => List.length r = n) rs ->
  List.length (diagonal_from k rs) = Nat.min (List.length rs) (n - k).
Proof.
  intros Hrs. revert k.
  induction Hrs as [|r rs Hr _ IH]; intros k; cbn -[Nat.min Nat.sub].
  - reflexivity.
  - destruct (nth_error r k) as [x|] eqn:E.
    + cbn -[Nat.min Nat.sub]. rewrite IH.
      assert (k < n)%nat by (rewrite <- Hr; apply nth_error_Some; congruence).
      lia.
    + apply nth_error_None in E. cbn -[Nat.min Nat.sub]. lia.
Qed.

Lemma diagonal_from_nth {F} (rs : list (list F)) (k i : nat) (r : list F) (x : F) :
  (forall i' r', (i' < i)%nat -> nth_error rs i' = Some r' -> nth_error r' (k + i') <> None) ->
  nth_error rs i = Some r ->
  nth_error r (k + i) = Some x ->
  nth_error (diagonal_from k rs) i = Some x.
Proof.
  revert k i. induction rs as [|r0 rs IH]; intros k i Hpre Hr Hx.
  - destruct i; discriminate.
  - destruct i as [|i]; simpl in *.
    + injection Hr as ->. rewrite Nat.add_0_r in Hx. rewrite Hx. reflexivity.
    + destruct (nth_error r0 k) as [x0|] eqn:E0.
      * simpl. apply IH; auto.
        -- intros i' r' Hi' Hr'. replace (S k + i')%nat with (k + S i')%nat by lia.
           apply (Hpre (S i') r'); [lia | exact Hr'].
        -- replace (S k + i)%nat with (k + S i)%nat by lia. exact Hx.
      * exfalso. apply (Hpre 0%nat r0); [lia | reflexivity |].
        rewrite Nat.add_0_r. exact E0.
Qed.

(** ** [cosine_sim] *)

Section EinsumFacts.
Context {F : Type}.
Variables (zero : F) (add mul div : F -> F -> F) (sqrt : F -> F).

Local Abbreviation dot_ := (dot zero add mul).
Local Abbreviation norm_ := (norm zero add mul sqrt).
Local Abbreviation cosine_sim_ := (cosine_sim zero add mul div sqrt).
Local Abbreviation similarities_ := (similarities zero add mul div sqrt).

(** The value the specification gives for the entry of rows [u], [v]. *)
Definition cosine_of (u v : list F) : F := div (dot_ u v) (mul (norm_ u) (norm_ v)).

Lemma einsum_norms (a : tensor2 F) :
  einsum_ij_ij_i zero add mul a = map (fun u => dot_ u u) (rows a).
Proof.
  unfold einsum_ij_ij_i. rewrite combine_diag, map_map. reflexivity.
Qed.

Lemma cosine_sim_rows (a b : tensor2 F) :
  ncols a = ncols b ->
  cosine_sim_ a b =
  Ok (mk_tensor2 (nrows b)
        (map (fun p => map (fun q => div (fst q) (snd q)) (combine (fst p) (snd p)))
           (combine
              (map (fun ai => map (fun bk => dot_ ai bk) (rows b)) (rows a))
              (map (fun x => map (fun y => mul x y) (map norm_ (rows b)))
                 (map norm_ (rows a)))))).
Proof.
  intros Hc. unfold cosine_sim, einsum_ij_kj_ik.
  rewrite Hc, Nat.eqb_refl. simpl. rewrite !einsum_norms.
  unfold tensor_div, einsum_i_j_ij. simpl. rewrite !map_map. reflexivity.
Qed.

Lemma cosine_sim_entry (a b c : tensor2 F) (i j : nat) (ai bj : list F) :
  cosine_sim_ a b = Ok c ->
  ncols a = ncols b ->
  nth_error (rows a) i = Some ai ->
  nth_error (rows b) j = Some bj ->
  entry c i j = Some (cosine_of ai bj).
Proof.
  intros Hc Hcols Hi Hj. rewrite (cosine_sim_rows a b Hcols) in Hc.
  injection Hc as <-. unfold entry. simpl.
  rewrite nth_error_map, nth_error_combine, !nth_error_map, Hi. simpl.
  rewrite nth_error_map, nth_error_combine, !nth_error_map, Hj. simpl.
  reflexivity.
Qed.

Lemma cosine_sim_shape (a b c : tensor2 F) :
  cosine_sim_ a b = Ok c ->
  ncols a = ncols b ->
  nrows c = nrows a /\ ncols c = nrows b /\ well_shaped c.
Proof.
  intros Hc Hcols. rewrite (cosine_sim_rows a b Hcols) in Hc.
  injection Hc as <-. unfold nrows, well_shaped. simpl.
  rewrite length_map, length_combine, !length_map. repeat split; [lia|].
  apply Forall_forall. intros r Hr.
  apply in_map_iff in Hr. destruct Hr as [[u v] [<- Hin]]. simpl.
  apply in_combine_l in Hin as Hu. apply in_combine_r in Hin as Hv.
  apply in_map_iff in Hu. destruct Hu as [ai [<- _]].
  apply in_map_iff in Hv. destruct Hv as [x [<- _]].
  rewrite length_map, length_combine, !length_map. unfold nrows. lia.
Qed.

Lemma cosine_sim_diagonal_nth (a b c : tensor2 F) (i : nat) (ai bi : list F) :
  cosine_sim_ a b = Ok c ->
  ncols a = ncols b ->
  nth_error (rows a) i = Some ai ->
  nth_error (rows b) i = Some bi ->
  nth_error (diagonal c) i = Some (cosine_of ai bi).
Proof.
  intros Hc Hcols Hi Hj.
  destruct (cosine_sim_shape a b c Hc Hcols) as (Hm & Hn & Hw).
  pose proof (cosine_sim_entry a b c i i ai bi Hc Hcols Hi Hj) as He.
  unfold entry in He. destruct (nth_error (rows c) i) as [r|] eqn:Er; [|discriminate].
  unfold diagonal. apply diagonal_from_nth with (r := r); auto.
  intros i' r' Hlt Hr'. simpl. apply nth_error_Some.
  assert (Hlen : List.length r' = ncols c).
  { unfold well_shaped in Hw. rewrite Forall_forall in Hw.
    apply Hw. eapply nth_error_In; eauto. }
  assert (i < nrows b)%nat by (apply nth_error_Some; unfold nrows; congruence).
  lia.
Qed.

(** For matrices [a] (m rows) and [b] (n rows) of equal column width,
    [cosine_sim a b] returns an m-by-n matrix whose entry (i, j) is the dot
    product of row i of [a] and row j of [b] divided by the product of
    their Euclidean norms; its diagonal has entry i the cosine of row i of
    [a] and row i of [b]. *)
Lemma cosine_sim_equal_widths (a b : tensor2 F) :
  ncols a = ncols b ->
  exists c,
    cosine_sim_ a b = Ok c /\
    nrows c = nrows a /\ ncols c = nrows b /\ well_shaped c /\
    (forall i j ai bj,
        nth_error (rows a) i = Some ai -> nth_error (rows b) j = Some bj ->
        entry c i j = Some (cosine_of ai bj)) /\
    similarities_ a b = Ok (diagonal c) /\
    List.length (diagonal c) = Nat.min (nrows a) (nrows b) /\
    (forall i ai bi,
        nth_error (rows a) i = Some ai -> nth_error (rows b) i = Some bi ->
        nth_error (diagonal c) i = Some (cosine_of ai bi)).
Proof.
  intros Hcols.
  destruct (cosine_sim_ a b) as [c|e] eqn:Hc.
  2: { rewrite (cosine_sim_rows a b Hcols) in Hc. discriminate. }
  exists c.
  destruct (cosine_sim_shape a b c Hc Hcols) as (Hm & Hn & Hw).
  repeat split; auto.
  - intros i j ai bj Hi Hj. exact (cosine_sim_entry a b c i j ai bj Hc Hcols Hi Hj).
  - unfold similarities. rewrite Hc. reflexivity.
  - unfold diagonal. rewrite (diagonal_from_length (ncols c)); [|exact Hw].
    fold (nrows c). lia.
  - intros i ai bi Hi Hj. exact (cosine_sim_diagonal_nth a b c i ai bi Hc Hcols Hi Hj).
Qed.

End EinsumFacts.

(** ** Computations *)

Lemma bind_ok {S A B} (m : M S A) (k : A -> M S B) (s s' : S) (b : B) :
  bind m k s = (Ok b, s') ->
  exists a s1, m s = (Ok a, s1) /\ k a s1 = (Ok b, s').
Proof.
  unfold bind. destruct (m s) as [[a|e] s1]; intros Hk.
  - exists a, s1. auto.
  - discriminate.
Qed.

Lemma for_fold_app {S A B} (l1 l2 : list A) (acc : B) (body : B -> A -> M S B) :
  forall s,
    for_fold (l1 ++ l2) acc body s =
    (acc' <- for_fold l1 acc body ;; for_fold l2 acc' body) s.
Proof.
  revert acc. induction l1 as [|x l1 IH]; intros acc s; simpl.
  - reflexivity.
  - unfold bind in *.
    destruct (body acc x s) as [[acc'|e] s1]; [apply IH | reflexivity].
Qed.

(** A relation between the state before and the state after that every
    step of a computation keeps, whether it returns or raises. *)
Definition respects {S A} (R : S -> S -> Prop) (m : M S A) : Prop :=
  forall s, R s (snd (m s)).

Section Respects.
Context {S : Type} (R : S -> S -> Prop).
Hypothesis R_refl : forall s, R s s.
Hypothesis R_trans : forall s1 s2 s3, R s1 s2 -> R s2 s3 -> R s1 s3.

Lemma respects_ret {A} (a : A) : respects R (ret a).
Proof. intros s. apply R_refl. Qed.

Lemma respects_lift {A} (r : outcome A) : respects R (lift r).
Proof. intros s. apply R_refl. Qed.

Lemma respects_bind {A B} (m : M S A) (k : A -> M S B) :
  respects R m -> (forall a, respects R (k a)) -> respects R (bind m k).
Proof.
  intros Hm Hk s. unfold bind. specialize (Hm s).
  destruct (m s) as [[a|e] s1]; simpl in *.
  - eapply R_trans; [exact Hm | apply Hk].
  - exact Hm.
Qed.

Lemma respects_for_fold {A B} (l : list A) (body : B -> A -> M S B) :
  (forall acc x, respects R (body acc x)) ->
  forall acc, respects R (for_fold l acc body).
Proof.
  intros Hbody. induction l as [|x l IH]; intros acc; simpl.
  - apply respects_ret.
  - apply respects_bind; auto.
Qed.

Lemma respects_for_each {A} (l : list A) (body : A -> M S unit) :
  (forall x, respects R (body x)) -> respects R (for_each l body).
Proof. intros Hbody. unfold for_each. apply respects_for_fold. auto. Qed.

End Respects.

(** The head of an application. *)
Ltac head_of t :=
  lazymatch t with
  | ?f _ => head_of f
  | _ => t
  end.

(** One step through the structure of a computation: [prim] settles the
    operations on the state, [order] that the relation is reflexive and
    transitive, the combinators have their lemmas, a function of the
    trainer is unfolded, a test is split in its cases. *)
Ltac respects_step prim order :=
  first
    [ solve [prim]
    | lazymatch goal with
      | |- respects _ (ret _) => apply respects_ret; solve [order]
      | |- respects _ (lift _) => apply respects_lift; solve [order]
      | |- respects _ (bind _ _) => apply respects_bind; [solve [order] | | intro]
      | |- respects _ (for_fold _ _ _) =>
          apply respects_for_fold; [solve [order] | solve [order] | intros ? ?]
      | |- respects _ (for_each _ _) =>
          apply respects_for_each; [solve [order] | solve [order] | intro]
      | |- respects _ (match ?x with _ => _ end) =>
          destruct x eqn:?; try congruence
      | |- respects _ ?m => let h := head_of m in unfold h
      end ].

Ltac respects_auto prim order := repeat (respects_step prim order).

(** ** The trace *)

(** What the specification reserves to the coordinating process. *)
Definition is_coordinator_effect (e : event) : bool :=
  match e with
  | EPrint _ | EWriterOpen _ | EAddScalar _ _ _ _ _ | EWriterClose _
  | EMakedirs _ | ETorchSave _ | EEvaluate => true
  | _ => false
  end.

(** The traces of a validation pass: a forward pass without gradients, the
    message with both losses, the [val_loss] metric. *)
Definition is_validation_event (e : event) : bool :=
  match e with
  | EValForward => true
  | EPrint (MsgTrainVal _ _ _) => true
  | EAddScalar _ _ metric_name _ _ => String.eqb metric_name "val_loss"
  | _ => false
  end.

Definition is_evaluate (e : event) : bool :=
  match e with EEvaluate => true | _ => false end.

Definition is_torch_save (e : event) : bool :=
  match e with ETorchSave _ => true | _ => false end.

Definition is_destroy (e : event) : bool :=
  match e with EDestroyProcessGroup => true | _ => false end.

Definition is_init (e : event) : bool :=
  match e with EInitProcessGroup _ _ => true | _ => false end.

(** The events of the mixed-precision protocol of one batch. *)
Definition is_step_event (e : event) : bool :=
  match e with
  | EZeroGrad | EAutocastForward | EScaleLoss | EBackward
  | EScalerStep _ | EScalerUpdate | ESchedulerStep => true
  | _ => false
  end.

(** The protocol of one batch, in order; [applied] tells whether the
    optimizer step was applied or skipped for an overflow. *)
Definition step_block (applied : bool) : list event :=
  [EZeroGrad; EAutocastForward; EScaleLoss; EBackward;
   EScalerStep applied; EScalerUpdate; ESchedulerStep].

Definition is_scheduler_step (e : event) : bool :=
  match e with ESchedulerStep => true | _ => false end.

(** [writer and rank == 0] *)
Definition is_coordinator (writer : option SummaryWriter) (rank : Z) : bool :=
  match writer with
  | Some _ => rank =? 0
  | None => false
  end.

Section TrainerFacts.
Context `{Collaborators}.

(** The trace only grows, and by events that satisfy [P]. *)
Definition extends_with (P : event -> Prop) (s s' : state) : Prop :=
  exists evs, events s' = events s ++ evs /\ Forall P evs.

Lemma extends_with_refl P s : extends_with P s s.
Proof. exists []. rewrite app_nil_r. auto. Qed.

Lemma extends_with_trans P s1 s2 s3 :
  extends_with P s1 s2 -> extends_with P s2 s3 -> extends_with P s1 s3.
Proof.
  intros (e1 & H1 & F1) (e2 & H2 & F2). exists (e1 ++ e2).
  rewrite H2, H1, app_assoc. split; [reflexivity | apply Forall_app; auto].
Qed.

Lemma extends_emit (P : event -> Prop) (e : event) :
  P e -> respects (extends_with P) (emit e).
Proof. intros He s. exists [e]. simpl. auto. Qed.

Lemma extends_silent (P : event -> Prop) {A} (m : M state A) :
  (forall s, events (snd (m s)) = events s) -> respects (extends_with P) m.
Proof. intros Hm s. exists []. rewrite Hm, app_nil_r. auto. Qed.

(** The operations on the state, for [extends_with P]; [side] proves
    [P e] of an emitted event. *)
Ltac extends_prim side :=
  idtac;
  lazymatch goal with
  | |- respects _ (emit _) => apply extends_emit; side
  | |- respects _ get_world => apply extends_silent; intro; reflexivity
  | |- respects _ (set_world _) => apply extends_silent; intro; reflexivity
  | |- respects _ get_global_step => apply extends_silent; intro; reflexivity
  | |- respects _ (set_global_step _) => apply extends_silent; intro; reflexivity
  | |- respects _ get_best => apply extends_silent; intro; reflexivity
  | |- respects _ (set_best _) => apply extends_silent; intro; reflexivity
  end.

Ltac extends_order :=
  first [apply extends_with_refl | apply extends_with_trans].

Ltac extends_auto side :=
  respects_auto ltac:(extends_prim side) ltac:(extends_order).

Lemma train_loop_not_coordinator experiment name writer is_ddp world_size rank :
  rank <> 0 ->
  respects (extends_with (fun e => is_coordinator_effect e = false))
    (train_loop experiment name writer is_ddp world_size rank).
Proof.
  intros Hrank. apply Z.eqb_neq in Hrank.
  extends_auto ltac:(reflexivity).
Qed.

Lemma train_worker_not_coordinator experiment name world_size rank :
  rank <> 0 ->
  respects (extends_with (fun e => is_coordinator_effect e = false))
    (train_worker rank world_size experiment name).
Proof.
  intros Hrank. pose proof (train_loop_not_coordinator) as Hloop.
  apply Z.eqb_neq in Hrank.
  respects_auto
    ltac:(first [extends_prim ltac:(reflexivity)
                | apply Hloop; apply Z.eqb_neq; assumption])
    ltac:(extends_order).
Qed.

(** *** One training batch *)

(** The world after the protocol of one batch. *)
Definition world_after_backward (w : World) (batch : Batch Tensor) : World :=
  scale_backward (zero_grad w) batch.

Definition world_after_batch (w : World) (batch : Batch Tensor) : World :=
  scheduler_step (scaler_update (fst (scaler_step (world_after_backward w batch)))).

(** What [train_batch] logs: one [train_loss] entry at the new step on the
    coordinating process, nothing elsewhere. *)
Definition train_loss_log (writer : option SummaryWriter) (rank : Z)
    (dataset_name : string) (train_loss : pyfloat) (step : Z) : list event :=
  match writer with
  | Some wr =>
      if rank =? 0
      then [EAddScalar (log_dir wr) dataset_name "train_loss" train_loss step]
      else []
  | None => []
  end.

Lemma train_batch_run writer rank dataset_name total batch s :
  train_batch writer rank dataset_name total batch s =
  (Ok (fadd total (embedder_loss (zero_grad (world s)) batch)),
   mk_state (world_after_batch (world s) batch)
     (events s
      ++ step_block (snd (scaler_step (world_after_backward (world s) batch)))
      ++ train_loss_log writer rank dataset_name
           (embedder_loss (zero_grad (world s)) batch) (global_step s + 1))
     (global_step s + 1)
     (best_stsb_score s)).
Proof.
  unfold train_batch, train_loss_log, world_after_batch, world_after_backward,
    if_writer_and_rank0, step_block.
  destruct writer as [wr|]; [destruct (rank =? 0)|]; cbn;
    repeat rewrite <- app_assoc; reflexivity.
Qed.

Lemma train_loss_log_no_step writer rank dataset_name loss step :
  filter is_step_event (train_loss_log writer rank dataset_name loss step) = [].
Proof.
  unfold train_loss_log. destruct writer; [destruct (rank =? 0)|]; reflexivity.
Qed.

(** *** The protocol events come in whole blocks, one per step *)

Definition in_blocks (s s' : state) : Prop :=
  exists evs flags,
    events s' = events s ++ evs /\
    filter is_step_event evs = flat_map step_block flags /\
    global_step s' = global_step s + Z.of_nat (List.length flags).

Lemma in_blocks_refl s : in_blocks s s.
Proof. exists [], []. rewrite app_nil_r. simpl. repeat split. lia. Qed.

Lemma in_blocks_trans s1 s2 s3 :
  in_blocks s1 s2 -> in_blocks s2 s3 -> in_blocks s1 s3.
Proof.
  intros (e1 & f1 & H1 & F1 & G1) (e2 & f2 & H2 & F2 & G2).
  exists (e1 ++ e2), (f1 ++ f2).
  rewrite H2, H1, app_assoc, filter_app, flat_map_app, F1, F2, length_app.
  repeat split. lia.
Qed.

Lemma in_blocks_emit e : is_step_event e = false -> respects in_blocks (emit e).
Proof.
  intros He s. exists [e], []. simpl. rewrite He. repeat split. lia.
Qed.

Lemma in_blocks_silent {A} (m : M state A) :
  (forall s, events (snd (m s)) = events s /\ global_step (snd (m s)) = global_step s) ->
  respects in_blocks m.
Proof.
  intros Hm s. destruct (Hm s) as [He Hg]. exists [], [].
  rewrite He, Hg, app_nil_r. simpl. repeat split. lia.
Qed.

Lemma in_blocks_train_batch writer rank dataset_name total batch :
  respects in_blocks (train_batch writer rank dataset_name total batch).
Proof.
  intros s. rewrite train_batch_run. cbn [snd events global_step].
  eexists _, [_]. split; [reflexivity|]. split.
  - rewrite filter_app, train_loss_log_no_step, app_nil_r. reflexivity.
  - simpl. lia.
Qed.

Ltac in_blocks_prim :=
  idtac;
  lazymatch goal with
  | |- respects _ (emit _) => apply in_blocks_emit; reflexivity
  | |- respects _ (train_batch _ _ _ _ _) => apply in_blocks_train_batch
  | |- respects _ get_world => apply in_blocks_silent; intro; split; reflexivity
  | |- respects _ (set_world _) => apply in_blocks_silent; intro; split; reflexivity
  | |- respects _ get_global_step => apply in_blocks_silent; intro; split; reflexivity
  | |- respects _ get_best => apply in_blocks_silent; intro; split; reflexivity
  | |- respects _ (set_best _) => apply in_blocks_silent; intro; split; reflexivity
  end.

Ltac in_blocks_order := first [apply in_blocks_refl | apply in_blocks_trans].

Lemma epochs_in_blocks experiment name writer is_ddp world_size rank epochs :
  respects in_blocks
    (for_each epochs (epoch_body experiment name writer is_ddp world_size rank)).
Proof. respects_auto ltac:(in_blocks_prim) ltac:(in_blocks_order). Qed.

(** *** What leaves the step counter alone *)

Definition same_step (s s' : state) : Prop := global_step s' = global_step s.

Lemma same_step_refl s : same_step s s.
Proof. reflexivity. Qed.

Lemma same_step_trans s1 s2 s3 : same_step s1 s2 -> same_step s2 s3 -> same_step s1 s3.
Proof. unfold same_step. congruence. Qed.

Ltac same_step_prim :=
  idtac;
  lazymatch goal with
  | |- respects _ (emit _) => intro; reflexivity
  | |- respects _ get_world => intro; reflexivity
  | |- respects _ (set_world _) => intro; reflexivity
  | |- respects _ get_global_step => intro; reflexivity
  | |- respects _ get_best => intro; reflexivity
  | |- respects _ (set_best _) => intro; reflexivity
  end.

Ltac same_step_order := first [apply same_step_refl | apply same_step_trans].

Ltac same_step_auto := respects_auto ltac:(same_step_prim) ltac:(same_step_order).

(** *** [train_loop] up to its loops *)

Definition state_at_first_epoch (experiment : Experiment) (steps : Z) (w' : World)
    (s : state) : state :=
  mk_state (grad_scaler w')
    (events s ++ [ESetupScheduler (warmup_steps experiment) steps]) 0 NInf.

Lemma train_loop_run experiment name writer is_ddp world_size rank s :
  train_loop experiment name writer is_ddp world_size rank s =
  match total_steps experiment with
  | Raise e => (Raise e, s)
  | Ok steps =>
      match get_linear_schedule_with_warmup (world s) (warmup_steps experiment) steps with
      | Raise e =>
          (Raise e,
           mk_state (world s)
             (events s ++ [ESetupScheduler (warmup_steps experiment) steps])
             (global_step s) (best_stsb_score s))
      | Ok w' =>
          for_each (range (num_epochs experiment))
            (epoch_body experiment name writer is_ddp world_size rank)
            (state_at_first_epoch experiment steps w' s)
      end
  end.
Proof.
  unfold train_loop, setup_scheduler, setup_scaler, modify_world, state_at_first_epoch.
  unfold bind at 1. unfold lift at 1.
  destruct (total_steps experiment) as [steps|e]; [|reflexivity].
  unfold bind at 1 2 3. cbn [emit get_world world events global_step best_stsb_score].
  unfold lift at 1.
  destruct (get_linear_schedule_with_warmup (world s) (warmup_steps experiment) steps)
    as [w'|e]; reflexivity.
Qed.

(** *** The step counter over the loops *)

Lemma train_batches_run writer rank dataset_name (l : list (Batch Tensor)) :
  forall acc s, exists r s',
    for_fold l acc (train_batch writer rank dataset_name) s = (Ok r, s') /\
    global_step s' = global_step s + Z.of_nat (List.length l).
Proof.
  induction l as [|b l IH]; intros acc s.
  - exists acc, s. split; [reflexivity | simpl; lia].
  - cbn [for_fold]. unfold bind. rewrite train_batch_run.
    destruct (IH (fadd acc (embedder_loss (zero_grad (world s)) b))
                (mk_state (world_after_batch (world s) b)
                   (events s
                    ++ step_block (snd (scaler_step (world_after_backward (world s) b)))
                    ++ train_loss_log writer rank dataset_name
                         (embedder_loss (zero_grad (world s)) b) (global_step s + 1))
                   (global_step s + 1) (best_stsb_score s)))
      as (r & s' & Hrun & Hstep).
    exists r, s'. split; [exact Hrun|].
    rewrite Hstep. cbn [global_step List.length]. lia.
Qed.

(** Unpacks [H : (x <- m ;; k) s = (Ok _, _)]. *)
Ltac bind_inv H a s1 Hm :=
  apply bind_ok in H; destruct H as (a & s1 & Hm & H).

Lemma lift_ok {A} (r : outcome A) (s s' : state) (a : A) :
  lift r s = (Ok a, s') -> r = Ok a /\ s' = s.
Proof. unfold lift. intros Hl. injection Hl as -> ->. auto. Qed.

(** The number of batches of the train split of a dataset, and zero when
    it has none. *)
Definition train_len (data : dict (dict (Loader Tensor))) (dataset_name : string) : Z :=
  match dict_get data dataset_name with
  | Some splits =>
      match dict_get splits "train" with
      | Some train_loader => len train_loader
      | None => 0
      end
  | None => 0
  end.

(** The sum, over the dataset names that have a train split, of the
    length of its loader. *)
Definition steps_per_epoch (data : dict (dict (Loader Tensor)))
    (dataset_names : list string) : Z :=
  fold_right (fun dataset_name acc => train_len data dataset_name + acc) 0 dataset_names.

Definition has_batches (data : dict (dict (Loader Tensor))) (dataset_name : string) : Prop :=
  exists splits train_loader,
    dict_get data dataset_name = Some splits /\
    dict_get splits "train" = Some train_loader /\
    batches train_loader <> [].

Lemma getitem_ok {V} (d : dict V) (k : string) (v : V) :
  getitem d k = Ok v -> dict_get d k = Some v.
Proof. unfold getitem. destruct (dict_get d k); congruence. Qed.

Lemma dataset_epoch_ok data name writer is_ddp world_size rank epoch dataset_name s s' :
  dataset_epoch data name writer is_ddp world_size rank epoch dataset_name s = (Ok tt, s') ->
  has_batches data dataset_name /\
  global_step s' = global_step s + train_len data dataset_name.
Proof.
  intros Hrun. unfold dataset_epoch in Hrun.
  bind_inv Hrun u0 s0 H0.
  bind_inv Hrun splits s1 H1. apply lift_ok in H1 as [H1 ->].
  bind_inv Hrun train_loader s2 H2. apply lift_ok in H2 as [H2 ->].
  bind_inv Hrun u3 s3 H3.
  bind_inv Hrun val_loader s4 H4. apply lift_ok in H4 as [H4 ->].
  bind_inv Hrun total s5 H5.
  bind_inv Hrun avg s6 H6. apply lift_ok in H6 as [H6 ->].
  apply getitem_ok in H1. apply getitem_ok in H2.
  assert (Hlen : len train_loader <> 0).
  { unfold avg_train_loss, py_truediv_int in H6.
    destruct (len train_loader =? 0) eqn:E; [discriminate|].
    apply Z.eqb_neq in E. exact E. }
  split.
  - exists splits, train_loader. repeat split; auto.
    intros Hnil. apply Hlen. unfold len. rewrite Hnil. reflexivity.
  - assert (Hs0 : global_step s0 = global_step s).
    { unfold modify_world, bind in H0. simpl in H0. injection H0 as _ <-. reflexivity. }
    assert (Hs3 : global_step s3 = global_step s0).
    { destruct is_ddp; simpl in H3; injection H3 as _ <-; reflexivity. }
    destruct (train_batches_run writer rank dataset_name (batches train_loader) (Fin 0) s3)
      as (r & s5' & Hfold & Hstep).
    rewrite Hfold in H5. injection H5 as -> ->.
    assert (Htail : global_step s' = global_step s5).
    { lazymatch type of Hrun with
      | ?m _ = _ =>
          assert (Hm : respects same_step m) by same_step_auto;
          specialize (Hm s5); rewrite Hrun in Hm; exact Hm
      end. }
    unfold train_len. rewrite H1, H2. unfold len in *. lia.
Qed.

Lemma datasets_loop_ok data name writer is_ddp world_size rank epoch dataset_names :
  forall s s',
    for_each dataset_names
      (dataset_epoch data name writer is_ddp world_size rank epoch) s = (Ok tt, s') ->
    Forall (has_batches data) dataset_names /\
    global_step s' = global_step s + steps_per_epoch data dataset_names.
Proof.
  unfold for_each.
  induction dataset_names as [|dataset_name rest IH]; intros s s' Hrun.
  - injection Hrun as <-. split; [constructor | simpl; lia].
  - cbn [for_fold] in Hrun. bind_inv Hrun u s1 H1. destruct u.
    apply dataset_epoch_ok in H1 as [Hb Hs1].
    apply IH in Hrun as [Hrest Hs'].
    split; [constructor; assumption|].
    cbn [steps_per_epoch fold_right]. fold (steps_per_epoch data rest). lia.
Qed.

Lemma epoch_body_ok experiment name writer is_ddp world_size rank epoch s s' :
  epoch_body experiment name writer is_ddp world_size rank epoch s = (Ok tt, s') ->
  Forall (has_batches (data_loaders experiment)) (train_datasets experiment) /\
  global_step s' =
  global_step s + steps_per_epoch (data_loaders experiment) (train_datasets experiment).
Proof.
  intros Hrun. unfold epoch_body in Hrun.
  bind_inv Hrun u0 s0 H0. bind_inv Hrun u1 s1 H1. destruct u1.
  apply datasets_loop_ok in H1 as [Hall Hs1].
  assert (Hs0 : global_step s0 = global_step s).
  { destruct (rank =? 0); simpl in H0; injection H0 as _ <-; reflexivity. }
  assert (Hs' : global_step s' = global_step s1).
  { destruct (rank =? 0); simpl in Hrun; injection Hrun as <-; reflexivity. }
  split; [exact Hall | lia].
Qed.

Lemma epochs_loop_ok experiment name writer is_ddp world_size rank epochs :
  forall s s',
    for_each epochs (epoch_body experiment name writer is_ddp world_size rank) s
    = (Ok tt, s') ->
    (epochs <> [] ->
     Forall (has_batches (data_loaders experiment)) (train_datasets experiment)) /\
    global_step s' =
    global_step s
    + Z.of_nat (List.length epochs)
      * steps_per_epoch (data_loaders experiment) (train_datasets experiment).
Proof.
  unfold for_each. induction epochs as [|epoch rest IH]; intros s s' Hrun.
  - injection Hrun as <-. split; [congruence | simpl; lia].
  - cbn [for_fold] in Hrun. bind_inv Hrun u s1 H1. destruct u.
    apply epoch_body_ok in H1 as [Hall Hs1].
    apply IH in Hrun as [_ Hs'].
    split; [intros _; exact Hall|].
    cbn [List.length]. lia.
Qed.

Lemma sum_train_lens_spec data dataset_names :
  forall acc r,
    sum_train_lens data dataset_names acc = Ok r ->
    r = acc + steps_per_epoch data dataset_names.
Proof.
  induction dataset_names as [|dataset_name rest IH]; intros acc r Hsum.
  - simpl in *. injection Hsum as <-. lia.
  - cbn [sum_train_lens steps_per_epoch fold_right] in *.
    fold (steps_per_epoch data rest).
    unfold train_len, getitem, dict_mem in *.
    destruct (dict_get data dataset_name) as [splits|]; [|discriminate].
    cbn [obind] in Hsum.
    destruct (dict_get splits "train") as [train_loader|]; cbn [obind] in Hsum.
    + apply IH in Hsum. lia.
    + apply IH in Hsum. lia.
Qed.

Lemma total_steps_spec experiment steps :
  total_steps experiment = Ok steps ->
  steps =
  num_epochs experiment
  * steps_per_epoch (data_loaders experiment) (train_datasets experiment).
Proof.
  unfold total_steps, total_steps_per_epoch. intros Hsteps.
  destruct (sum_train_lens (data_loaders experiment) (train_datasets experiment) 0)
    as [per_epoch|] eqn:Hsum; [|discriminate].
  apply sum_train_lens_spec in Hsum. cbn [obind] in Hsteps.
  injection Hsteps as <-. lia.
Qed.

Lemma range_length n : Z.of_nat (List.length (range n)) = Z.max 0 n.
Proof. unfold range. rewrite length_map, length_seq. lia. Qed.

Lemma range_first n : 1 <= n -> exists rest, range n = 0 :: rest.
Proof.
  intros Hn. unfold range.
  destruct (Z.to_nat n) as [|k] eqn:E; [lia|].
  exists (map Z.of_nat (seq 1 k)). reflexivity.
Qed.

Lemma train_loop_in_blocks experiment name writer is_ddp world_size rank s :
  exists evs flags,
    events (snd (train_loop experiment name writer is_ddp world_size rank s))
    = events s ++ evs /\
    filter is_step_event evs = flat_map step_block flags /\
    (forall steps w',
        total_steps experiment = Ok steps ->
        get_linear_schedule_with_warmup (world s) (warmup_steps experiment) steps = Ok w' ->
        In (ESetupScheduler (warmup_steps experiment) steps) evs /\
        global_step (snd (train_loop experiment name writer is_ddp world_size rank s))
        = Z.of_nat (List.length flags)).
Proof.
  rewrite train_loop_run.
  destruct (total_steps experiment) as [steps|e].
  2: { exists [], []. rewrite app_nil_r.
       split; [reflexivity|]. split; [reflexivity|]. intros ? ? Hx. discriminate. }
  destruct (get_linear_schedule_with_warmup (world s) (warmup_steps experiment) steps)
    as [w'|e] eqn:Hsched.
  2: { exists [ESetupScheduler (warmup_steps experiment) steps], [].
       split; [reflexivity|]. split; [reflexivity|].
       intros ? ? Hx Hy. injection Hx as <-. congruence. }
  destruct (epochs_in_blocks experiment name writer is_ddp world_size rank
              (range (num_epochs experiment))
              (state_at_first_epoch experiment steps w' s))
    as (evs & flags & Hev & Hfilter & Hstep).
  exists (ESetupScheduler (warmup_steps experiment) steps :: evs), flags.
  split; [|split].
  - rewrite Hev. cbn [state_at_first_epoch events]. rewrite <- app_assoc. reflexivity.
  - cbn [filter is_step_event]. exact Hfilter.
  - intros steps' w'' Hsteps _. injection Hsteps as <-.
    split; [left; reflexivity|].
    rewrite Hstep. cbn [state_at_first_epoch global_step]. lia.
Qed.

(** C4.  In every run of [train_loop] that gets past the set-up, the step
    counter counts from 0 the blocks of the trace, one per training batch;
    when the run ends normally the counter equals [num_epochs] times the
    sum of the lengths of the train loaders of the training datasets that
    have a train split, which is the [total_steps] handed to
    [setup_scheduler]. *)
Theorem global_step_counts_batches experiment name writer is_ddp world_size rank s :
  0 <= num_epochs experiment ->
  exists evs flags,
    events (snd (train_loop experiment name writer is_ddp world_size rank s))
    = events s ++ evs /\
    filter is_step_event evs = flat_map step_block flags /\
    (forall steps w',
        total_steps experiment = Ok steps ->
        get_linear_schedule_with_warmup (world s) (warmup_steps experiment) steps = Ok w' ->
        global_step (snd (train_loop experiment name writer is_ddp world_size rank s))
        = Z.of_nat (List.length flags)) /\
    (fst (train_loop experiment name writer is_ddp world_size rank s) = Ok tt ->
     global_step (snd (train_loop experiment name writer is_ddp world_size rank s))
     = num_epochs experiment
       * steps_per_epoch (data_loaders experiment) (train_datasets experiment) /\
     total_steps experiment
     = Ok (global_step (snd (train_loop experiment name writer is_ddp world_size rank s))) /\
     In (ESetupScheduler (warmup_steps experiment)
           (global_step (snd (train_loop experiment name writer is_ddp world_size rank s))))
        evs).
Proof.
  intros Hepochs.
  destruct (train_loop_in_blocks experiment name writer is_ddp world_size rank s)
    as (evs & flags & Hev & Hfilter & Hsetup).
  exists evs, flags. split; [exact Hev|]. split; [exact Hfilter|]. split.
  - intros steps w' Hsteps Hsched. apply (Hsetup steps w' Hsteps Hsched).
  - intros Hok.
    assert (Hend : global_step (snd (train_loop experiment name writer is_ddp world_size rank s))
                   = num_epochs experiment
                     * steps_per_epoch (data_loaders experiment) (train_datasets experiment)
                   /\ exists w', total_steps experiment
                       = Ok (num_epochs experiment
                             * steps_per_epoch (data_loaders experiment)
                                 (train_datasets experiment))
                       /\ get_linear_schedule_with_warmup (world s)
                            (warmup_steps experiment)
                            (num_epochs experiment
                             * steps_per_epoch (data_loaders experiment)
                                 (train_datasets experiment)) = Ok w').
    { rewrite train_loop_run in Hok |- *.
      destruct (total_steps experiment) as [steps|e] eqn:Hsteps; [|discriminate].
      pose proof (total_steps_spec experiment steps Hsteps) as Hspec. subst steps.
      destruct (get_linear_schedule_with_warmup (world s) (warmup_steps experiment) _)
        as [w'|e] eqn:Hsched; [|discriminate].
      split; [|exists w'; auto].
      destruct (for_each _ _ _) as [r s'] eqn:Hloop. simpl in Hok. subst r.
      apply epochs_loop_ok in Hloop as [_ Hstep].
      cbn [snd]. rewrite Hstep. cbn [state_at_first_epoch global_step].
      rewrite range_length, Z.max_r by exact Hepochs. lia. }
    destruct Hend as (Hgs & w' & Hsteps & Hsched).
    rewrite Hgs. repeat split; auto.
    apply (Hsetup _ w' Hsteps Hsched).
Qed.

(** C7.  A process whose rank is not 0 adds to the trace no print, no
    metric log entry, no writer, no evaluation and no checkpoint file,
    neither in [train_loop] nor in the whole of [train_worker]: these
    effects are left to the coordinating process. *)
Theorem rank_gated_side_effects experiment name writer is_ddp world_size rank s :
  rank <> 0 ->
  (exists evs,
      events (snd (train_loop experiment name writer is_ddp world_size rank s))
      = events s ++ evs /\
      Forall (fun e => is_coordinator_effect e = false) evs) /\
  (exists evs,
      events (snd (train_worker rank world_size experiment name s)) = events s ++ evs /\
      Forall (fun e => is_coordinator_effect e = false) evs).
Proof.
  intros Hrank. split.
  - apply (train_loop_not_coordinator experiment name writer is_ddp world_size rank Hrank s).
  - apply (train_worker_not_coordinator experiment name world_size rank Hrank s).
Qed.

(** *** Teardown of the process group *)

Lemma bind_assoc {S A B C} (m : M S A) (f : A -> M S B) (g : B -> M S C) (s : S) :
  bind (bind m f) g s = bind m (fun a => bind (f a) g) s.
Proof. unfold bind. destruct (m s) as [[a|e] s1]; reflexivity. Qed.

Lemma bind_ext {S A B} (m : M S A) (k k' : A -> M S B) (s : S) :
  (forall a s1, k a s1 = k' a s1) -> bind m k s = bind m k' s.
Proof. intros Hk. unfold bind. destruct (m s) as [[a|e] s1]; auto. Qed.

(** Lines 272-315: [train_worker] up to its last statement. *)
Definition train_worker_body (rank world_size : Z) (experiment : Experiment)
    (name : string) : M state unit :=
  emit (EInitProcessGroup rank world_size) ;;
  let is_master := rank =? 0 in
  writer <- initialize_writer name is_master ;;
  when is_master (emit (EMakedirs "weights")) ;;
  data <- lift (replace_train_loaders (data_loaders experiment)
                  (train_datasets experiment) world_size rank) ;;
  let experiment' :=
    mk_experiment _ data (train_datasets experiment)
      (num_epochs experiment) (warmup_steps experiment) in
  train_loop experiment' name writer true world_size rank ;;
  match writer with
  | Some wr => when is_master (writer_close wr)
  | None => ret tt
  end.

Lemma train_worker_split rank world_size experiment name s :
  train_worker rank world_size experiment name s =
  (train_worker_body rank world_size experiment name ;; emit EDestroyProcessGroup) s.
Proof.
  unfold train_worker, train_worker_body.
  repeat (rewrite bind_assoc; apply bind_ext; intros).
  reflexivity.
Qed.

Lemma train_loop_no_destroy experiment name writer is_ddp world_size rank :
  respects (extends_with (fun e => is_destroy e = false))
    (train_loop experiment name writer is_ddp world_size rank).
Proof. extends_auto ltac:(reflexivity). Qed.

Lemma train_worker_body_no_destroy rank world_size experiment name :
  respects (extends_with (fun e => is_destroy e = false))
    (train_worker_body rank world_size experiment name).
Proof.
  pose proof train_loop_no_destroy as Hloop.
  respects_auto
    ltac:(first [extends_prim ltac:(reflexivity) | apply Hloop])
    ltac:(extends_order).
Qed.

(** The writer of a worker and the state in which it calls [train_loop]. *)
Definition worker_writer (name : string) (rank : Z) : option SummaryWriter :=
  if rank =? 0 then Some (mk_writer ("runs/" ++ name)%string) else None.

Definition state_before_train_loop (rank world_size : Z) (name : string) (s : state)
  : state :=
  mk_state (world s)
    (events s
     ++ EInitProcessGroup rank world_size
        :: (if rank =? 0
            then [EWriterOpen ("runs/" ++ name)%string; EMakedirs "weights"]
            else []))
    (global_step s) (best_stsb_score s).

Lemma train_worker_run rank world_size experiment name s data :
  replace_train_loaders (data_loaders experiment) (train_datasets experiment)
    world_size rank = Ok data ->
  train_worker rank world_size experiment name s
  = (train_loop
       (mk_experiment _ data (train_datasets experiment) (num_epochs experiment)
          (warmup_steps experiment))
       name (worker_writer name rank) true world_size rank ;;
     match worker_writer name rank with
     | Some wr => when (rank =? 0) (writer_close wr)
     | None => ret tt
     end ;;
     emit EDestroyProcessGroup) (state_before_train_loop rank world_size name s).
Proof.
  intros Hdata. unfold train_worker, worker_writer, state_before_train_loop, initialize_writer.
  unfold bind at 1. cbn [emit].
  destruct (rank =? 0);
    unfold bind at 1; cbn [bind emit ret when world events global_step best_stsb_score];
    unfold bind at 1, lift at 1; rewrite Hdata;
    repeat rewrite <- app_assoc; reflexivity.
Qed.

(** C3, as the code has it.  [train_worker] leaves the process group as
    its last action when everything before it returned normally; when
    anything before it raises, the group is not destroyed; and an
    exception of [train_loop] leaves [train_worker] as it is, in the state
    [train_loop] reached. *)
Theorem train_worker_teardown rank world_size experiment name s :
  exists evs,
    Forall (fun e => is_destroy e = false) evs /\
    match fst (train_worker rank world_size experiment name s) with
    | Ok _ =>
        events (snd (train_worker rank world_size experiment name s))
        = events s ++ evs ++ [EDestroyProcessGroup]
    | Raise _ =>
        events (snd (train_worker rank world_size experiment name s)) = events s ++ evs
    end /\
    (forall data e s',
        replace_train_loaders (data_loaders experiment) (train_datasets experiment)
          world_size rank = Ok data ->
        train_loop
          (mk_experiment _ data (train_datasets experiment) (num_epochs experiment)
             (warmup_steps experiment))
          name (worker_writer name rank) true world_size rank
          (state_before_train_loop rank world_size name s) = (Raise e, s') ->
        train_worker rank world_size experiment name s = (Raise e, s')).
Proof.
  destruct (train_worker_body_no_destroy rank world_size experiment name s)
    as (evs & Hev & Hno).
  exists evs. split; [exact Hno|]. split.
  - rewrite train_worker_split. unfold bind.
    destruct (train_worker_body rank world_size experiment name s) as [[u|e] s1];
      cbn [fst snd emit events] in *.
    + rewrite Hev, app_assoc. reflexivity.
    + exact Hev.
  - intros data e s' Hdata Hloop.
    rewrite (train_worker_run rank world_size experiment name s data Hdata).
    unfold bind at 1. rewrite Hloop. reflexivity.
Qed.

(** *** Datasets without a usable train split *)

Lemma dict_get_in_keys {V} (d : dict V) (k : string) :
  In k (keys d) -> exists v, dict_get d k = Some v.
Proof.
  induction d as [|[k' v'] d IH]; simpl; intros Hin; [contradiction|].
  destruct (String.eqb_spec k k') as [->|Hne]; [eauto|].
  destruct Hin as [Heq|Hin]; [congruence | auto].
Qed.

Lemma find_val_loader_ok data dataset_name is_ddp world_size rank splits :
  dict_get data dataset_name = Some splits ->
  exists v, find_val_loader data dataset_name is_ddp world_size rank = Ok v.
Proof.
  intros Hd. unfold find_val_loader, getitem. rewrite Hd. cbn [obind].
  destruct (filter (contains "validation") (keys splits)) as [|key rest] eqn:Hf; [eauto|].
  assert (Hin : In key (keys splits)).
  { assert (Hk : In key (filter (contains "validation") (keys splits)))
      by (rewrite Hf; left; reflexivity).
    apply filter_In in Hk. tauto. }
  destruct (dict_get_in_keys splits key Hin) as [v Hv]. rewrite Hv. cbn [obind].
  destruct is_ddp; eauto.
Qed.

Lemma bind_fst_raise {S A B} (m : M S A) (k : A -> M S B) (s : S) (e : exn) :
  fst (m s) = Raise e -> fst (bind m k s) = Raise e.
Proof. unfold bind. destruct (m s) as [[a|e'] s1]; simpl; congruence. Qed.

Lemma dataset_epoch_no_train data name writer is_ddp world_size rank epoch
    dataset_name s splits :
  dict_get data dataset_name = Some splits ->
  dict_get splits "train" = None ->
  fst (dataset_epoch data name writer is_ddp world_size rank epoch dataset_name s)
  = Raise (KeyError "train").
Proof.
  intros Hd Ht. unfold dataset_epoch.
  unfold bind at 1. cbn [modify_world bind get_world set_world].
  unfold bind at 1, lift at 1, getitem at 1. rewrite Hd.
  unfold bind at 1, lift at 1, getitem at 1. rewrite Ht. reflexivity.
Qed.

Lemma dataset_epoch_no_batches data name writer is_ddp world_size rank epoch
    dataset_name s splits train_loader :
  dict_get data dataset_name = Some splits ->
  dict_get splits "train" = Some train_loader ->
  batches train_loader = [] ->
  fst (dataset_epoch data name writer is_ddp world_size rank epoch dataset_name s)
  = Raise ZeroDivisionError.
Proof.
  intros Hd Ht Hb. unfold dataset_epoch.
  destruct (find_val_loader_ok data dataset_name is_ddp world_size rank splits Hd)
    as [v Hv].
  unfold bind at 1. cbn [modify_world bind get_world set_world].
  unfold bind at 1, lift at 1, getitem at 1. rewrite Hd.
  unfold bind at 1, lift at 1, getitem at 1. rewrite Ht.
  unfold bind at 1.
  destruct (when is_ddp (emit (ESetEpoch dataset_name epoch)) _) as [[u|e] s1] eqn:Hw.
  2: { destruct is_ddp; discriminate. }
  unfold bind at 1, lift at 1. rewrite Hv.
  rewrite Hb. cbn [for_fold]. unfold bind at 1, ret at 1.
  unfold bind at 1, lift at 1, avg_train_loss, py_truediv_int, len. rewrite Hb.
  reflexivity.
Qed.

Lemma sum_train_lens_skips data dataset_name rest acc splits :
  dict_get data dataset_name = Some splits ->
  dict_get splits "train" = None ->
  sum_train_lens data (dataset_name :: rest) acc = sum_train_lens data rest acc.
Proof.
  intros Hd Ht. cbn [sum_train_lens]. unfold getitem, dict_mem.
  rewrite Hd. cbn [obind]. rewrite Ht. reflexivity.
Qed.

(** The first dataset of the order decides how [train_loop] ends when its
    [dataset_epoch] raises. *)
Lemma train_loop_first_dataset experiment name writer is_ddp world_size rank s
    dataset_name rest steps w' e :
  train_datasets experiment = dataset_name :: rest ->
  1 <= num_epochs experiment ->
  total_steps experiment = Ok steps ->
  get_linear_schedule_with_warmup (world s) (warmup_steps experiment) steps = Ok w' ->
  (forall s0,
      fst (dataset_epoch (data_loaders experiment) name writer is_ddp world_size rank 0
             dataset_name s0) = Raise e) ->
  fst (train_loop experiment name writer is_ddp world_size rank s) = Raise e.
Proof.
  intros Hnames Hepochs Hsteps Hsched Hfirst.
  rewrite train_loop_run, Hsteps, Hsched.
  destruct (range_first (num_epochs experiment) Hepochs) as [epochs ->].
  unfold for_each at 1. cbn [for_fold]. apply bind_fst_raise.
  unfold epoch_body. rewrite Hnames. unfold bind at 1.
  destruct (when (rank =? 0) _ _) as [[u|e'] s1] eqn:Hw.
  2: { destruct (rank =? 0); discriminate. }
  apply bind_fst_raise. unfold for_each. cbn [for_fold].
  apply bind_fst_raise. apply Hfirst.
Qed.

(** C9.  [train_loop] reads the "train" split of every dataset name of the
    order and divides by its length: a dataset without a train split,
    which the total-step computation skips, makes its dataset-epoch raise
    [KeyError]; a train loader without batches makes it raise
    [ZeroDivisionError]; that is also how [train_loop] ends when the
    dataset is the first of the order; and a run of at least one epoch
    that ends normally had a non-empty train split for every name. *)
Theorem train_split_required experiment name writer is_ddp world_size rank :
  (forall epoch dataset_name s splits,
      dict_get (data_loaders experiment) dataset_name = Some splits ->
      dict_get splits "train" = None ->
      fst (dataset_epoch (data_loaders experiment) name writer is_ddp world_size rank
             epoch dataset_name s) = Raise (KeyError "train") /\
      (forall rest acc,
          sum_train_lens (data_loaders experiment) (dataset_name :: rest) acc
          = sum_train_lens (data_loaders experiment) rest acc)) /\
  (forall epoch dataset_name s splits train_loader,
      dict_get (data_loaders experiment) dataset_name = Some splits ->
      dict_get splits "train" = Some train_loader ->
      len train_loader = 0 ->
      fst (dataset_epoch (data_loaders experiment) name writer is_ddp world_size rank
             epoch dataset_name s) = Raise ZeroDivisionError) /\
  (forall s dataset_name rest splits steps w',
      train_datasets experiment = dataset_name :: rest ->
      1 <= num_epochs experiment ->
      total_steps experiment = Ok steps ->
      get_linear_schedule_with_warmup (world s) (warmup_steps experiment) steps = Ok w' ->
      dict_get (data_loaders experiment) dataset_name = Some splits ->
      (dict_get splits "train" = None ->
       fst (train_loop experiment name writer is_ddp world_size rank s)
       = Raise (KeyError "train")) /\
      (forall train_loader,
          dict_get splits "train" = Some train_loader ->
          len train_loader = 0 ->
          fst (train_loop experiment name writer is_ddp world_size rank s)
          = Raise ZeroDivisionError)) /\
  (forall s,
      1 <= num_epochs experiment ->
      fst (train_loop experiment name writer is_ddp world_size rank s) = Ok tt ->
      Forall (has_batches (data_loaders experiment)) (train_datasets experiment)).
Proof.
  assert (Hempty : forall l : Loader Tensor, len l = 0 -> batches l = []).
  { intros l Hl. unfold len in Hl. destruct (batches l); [reflexivity | discriminate]. }
  split; [|split; [|split]].
  - intros epoch dataset_name s splits Hd Ht. split.
    + eapply dataset_epoch_no_train; eauto.
    + intros rest acc. eapply sum_train_lens_skips; eauto.
  - intros epoch dataset_name s splits train_loader Hd Ht Hl.
    eapply dataset_epoch_no_batches; eauto.
  - intros s dataset_name rest splits steps w' Hnames Hepochs Hsteps Hsched Hd. split.
    + intros Ht. eapply train_loop_first_dataset; eauto.
      intros s0. eapply dataset_epoch_no_train; eauto.
    + intros train_loader Ht Hl. eapply train_loop_first_dataset; eauto.
      intros s0. eapply dataset_epoch_no_batches; eauto.
  - intros s Hepochs Hok. rewrite train_loop_run in Hok.
    destruct (total_steps experiment) as [steps|e]; [|discriminate].
    destruct (get_linear_schedule_with_warmup _ _ _) as [w'|e]; [|discriminate].
    destruct (for_each _ _ _) as [r s'] eqn:Hloop. simpl in Hok. subst r.
    apply epochs_loop_ok in Hloop as [Hall _]. apply Hall.
    destruct (range_first (num_epochs experiment) Hepochs) as [epochs ->]. discriminate.
Qed.

(** *** The best-score tracker *)

Lemma float_le_refl a : is_nan a = false -> float_le a a = true.
Proof.
  destruct a; simpl; try congruence. intros _. apply Qle_bool_iff, Qle_refl.
Qed.

Lemma float_le_trans a b c :
  float_le a b = true -> float_le b c = true -> float_le a c = true.
Proof.
  destruct a, b, c; simpl; try congruence.
  rewrite !Qle_bool_iff. apply Qle_trans.
Qed.

Lemma float_le_not_nan a b : float_le a b = true -> is_nan a = false /\ is_nan b = false.
Proof. destruct a, b; simpl; auto; discriminate. Qed.

Lemma float_gt_le x b : float_gt x b = true -> float_le b x = true.
Proof.
  destruct x, b; simpl; try congruence.
  rewrite negb_true_iff. intros Hle. apply Qle_bool_iff.
  destruct (Qlt_le_dec q0 q) as [Hlt|Hge].
  - apply Qlt_le_weak. exact Hlt.
  - apply Qle_bool_iff in Hge. congruence.
Qed.

Lemma float_eqb_not_gt x b : float_eqb x b = true -> float_gt x b = false.
Proof.
  destruct x, b; simpl; try congruence.
  intros Heq. apply Qeq_bool_iff in Heq. apply negb_false_iff, Qle_bool_iff.
  rewrite Heq. apply Qle_refl.
Qed.

(** The events of [save_best_model]. *)
Definition save_events (name : string) : list event :=
  [EMakedirs "weights";
   ETorchSave ("weights/" ++ name ++ ".pt")%string;
   EPrint (MsgSaved ("weights/" ++ name ++ ".pt")%string)].

Lemma checkpoint_check_run name is_ddp x s :
  checkpoint_check name is_ddp x s =
  (Ok tt,
   if float_gt x (best_stsb_score s)
   then mk_state (world s) (events s ++ save_events name) (global_step s) x
   else s).
Proof.
  unfold checkpoint_check, save_events. cbn [bind get_best].
  destruct (float_gt x (best_stsb_score s)); [|reflexivity].
  destruct is_ddp; unfold save_best_model, bind, emit, set_best;
    cbn [world events global_step best_stsb_score];
    repeat rewrite <- app_assoc; reflexivity.
Qed.

(** *** What [evaluate] returns and leaves behind *)

(** The state [evaluate] leaves behind: the call is recorded and the inner
    model is in evaluation mode. *)
Definition state_after_evaluate (s : state) : state :=
  mk_state (inner_model_eval (world s)) (events s ++ [EEvaluate])
    (global_step s) (best_stsb_score s).

(** What [evaluate] returns or raises, from the world it has put in
    evaluation mode. *)
Definition evaluate_result (data_loader : dict (dict (Loader Tensor))) (w : World)
  : outcome (pyfloat * pyfloat) :=
  let! stsb := getitem data_loader "stsb" in
  let! validation := getitem stsb "validation" in
  let! acc := evaluate_batches w ([], [], []) (batches validation) in
  let '(vectors_one, vectors_two, labels) := acc in
  let! vectors_one := torch_cat torch_cat_empty vectors_one in
  let! vectors_two := torch_cat torch_cat_empty vectors_two in
  let! sims := float_similarities vectors_one vectors_two in
  let! eval_pearson_cosine := pearsonr sims labels in
  let! eval_spearman_cosine := spearmanr sims labels in
  Ok (eval_pearson_cosine, eval_spearman_cosine).

Lemma evaluate_run data_loader s :
  evaluate data_loader s
  = (evaluate_result data_loader (inner_model_eval (world s)), state_after_evaluate s).
Proof.
  unfold evaluate, evaluate_result, state_after_evaluate, modify_world.
  unfold bind, lift, emit, get_world, set_world, ret, obind.
  cbn [world events global_step best_stsb_score].
  repeat lazymatch goal with
         | |- context [match ?x with _ => _ end] => destruct x
         end; reflexivity.
Qed.

(** C6.  For matrices [a] (m rows) and [b] (n rows) of equal column
    width, [cosine_sim a b] returns an m-by-n matrix whose entry (i, j) is
    the dot product of row i of [a] and row j of [b] divided by the
    product of their Euclidean norms; and what [evaluate] hands to
    [pearsonr] and [spearmanr] as similarities of the concatenated
    embeddings is the diagonal of that matrix and nothing else of it:
    entry i is the cosine of row i of the first embeddings and row i of
    the second. *)
Theorem cosine_sim_pairwise_and_diagonal :
  (forall (F : Type) (zero : F) (add mul div : F -> F -> F) (sqrt : F -> F)
          (a b : tensor2 F),
      ncols a = ncols b ->
      exists c,
        cosine_sim zero add mul div sqrt a b = Ok c /\
        nrows c = nrows a /\ ncols c = nrows b /\ well_shaped c /\
        (forall i j ai bj,
            nth_error (rows a) i = Some ai -> nth_error (rows b) j = Some bj ->
            entry c i j = Some (cosine_of zero add mul div sqrt ai bj)) /\
        similarities zero add mul div sqrt a b = Ok (diagonal c) /\
        List.length (diagonal c) = Nat.min (nrows a) (nrows b) /\
        (forall i ai bi,
            nth_error (rows a) i = Some ai -> nth_error (rows b) i = Some bi ->
            nth_error (diagonal c) i = Some (cosine_of zero add mul div sqrt ai bi))) /\
  (forall data_loader s stsb validation vectors_one vectors_two labels a b,
      dict_get data_loader "stsb" = Some stsb ->
      dict_get stsb "validation" = Some validation ->
      evaluate_batches (inner_model_eval (world s)) ([], [], []) (batches validation)
      = Ok (vectors_one, vectors_two, labels) ->
      torch_cat torch_cat_empty vectors_one = Ok a ->
      torch_cat torch_cat_empty vectors_two = Ok b ->
      ncols a = ncols b ->
      exists c,
        cosine_sim (Fin 0) fadd fmul fdiv tensor_sqrt a b = Ok c /\
        List.length (diagonal c) = Nat.min (nrows a) (nrows b) /\
        (forall i ai bi,
            nth_error (rows a) i = Some ai -> nth_error (rows b) i = Some bi ->
            nth_error (diagonal c) i
            = Some (cosine_of (Fin 0) fadd fmul fdiv tensor_sqrt ai bi)) /\
        fst (evaluate data_loader s)
        = (let! eval_pearson_cosine := pearsonr (diagonal c) labels in
           let! eval_spearman_cosine := spearmanr (diagonal c) labels in
           Ok (eval_pearson_cosine, eval_spearman_cosine))).
Proof.
  split.
  - intros F zero add mul div sqrt a b Hcols.
    exact (cosine_sim_equal_widths zero add mul div sqrt a b Hcols).
  - intros data_loader s stsb validation vectors_one vectors_two labels a b
      Hstsb Hval Hloop Ha Hb Hcols.
    destruct (cosine_sim_equal_widths (Fin 0) fadd fmul fdiv tensor_sqrt a b Hcols)
      as (c & Hc & _ & _ & _ & _ & Hsim & Hlen & Hdiag).
    exists c. split; [exact Hc|]. split; [exact Hlen|]. split; [exact Hdiag|].
    rewrite evaluate_run. cbn [fst]. unfold evaluate_result, getitem.
    rewrite Hstsb. cbn [obind]. rewrite Hval. cbn [obind]. rewrite Hloop. cbn [obind].
    cbv beta iota. rewrite Ha. cbn [obind]. rewrite Hb. cbn [obind].
    unfold float_similarities. rewrite Hsim. reflexivity.
Qed.

(** *** The evaluation and the checkpoint check, and the tracker over a run *)

(** Lines 212-227 in one piece: the evaluation, its report, and the
    decision on the checkpoint. *)
Definition next_best (best current_stsb_score : pyfloat) : pyfloat :=
  if float_gt current_stsb_score best then current_stsb_score else best.

Definition combined_score (results : pyfloat * pyfloat) : pyfloat :=
  fdiv (fadd (fst results) (snd results)) (Fin 2).

Definition report_events (wr : SummaryWriter) (dataset_name : string)
    (results : pyfloat * pyfloat) (step : Z) : list event :=
  [EPrint (MsgStsb dataset_name (fst results) (snd results));
   EAddScalar (log_dir wr) dataset_name "pearsonr" (fst results) step;
   EAddScalar (log_dir wr) dataset_name "spearmanr" (snd results) step].

Lemma evaluate_and_checkpoint_run data name is_ddp dataset_name wr s :
  evaluate_and_checkpoint data name is_ddp dataset_name wr s =
  match evaluate_result data (inner_model_eval (world s)) with
  | Raise e => (Raise e, state_after_evaluate s)
  | Ok results =>
      (Ok tt,
       mk_state (inner_model_eval (world s))
         (events s ++ EEvaluate
            :: report_events wr dataset_name results (global_step s)
            ++ (if float_gt (combined_score results) (best_stsb_score s)
                then save_events name else []))
         (global_step s)
         (next_best (best_stsb_score s) (combined_score results)))
  end.
Proof.
  unfold evaluate_and_checkpoint. unfold bind at 1. rewrite evaluate_run.
  destruct (evaluate_result data (inner_model_eval (world s))) as [results|e];
    [|reflexivity].
  unfold bind, get_global_step, log_metrics, emit, state_after_evaluate.
  cbn [world events global_step best_stsb_score].
  rewrite checkpoint_check_run.
  unfold next_best, combined_score, report_events.
  cbn [world events global_step best_stsb_score].
  destruct (float_gt _ _); repeat rewrite <- app_assoc; reflexivity.
Qed.

(** What the trace shows of the tracker: the combined score of every
    evaluation, read off the message that prints its two results, and
    every checkpoint file written. *)
Inductive tracker_item : Type :=
| Scored (current_stsb_score : pyfloat)
| Saved (path : string).

Definition tracker_view (evs : list event) : list tracker_item :=
  flat_map (fun e =>
              match e with
              | EPrint (MsgStsb _ pearson spearman) =>
                  [Scored (combined_score (pearson, spearman))]
              | ETorchSave path => [Saved path]
              | _ => []
              end) evs.

(** The tracker as the specification words it: from the best score so
    far, a score is saved and becomes the best exactly when it is strictly
    greater. *)
Definition best_after (best : pyfloat) (scores : list pyfloat) : pyfloat :=
  fold_left next_best scores best.

Fixpoint expected_view (path : string) (best : pyfloat) (scores : list pyfloat)
  : list tracker_item :=
  match scores with
  | [] => []
  | x :: rest =>
      Scored x :: (if float_gt x best then [Saved path] else [])
      ++ expected_view path (next_best best x) rest
  end.

Lemma expected_view_app path scores1 scores2 :
  forall best,
    expected_view path best (scores1 ++ scores2)
    = expected_view path best scores1
      ++ expected_view path (best_after best scores1) scores2.
Proof.
  induction scores1 as [|x scores1 IH]; intros best; cbn [app expected_view]; [reflexivity|].
  rewrite IH. cbn [best_after fold_left]. rewrite <- app_assoc. reflexivity.
Qed.

Lemma next_best_le best x :
  is_nan best = false ->
  float_le best (next_best best x) = true /\ is_nan (next_best best x) = false.
Proof.
  intros Hn. unfold next_best. destruct (float_gt x best) eqn:Hgt.
  - pose proof (float_gt_le x best Hgt) as Hle. split; [exact Hle|].
    apply float_le_not_nan in Hle. tauto.
  - split; [apply float_le_refl; exact Hn | exact Hn].
Qed.

Lemma best_after_firstn_le scores :
  forall best k,
    is_nan best = false ->
    float_le (best_after best (firstn k scores)) (best_after best (firstn (S k) scores))
    = true.
Proof.
  induction scores as [|x scores IH]; intros best k Hn.
  - rewrite !firstn_nil. apply float_le_refl. exact Hn.
  - destruct k as [|k].
    + cbn [firstn best_after fold_left]. apply next_best_le. exact Hn.
    + change (firstn (S (S k)) (x :: scores)) with (x :: firstn (S k) scores).
      change (firstn (S k) (x :: scores)) with (x :: firstn k scores).
      cbn [best_after fold_left]. apply IH. apply next_best_le. exact Hn.
Qed.

(** The view of the trace is that of the specification's tracker started
    at the best score of the state, and the state ends with its best
    score. *)
Definition tracked (name : string) (s s' : state) : Prop :=
  exists evs scores,
    events s' = events s ++ evs /\
    tracker_view evs
    = expected_view ("weights/" ++ name ++ ".pt")%string (best_stsb_score s) scores /\
    best_stsb_score s' = best_after (best_stsb_score s) scores.

Lemma tracked_refl name s : tracked name s s.
Proof. exists [], []. rewrite app_nil_r. repeat split. Qed.

Lemma tracked_trans name s1 s2 s3 :
  tracked name s1 s2 -> tracked name s2 s3 -> tracked name s1 s3.
Proof.
  intros (e1 & c1 & H1 & V1 & B1) (e2 & c2 & H2 & V2 & B2).
  exists (e1 ++ e2), (c1 ++ c2).
  split; [rewrite H2, H1, app_assoc; reflexivity|]. split.
  - unfold tracker_view in *. rewrite flat_map_app, V1, V2, expected_view_app, B1.
    reflexivity.
  - unfold best_after in *. rewrite fold_left_app, <- B1. exact B2.
Qed.

Lemma tracked_emit name e : tracker_view [e] = [] -> respects (tracked name) (emit e).
Proof.
  intros He s. exists [e], []. split; [reflexivity|]. split; [exact He | reflexivity].
Qed.

Lemma tracked_silent name {A} (m : M state A) :
  (forall s, events (snd (m s)) = events s /\
             best_stsb_score (snd (m s)) = best_stsb_score s) ->
  respects (tracked name) m.
Proof.
  intros Hm s. destruct (Hm s) as [He Hb]. exists [], [].
  rewrite He, Hb, app_nil_r. repeat split.
Qed.

Lemma tracked_evaluate_and_checkpoint data name is_ddp dataset_name wr :
  respects (tracked name) (evaluate_and_checkpoint data name is_ddp dataset_name wr).
Proof.
  intros s. rewrite evaluate_and_checkpoint_run.
  destruct (evaluate_result data (inner_model_eval (world s))) as [[pearson spearman]|e];
    cbn [snd].
  - eexists _, [combined_score (pearson, spearman)].
    split; [reflexivity|]. split; [|reflexivity].
    unfold tracker_view, report_events, save_events.
    cbn [fst snd flat_map app expected_view].
    destruct (float_gt _ _); reflexivity.
  - exists [EEvaluate], []. repeat split.
Qed.

Ltac tracked_prim :=
  idtac;
  lazymatch goal with
  | |- respects _ (emit _) => apply tracked_emit; reflexivity
  | |- respects _ (evaluate_and_checkpoint _ _ _ _ _) =>
      apply tracked_evaluate_and_checkpoint
  | |- respects _ get_world => apply tracked_silent; intro; split; reflexivity
  | |- respects _ (set_world _) => apply tracked_silent; intro; split; reflexivity
  | |- respects _ get_global_step => apply tracked_silent; intro; split; reflexivity
  | |- respects _ (set_global_step _) => apply tracked_silent; intro; split; reflexivity
  end.

Ltac tracked_order := first [apply tracked_refl | apply tracked_trans].

Lemma epochs_tracked experiment name writer is_ddp world_size rank epochs :
  respects (tracked name)
    (for_each epochs (epoch_body experiment name writer is_ddp world_size rank)).
Proof. respects_auto ltac:(tracked_prim) ltac:(tracked_order). Qed.

(** C5.  In every run of [train_loop] that gets past the set-up, the
    tracker starts at minus infinity; the scores the run observes, in
    order, and the checkpoint files it writes are those of the
    specification's tracker: after a score the file "weights/<name>.pt" is
    written, and the score becomes the best, exactly when the score is
    strictly greater than the best so far, so a score equal to the best
    writes nothing; the best never decreases from one decision to the
    next, and the run ends with the best of its scores. *)
Theorem best_score_tracker experiment name writer is_ddp world_size rank s steps w' :
  total_steps experiment = Ok steps ->
  get_linear_schedule_with_warmup (world s) (warmup_steps experiment) steps = Ok w' ->
  exists evs scores,
    events (snd (train_loop experiment name writer is_ddp world_size rank s))
    = events s ++ evs /\
    tracker_view evs = expected_view ("weights/" ++ name ++ ".pt")%string NInf scores /\
    best_stsb_score (snd (train_loop experiment name writer is_ddp world_size rank s))
    = best_after NInf scores /\
    (forall k,
        float_le (best_after NInf (firstn k scores)) (best_after NInf (firstn (S k) scores))
        = true) /\
    (forall k x,
        nth_error scores k = Some x ->
        float_eqb x (best_after NInf (firstn k scores)) = true ->
        best_after NInf (firstn (S k) scores) = best_after NInf (firstn k scores) /\
        expected_view ("weights/" ++ name ++ ".pt")%string NInf (firstn (S k) scores)
        = expected_view ("weights/" ++ name ++ ".pt")%string NInf (firstn k scores)
          ++ [Scored x]).
Proof.
  intros Hsteps Hsched. rewrite train_loop_run, Hsteps, Hsched.
  destruct (epochs_tracked experiment name writer is_ddp world_size rank
              (range (num_epochs experiment))
              (state_at_first_epoch experiment steps w' s))
    as (evs & scores & Hev & Hview & Hbest).
  exists (ESetupScheduler (warmup_steps experiment) steps :: evs), scores.
  split; [|split; [|split; [|split]]].
  - rewrite Hev. cbn [state_at_first_epoch events]. rewrite <- app_assoc. reflexivity.
  - exact Hview.
  - exact Hbest.
  - intros k. apply best_after_firstn_le. reflexivity.
  - intros k x Hk Heq.
    assert (Hsnoc : firstn (S k) scores = firstn k scores ++ [x]).
    { clear - Hk. revert k Hk. induction scores as [|y scores IH]; intros [|k] Hk;
        cbn in Hk; try discriminate.
      - injection Hk as ->. reflexivity.
      - cbn [firstn app]. rewrite <- (IH k Hk). reflexivity. }
    rewrite Hsnoc, expected_view_app. unfold best_after at 1. rewrite fold_left_app.
    cbn [fold_left expected_view]. fold (best_after NInf (firstn k scores)).
    unfold next_best. rewrite (float_eqb_not_gt _ _ Heq). rewrite app_nil_r.
    split; reflexivity.
Qed.

(** *** One dataset-epoch, piece by piece *)

(** The state in which the loop over the training batches starts. *)
Definition state_before_batches (is_ddp : bool) (epoch : Z) (dataset_name : string)
    (s : state) : state :=
  if is_ddp
  then mk_state (model_train (world s)) (events s ++ [ESetEpoch dataset_name epoch])
         (global_step s) (best_stsb_score s)
  else mk_state (model_train (world s)) (events s) (global_step s) (best_stsb_score s).

(** Lines 183-227: what follows the training batches. *)
Definition after_batches (data : dict (dict (Loader Tensor))) (name : string)
    (writer : option SummaryWriter) (is_ddp : bool) (rank : Z) (dataset_name : string)
    (val_loader : option (Loader Tensor)) (avg_train : pyfloat) : M state unit :=
  match val_loader with
  | Some val_loader =>
      modify_world model_eval ;;
      total_val_loss <- for_fold (batches val_loader) (Fin 0) validation_batch ;;
      avg_val <- lift (avg_val_loss total_val_loss val_loader) ;;
      if_writer_and_rank0 writer rank (fun wr =>
        emit (EPrint (MsgTrainVal dataset_name avg_train avg_val)) ;;
        step <- get_global_step ;;
        log_metrics wr dataset_name "val_loss" avg_val step)
  | None =>
      if_writer_and_rank0 writer rank (fun _ =>
        emit (EPrint (MsgTrainNoVal dataset_name avg_train)))
  end ;;
  if_writer_and_rank0 writer rank
    (evaluate_and_checkpoint data name is_ddp dataset_name).

Lemma dataset_epoch_run data name writer is_ddp world_size rank epoch dataset_name s
    splits train_loader val_loader :
  dict_get data dataset_name = Some splits ->
  dict_get splits "train" = Some train_loader ->
  len train_loader <> 0 ->
  find_val_loader data dataset_name is_ddp world_size rank = Ok val_loader ->
  exists total s1,
    for_fold (batches train_loader) (Fin 0) (train_batch writer rank dataset_name)
      (state_before_batches is_ddp epoch dataset_name s) = (Ok total, s1) /\
    dataset_epoch data name writer is_ddp world_size rank epoch dataset_name s
    = after_batches data name writer is_ddp rank dataset_name val_loader
        (fdiv total (Fin (inject_Z (len train_loader)))) s1.
Proof.
  intros Hd Ht Hlen Hv.
  destruct (train_batches_run writer rank dataset_name (batches train_loader) (Fin 0)
              (state_before_batches is_ddp epoch dataset_name s))
    as (total & s1 & Hfold & _).
  exists total, s1. split; [exact Hfold|].
  unfold dataset_epoch, after_batches.
  unfold bind at 1. cbn [modify_world bind get_world set_world].
  unfold bind at 1, lift at 1, getitem at 1. rewrite Hd.
  unfold bind at 1, lift at 1, getitem at 1. rewrite Ht.
  unfold bind at 1.
  assert (Hw : when is_ddp (emit (ESetEpoch dataset_name epoch))
                 (mk_state (model_train (world s)) (events s) (global_step s)
                    (best_stsb_score s))
               = (Ok tt, state_before_batches is_ddp epoch dataset_name s)).
  { unfold state_before_batches. destruct is_ddp; reflexivity. }
  cbn [world events global_step best_stsb_score] in Hw |- *. rewrite Hw.
  unfold bind at 1, lift at 1. rewrite Hv.
  unfold bind at 1. rewrite Hfold.
  unfold bind at 1, lift at 1, avg_train_loss, py_truediv_int.
  apply Z.eqb_neq in Hlen. rewrite Hlen. reflexivity.
Qed.

(** *** The batches of the train loader and the protocol *)

(** The trace the step executor of the specification leaves for the
    batches [bs], taken in order from the world [w] and the step [step]:
    for every batch one block of the protocol, followed on the
    coordinating process by the [train_loss] entry. *)
Fixpoint batches_trace (writer : option SummaryWriter) (rank : Z) (dataset_name : string)
    (w : World) (step : Z) (bs : list (Batch Tensor)) : list event :=
  match bs with
  | [] => []
  | batch :: bs' =>
      step_block (snd (scaler_step (world_after_backward w batch)))
      ++ train_loss_log writer rank dataset_name
           (embedder_loss (zero_grad w) batch) (step + 1)
      ++ batches_trace writer rank dataset_name (world_after_batch w batch) (step + 1) bs'
  end.

(** Whether the optimizer step of each batch was applied. *)
Fixpoint batch_flags (w : World) (bs : list (Batch Tensor)) : list bool :=
  match bs with
  | [] => []
  | batch :: bs' =>
      snd (scaler_step (world_after_backward w batch))
      :: batch_flags (world_after_batch w batch) bs'
  end.

Lemma batches_trace_blocks writer rank dataset_name (bs : list (Batch Tensor)) :
  forall w step,
    filter is_step_event (batches_trace writer rank dataset_name w step bs)
    = flat_map step_block (batch_flags w bs) /\
    List.length (batch_flags w bs) = List.length bs.
Proof.
  induction bs as [|batch bs IH]; intros w step; cbn [batches_trace batch_flags].
  - split; reflexivity.
  - destruct (IH (world_after_batch w batch) (step + 1)) as [Hf Hl].
    rewrite !filter_app, train_loss_log_no_step, Hf. cbn [flat_map List.length].
    split; [reflexivity | rewrite Hl; reflexivity].
Qed.

Lemma train_batches_exact writer rank dataset_name (l : list (Batch Tensor)) :
  forall acc s, exists total w1,
    for_fold l acc (train_batch writer rank dataset_name) s
    = (Ok total,
       mk_state w1
         (events s
          ++ batches_trace writer rank dataset_name (world s) (global_step s) l)
         (global_step s + Z.of_nat (List.length l))
         (best_stsb_score s)).
Proof.
  induction l as [|b l IH]; intros acc s.
  - exists acc, (world s). cbn [for_fold batches_trace List.length ret].
    rewrite app_nil_r, Z.add_0_r. destruct s; reflexivity.
  - cbn [for_fold]. unfold bind. rewrite train_batch_run.
    destruct (IH (fadd acc (embedder_loss (zero_grad (world s)) b))
                (mk_state (world_after_batch (world s) b)
                   (events s
                    ++ step_block (snd (scaler_step (world_after_backward (world s) b)))
                    ++ train_loss_log writer rank dataset_name
                         (embedder_loss (zero_grad (world s)) b) (global_step s + 1))
                   (global_step s + 1) (best_stsb_score s)))
      as (total & w1 & Hrun).
    exists total, w1. rewrite Hrun.
    cbn [world events global_step best_stsb_score batches_trace List.length].
    repeat rewrite <- app_assoc.
    replace (global_step s + 1 + Z.of_nat (List.length l))
      with (global_step s + Z.of_nat (S (List.length l))) by lia.
    reflexivity.
Qed.

Lemma dataset_epoch_split data name writer is_ddp world_size rank epoch dataset_name s
    splits train_loader val_loader :
  dict_get data dataset_name = Some splits ->
  dict_get splits "train" = Some train_loader ->
  find_val_loader data dataset_name is_ddp world_size rank = Ok val_loader ->
  exists total s1,
    for_fold (batches train_loader) (Fin 0) (train_batch writer rank dataset_name)
      (state_before_batches is_ddp epoch dataset_name s) = (Ok total, s1) /\
    dataset_epoch data name writer is_ddp world_size rank epoch dataset_name s
    = (avg_train <- lift (avg_train_loss total train_loader) ;;
       after_batches data name writer is_ddp rank dataset_name val_loader avg_train) s1.
Proof.
  intros Hd Ht Hv.
  destruct (train_batches_run writer rank dataset_name (batches train_loader) (Fin 0)
              (state_before_batches is_ddp epoch dataset_name s))
    as (total & s1 & Hfold & _).
  exists total, s1. split; [exact Hfold|].
  unfold dataset_epoch, after_batches.
  unfold bind at 1. cbn [modify_world bind get_world set_world].
  unfold bind at 1, lift at 1, getitem at 1. rewrite Hd.
  unfold bind at 1, lift at 1, getitem at 1. rewrite Ht.
  unfold bind at 1.
  assert (Hw : when is_ddp (emit (ESetEpoch dataset_name epoch))
                 (mk_state (model_train (world s)) (events s) (global_step s)
                    (best_stsb_score s))
               = (Ok tt, state_before_batches is_ddp epoch dataset_name s)).
  { unfold state_before_batches. destruct is_ddp; reflexivity. }
  cbn [world events global_step best_stsb_score] in Hw |- *. rewrite Hw.
  unfold bind at 1, lift at 1. rewrite Hv.
  unfold bind at 1. rewrite Hfold. reflexivity.
Qed.

Lemma after_train_no_step data name writer is_ddp rank dataset_name val_loader total
    (train_loader : Loader Tensor) :
  respects (extends_with (fun e => is_step_event e = false))
    (avg_train <- lift (avg_train_loss total train_loader) ;;
     after_batches data name writer is_ddp rank dataset_name val_loader avg_train).
Proof. extends_auto ltac:(reflexivity). Qed.

(** C8.  Every training batch runs the mixed-precision protocol in the
    order clear gradients, forward under autocast, scale the loss,
    backward, optimizer step through the scaler, scaler update, scheduler
    step; the scheduler step occurs exactly once in it whether the
    optimizer step was applied or skipped; every dataset-epoch hands the
    batches of its train loader to that protocol, one block per batch in
    the order of the loader, before anything else it does, and nothing
    after them belongs to the protocol; and the protocol events of a whole
    run of [train_loop] are a sequence of such blocks, as many as the step
    counter counts. *)
Theorem mixed_precision_protocol :
  (forall writer rank dataset_name total batch s,
      events (snd (train_batch writer rank dataset_name total batch s))
      = events s
        ++ [EZeroGrad; EAutocastForward; EScaleLoss; EBackward;
            EScalerStep (snd (scaler_step (world_after_backward (world s) batch)));
            EScalerUpdate; ESchedulerStep]
        ++ train_loss_log writer rank dataset_name
             (embedder_loss (zero_grad (world s)) batch) (global_step s + 1)) /\
  (forall applied, filter is_scheduler_step (step_block applied) = [ESchedulerStep]) /\
  (forall data name writer is_ddp world_size rank epoch dataset_name s splits train_loader,
      dict_get data dataset_name = Some splits ->
      dict_get splits "train" = Some train_loader ->
      exists rest,
        events (snd (dataset_epoch data name writer is_ddp world_size rank epoch
                       dataset_name s))
        = events s
          ++ (if is_ddp then [ESetEpoch dataset_name epoch] else [])
          ++ batches_trace writer rank dataset_name (model_train (world s)) (global_step s)
               (batches train_loader)
          ++ rest /\
        Forall (fun e => is_step_event e = false) rest /\
        filter is_step_event
          (batches_trace writer rank dataset_name (model_train (world s)) (global_step s)
             (batches train_loader))
        = flat_map step_block (batch_flags (model_train (world s)) (batches train_loader)) /\
        List.length (batch_flags (model_train (world s)) (batches train_loader))
        = List.length (batches train_loader)) /\
  (forall experiment name writer is_ddp world_size rank s,
      exists evs flags,
        events (snd (train_loop experiment name writer is_ddp world_size rank s))
        = events s ++ evs /\
        filter is_step_event evs = flat_map step_block flags /\
        List.length (filter is_scheduler_step evs) = List.length flags /\
        (forall steps w',
            total_steps experiment = Ok steps ->
            get_linear_schedule_with_warmup (world s) (warmup_steps experiment) steps
            = Ok w' ->
            global_step (snd (train_loop experiment name writer is_ddp world_size rank s))
            = Z.of_nat (List.length flags))).
Proof.
  split; [|split; [|split]].
  - intros. rewrite train_batch_run. reflexivity.
  - intros applied. reflexivity.
  - intros data name writer is_ddp world_size rank epoch dataset_name s splits train_loader
      Hd Ht.
    destruct (find_val_loader_ok data dataset_name is_ddp world_size rank splits Hd)
      as [val_loader Hv].
    destruct (dataset_epoch_split data name writer is_ddp world_size rank epoch dataset_name
                s splits train_loader val_loader Hd Ht Hv) as (total & s1 & Hfold & Hrun).
    destruct (train_batches_exact writer rank dataset_name (batches train_loader) (Fin 0)
                (state_before_batches is_ddp epoch dataset_name s)) as (total' & w1 & Hexact).
    rewrite Hexact in Hfold. injection Hfold as -> <-.
    destruct (after_train_no_step data name writer is_ddp rank dataset_name val_loader total
                train_loader
                (mk_state w1
                   (events (state_before_batches is_ddp epoch dataset_name s)
                    ++ batches_trace writer rank dataset_name
                         (world (state_before_batches is_ddp epoch dataset_name s))
                         (global_step (state_before_batches is_ddp epoch dataset_name s))
                         (batches train_loader))
                   (global_step (state_before_batches is_ddp epoch dataset_name s)
                    + Z.of_nat (List.length (batches train_loader)))
                   (best_stsb_score (state_before_batches is_ddp epoch dataset_name s))))
      as (rest & Hrest & Hall).
    rewrite <- Hrun in Hrest. exists rest.
    split; [|split; [exact Hall | apply batches_trace_blocks]].
    rewrite Hrest. unfold state_before_batches.
    destruct is_ddp; cbn [world events global_step app];
      repeat rewrite <- app_assoc; reflexivity.
  - intros.
    destruct (train_loop_in_blocks experiment name writer is_ddp world_size rank s)
      as (evs & flags & Hev & Hfilter & Hsetup).
    exists evs, flags. split; [exact Hev|]. split; [exact Hfilter|]. split.
    + assert (Hsched : forall l,
                 filter is_scheduler_step (filter is_step_event l)
                 = filter is_scheduler_step l).
      { induction l as [|e l IH]; [reflexivity|].
        destruct e; simpl; rewrite ?IH; reflexivity. }
      rewrite <- Hsched, Hfilter. clear.
      induction flags as [|f flags IH]; [reflexivity|].
      simpl. rewrite IH. reflexivity.
    + intros steps w' Hsteps Hs. apply (Hsetup steps w' Hsteps Hs).
Qed.

Lemma train_batches_trace (P : event -> Prop) writer rank dataset_name
    (l : list (Batch Tensor)) acc :
  (forall e, is_step_event e = true -> P e) ->
  (forall dir value step, P (EAddScalar dir dataset_name "train_loss" value step)) ->
  respects (extends_with P) (for_fold l acc (train_batch writer rank dataset_name)).
Proof.
  intros Hstep Hlog. revert acc.
  apply respects_for_fold; [apply extends_with_refl | apply extends_with_trans |].
  intros acc b s. rewrite train_batch_run. cbn [snd events].
  eexists. split; [reflexivity|]. apply Forall_app. split.
  - repeat constructor; apply Hstep; reflexivity.
  - unfold train_loss_log. destruct writer; [destruct (rank =? 0)|]; repeat constructor.
    apply Hlog.
Qed.

Lemma respects_bind_lift {S A B} (R : S -> S -> Prop) (r : outcome A) (k : A -> M S B) :
  (forall s, R s s) ->
  (forall a, r = Ok a -> respects R (k a)) ->
  respects R (bind (lift r) k).
Proof.
  intros Hrefl Hk s. unfold bind, lift.
  destruct r as [a|e]; [apply Hk; reflexivity | apply Hrefl].
Qed.

Lemma find_val_loader_none data dataset_name is_ddp world_size rank splits :
  dict_get data dataset_name = Some splits ->
  filter (contains "validation") (keys splits) = [] ->
  find_val_loader data dataset_name is_ddp world_size rank = Ok None.
Proof.
  intros Hd Hf. unfold find_val_loader, getitem. rewrite Hd. cbn [obind].
  rewrite Hf. reflexivity.
Qed.

Lemma dataset_epoch_no_validation data name writer is_ddp world_size rank epoch
    dataset_name splits :
  dict_get data dataset_name = Some splits ->
  filter (contains "validation") (keys splits) = [] ->
  respects (extends_with (fun e => is_validation_event e = false))
    (dataset_epoch data name writer is_ddp world_size rank epoch dataset_name).
Proof.
  intros Hd Hf.
  pose proof (find_val_loader_none data dataset_name is_ddp world_size rank splits Hd Hf)
    as Hv.
  unfold dataset_epoch.
  apply respects_bind; [apply extends_with_trans | extends_auto ltac:(reflexivity) | intros _].
  apply respects_bind; [apply extends_with_trans | extends_auto ltac:(reflexivity) |].
  intros splits0.
  apply respects_bind; [apply extends_with_trans | extends_auto ltac:(reflexivity) |].
  intros train_loader.
  apply respects_bind; [apply extends_with_trans | extends_auto ltac:(reflexivity) | intros _].
  apply respects_bind_lift; [apply extends_with_refl|].
  intros val_loader Hval. rewrite Hv in Hval. injection Hval as <-.
  cbv beta iota.
  extends_auto ltac:(reflexivity).
Qed.

(** The message of a dataset-epoch without validation split. *)
Definition no_validation_message (dataset_name : string) (total : pyfloat)
    (train_loader : Loader Tensor) : event :=
  EPrint (MsgTrainNoVal dataset_name (fdiv total (Fin (inject_Z (len train_loader))))).

(** C1, as the code has it.  For a dataset without a split whose name
    contains "validation": no validation pass runs and no validation loss
    is printed or logged, on any process; a process that is not the
    coordinator does nothing after the training batches; the coordinating
    process prints the train-loss message and then goes on with lines
    212-227: it calls [evaluate] on the benchmark and, when that returns,
    prints and logs the two results and makes the checkpoint check, which
    writes the checkpoint and replaces the best score exactly when the
    combined score is strictly greater than the best so far. *)
Theorem no_validation_split_epoch data name writer is_ddp world_size rank epoch
    dataset_name s splits :
  dict_get data dataset_name = Some splits ->
  filter (contains "validation") (keys splits) = [] ->
  (exists evs,
      events (snd (dataset_epoch data name writer is_ddp world_size rank epoch
                     dataset_name s))
      = events s ++ evs /\
      Forall (fun e => is_validation_event e = false) evs) /\
  (forall train_loader,
      dict_get splits "train" = Some train_loader ->
      len train_loader <> 0 ->
      exists total s1,
        for_fold (batches train_loader) (Fin 0) (train_batch writer rank dataset_name)
          (state_before_batches is_ddp epoch dataset_name s) = (Ok total, s1) /\
        (is_coordinator writer rank = false ->
         dataset_epoch data name writer is_ddp world_size rank epoch dataset_name s
         = (Ok tt, s1)) /\
        (forall wr,
            writer = Some wr -> rank = 0 ->
            events
              (snd (evaluate data
                      (mk_state (world s1)
                         (events s1 ++ [no_validation_message dataset_name total train_loader])
                         (global_step s1) (best_stsb_score s1))))
            = events s1
              ++ [no_validation_message dataset_name total train_loader; EEvaluate] /\
            dataset_epoch data name writer is_ddp world_size rank epoch dataset_name s
            = match evaluate data
                      (mk_state (world s1)
                         (events s1 ++ [no_validation_message dataset_name total train_loader])
                         (global_step s1) (best_stsb_score s1))
              with
              | (Raise e, s2) => (Raise e, s2)
              | (Ok results, s2) =>
                  (Ok tt,
                   mk_state (world s2)
                     (events s2
                      ++ report_events wr dataset_name results (global_step s1)
                      ++ (if float_gt (combined_score results) (best_stsb_score s1)
                          then save_events name else []))
                     (global_step s1)
                     (next_best (best_stsb_score s1) (combined_score results)))
              end)).
Proof.
  intros Hd Hf. split.
  - exact (dataset_epoch_no_validation data name writer is_ddp world_size rank epoch
             dataset_name splits Hd Hf s).
  - intros train_loader Ht Hlen.
    pose proof (find_val_loader_none data dataset_name is_ddp world_size rank splits Hd Hf)
      as Hv.
    destruct (dataset_epoch_run data name writer is_ddp world_size rank epoch dataset_name s
                splits train_loader None Hd Ht Hlen Hv) as (total & s1 & Hfold & Hrun).
    exists total, s1. split; [exact Hfold|]. split.
    + intros Hco. rewrite Hrun. unfold after_batches, if_writer_and_rank0.
      unfold is_coordinator in Hco.
      destruct writer as [wr|]; [rewrite Hco|]; reflexivity.
    + intros wr -> ->. rewrite Hrun. unfold after_batches, if_writer_and_rank0.
      cbn [Z.eqb]. unfold bind at 1. cbn [emit]. fold (no_validation_message dataset_name total train_loader).
      rewrite evaluate_and_checkpoint_run, evaluate_run.
      unfold state_after_evaluate.
      cbn [snd world events global_step best_stsb_score].
      split; [rewrite <- app_assoc; reflexivity|].
      destruct (evaluate_result data (inner_model_eval (world s1))) as [results|e];
        [|reflexivity].
      cbn [world events]. repeat rewrite <- app_assoc. reflexivity.
Qed.

(** *** The two averages *)

Lemma validation_batches_run (l : list (Batch Tensor)) :
  forall acc s, exists total s2,
    for_fold l acc validation_batch s = (Ok total, s2) /\
    global_step s2 = global_step s /\
    (l = [] -> total = acc).
Proof.
  induction l as [|b l IH]; intros acc s.
  - exists acc, s. repeat split.
  - cbn [for_fold]. unfold bind at 1. unfold validation_batch at 1.
    cbn [bind emit get_world ret world events global_step best_stsb_score].
    destruct (IH (fadd acc (embedder_loss (world s) b))
                (mk_state (world s) (events s ++ [EValForward]) (global_step s)
                   (best_stsb_score s)))
      as (total & s2 & Hrun & Hstep & _).
    exists total, s2. split; [exact Hrun|]. split; [exact Hstep | discriminate].
Qed.

Lemma inject_Z_nonzero (n : Z) : n <> 0 -> Qeq_bool (inject_Z n) 0 = false.
Proof.
  intros Hn. destruct (Qeq_bool _ _) eqn:E; [|reflexivity].
  apply Qeq_bool_iff in E. unfold Qeq in E. simpl in E. lia.
Qed.

Lemma inject_Z_plus_eps_nonzero (n : Z) :
  0 <= n -> Qeq_bool (inject_Z n + (1 # 1000000)) 0 = false.
Proof.
  intros Hn. destruct (Qeq_bool _ _) eqn:E; [|reflexivity].
  apply Qeq_bool_iff in E.
  assert (0 <= inject_Z n)%Q
    by (change 0%Q with (inject_Z 0); rewrite <- Zle_Qle; exact Hn).
  lra.
Qed.

Lemma Qdiv_plus_eps_lt (t n e : Q) :
  (0 < t -> 0 < n -> 0 < e -> t / (n + e) < t / n)%Q.
Proof.
  intros Ht Hn He.
  assert (Hne : (0 < n + e)%Q) by lra.
  apply Qlt_shift_div_l; [exact Hn|].
  assert (Hz : (0 < t / (n + e))%Q).
  { apply Qlt_shift_div_l; [exact Hne | lra]. }
  assert (Heq : (t / (n + e) * (n + e) == t)%Q).
  { field. lra. }
  rewrite <- Heq at 2.
  rewrite (Qmult_comm (t / (n + e)) n), (Qmult_comm (t / (n + e)) (n + e)).
  apply Qmult_lt_compat_r; [exact Hz | lra].
Qed.

Lemma Qdiv_plus_eps_le (t n e : Q) :
  (0 <= t -> 0 < n -> 0 < e -> t / (n + e) <= t / n)%Q.
Proof.
  intros Ht Hn He.
  destruct (Qlt_le_dec 0 t) as [Hpos|Hle].
  - apply Qlt_le_weak. apply Qdiv_plus_eps_lt; assumption.
  - assert (Hz : (t == 0)%Q) by (apply Qle_antisym; assumption).
    rewrite Hz. unfold Qdiv. rewrite !Qmult_0_l. apply Qle_refl.
Qed.

Lemma len_nonneg {T} (l : Loader T) : 0 <= len l.
Proof. unfold len. lia. Qed.

Lemma avg_val_loss_run total (val_loader : Loader Tensor) :
  avg_val_loss total val_loader
  = Ok (fdiv total (Fin (inject_Z (len val_loader) + (1 # 1000000)))).
Proof.
  unfold avg_val_loss, py_truediv, py_int_add_float, eps_1e_6.
  cbn [fadd float_is_zero].
  rewrite inject_Z_plus_eps_nonzero by apply len_nonneg. reflexivity.
Qed.

(** C10, as the code has it.  For a dataset with a validation split, on
    the coordinating process, the dataset-epoch reports as average
    validation loss the total divided by the number of validation batches
    plus 1e-6, and as average train loss the total divided by the number of
    train batches.  For a total that is not negative the validation average
    is never above the exact mean, the total divided by the number of
    validation batches; it is not always below it: an infinite total gives
    the same infinite average either way. *)
Theorem validation_average_is_damped data name wr is_ddp world_size epoch dataset_name s
    splits train_loader val_loader :
  dict_get data dataset_name = Some splits ->
  dict_get splits "train" = Some train_loader ->
  len train_loader <> 0 ->
  find_val_loader data dataset_name is_ddp world_size 0 = Ok (Some val_loader) ->
  exists total_train s1 total_val s2,
    for_fold (batches train_loader) (Fin 0) (train_batch (Some wr) 0 dataset_name)
      (state_before_batches is_ddp epoch dataset_name s) = (Ok total_train, s1) /\
    for_fold (batches val_loader) (Fin 0) validation_batch
      (mk_state (model_eval (world s1)) (events s1) (global_step s1) (best_stsb_score s1))
    = (Ok total_val, s2) /\
    dataset_epoch data name (Some wr) is_ddp world_size 0 epoch dataset_name s
    = (emit (EPrint (MsgTrainVal dataset_name
                       (fdiv total_train (Fin (inject_Z (len train_loader))))
                       (fdiv total_val
                          (Fin (inject_Z (len val_loader) + (1 # 1000000)))))) ;;
       log_metrics wr dataset_name "val_loss"
         (fdiv total_val (Fin (inject_Z (len val_loader) + (1 # 1000000))))
         (global_step s2) ;;
       evaluate_and_checkpoint data name is_ddp dataset_name wr) s2 /\
    (forall t, total_train = Fin t ->
               fdiv total_train (Fin (inject_Z (len train_loader)))
               = Fin (t / inject_Z (len train_loader))) /\
    (forall t, total_val = Fin t ->
               fdiv total_val (Fin (inject_Z (len val_loader) + (1 # 1000000)))
               = Fin (t / (inject_Z (len val_loader) + (1 # 1000000)))) /\
    (len val_loader <> 0 ->
     float_le (Fin 0) total_val = true ->
     float_le (fdiv total_val (Fin (inject_Z (len val_loader) + (1 # 1000000))))
       (fdiv total_val (Fin (inject_Z (len val_loader)))) = true) /\
    (len val_loader <> 0 ->
     total_val = PInf ->
     fdiv total_val (Fin (inject_Z (len val_loader) + (1 # 1000000))) = PInf /\
     fdiv total_val (Fin (inject_Z (len val_loader))) = PInf).
Proof.
  intros Hd Ht Hlen Hv.
  destruct (dataset_epoch_run data name (Some wr) is_ddp world_size 0 epoch dataset_name s
              splits train_loader (Some val_loader) Hd Ht Hlen Hv)
    as (total_train & s1 & Hfold & Hrun).
  destruct (validation_batches_run (batches val_loader) (Fin 0)
              (mk_state (model_eval (world s1)) (events s1) (global_step s1)
                 (best_stsb_score s1)))
    as (total_val & s2 & Hval & Hstep & Hnil).
  exists total_train, s1, total_val, s2.
  assert (Hposlen : len val_loader <> 0 -> (0 < inject_Z (len val_loader))%Q).
  { intros Hne. change 0%Q with (inject_Z 0). rewrite <- Zlt_Qlt.
    pose proof (len_nonneg val_loader). lia. }
  assert (Hsgn : forall q, (0 < q)%Q -> (q ?= 0)%Q = Gt).
  { intros q Hq. apply Qgt_alt. exact Hq. }
  split; [exact Hfold|]. split; [exact Hval|]. split; [|split; [|split; [|split]]].
  - rewrite Hrun. unfold after_batches.
    rewrite bind_assoc. unfold bind at 1. cbn [modify_world bind get_world set_world].
    rewrite bind_assoc. unfold bind at 1.
    cbn [world events global_step best_stsb_score]. rewrite Hval.
    rewrite bind_assoc. unfold bind at 1, lift at 1. rewrite avg_val_loss_run.
    unfold if_writer_and_rank0. cbn [Z.eqb].
    unfold bind, emit, get_global_step, log_metrics.
    cbn [world events global_step best_stsb_score]. reflexivity.
  - intros t ->. cbn [fdiv]. rewrite inject_Z_nonzero by exact Hlen. reflexivity.
  - intros t ->. cbn [fdiv].
    rewrite inject_Z_plus_eps_nonzero by apply len_nonneg. reflexivity.
  - intros Hne Hpos. specialize (Hposlen Hne).
    destruct total_val as [t| | |]; cbn [float_le] in Hpos; try discriminate.
    + cbn [fdiv]. rewrite inject_Z_plus_eps_nonzero by apply len_nonneg.
      rewrite inject_Z_nonzero by exact Hne. cbn [float_le].
      apply Qle_bool_iff. apply Qle_bool_iff in Hpos.
      apply Qdiv_plus_eps_le; [exact Hpos | exact Hposlen | reflexivity].
    + cbn [fdiv]. rewrite !Hsgn by lra. reflexivity.
  - intros Hne ->. specialize (Hposlen Hne).
    cbn [fdiv]. rewrite !Hsgn by lra. split; reflexivity.
Qed.

(** *** The schedule planner *)

(** C2, as the code has it.  [setup_scheduler] makes no comparison of
    [warmup_steps] with [total_steps]: it hands both unchanged to
    [get_linear_schedule_with_warmup], installs the schedule that call
    returns and raises exactly what that call raises; in [train_loop] such
    an exception comes before the first optimization step. *)
Theorem setup_scheduler_defers_to_library warmup total s :
  (forall w',
      get_linear_schedule_with_warmup (world s) warmup total = Ok w' ->
      setup_scheduler warmup total s
      = (Ok tt,
         mk_state w' (events s ++ [ESetupScheduler warmup total])
           (global_step s) (best_stsb_score s))) /\
  (forall e,
      get_linear_schedule_with_warmup (world s) warmup total = Raise e ->
      setup_scheduler warmup total s
      = (Raise e,
         mk_state (world s) (events s ++ [ESetupScheduler warmup total])
           (global_step s) (best_stsb_score s))) /\
  (forall experiment name writer is_ddp world_size rank e,
      total_steps experiment = Ok total ->
      warmup_steps experiment = warmup ->
      get_linear_schedule_with_warmup (world s) warmup total = Raise e ->
      train_loop experiment name writer is_ddp world_size rank s
      = (Raise e,
         mk_state (world s) (events s ++ [ESetupScheduler warmup total])
           (global_step s) (best_stsb_score s))).
Proof.
  split; [|split].
  - intros w' Hlib. unfold setup_scheduler, bind, lift.
    cbn [emit get_world set_world world events global_step best_stsb_score].
    rewrite Hlib. reflexivity.
  - intros e Hlib. unfold setup_scheduler, bind, lift.
    cbn [emit get_world set_world world events global_step best_stsb_score].
    rewrite Hlib. reflexivity.
  - intros experiment name writer is_ddp world_size rank e Hsteps Hwarm Hlib.
    rewrite train_loop_run, Hsteps, Hwarm, Hlib. reflexivity.
Qed.

(** *** Runs that end normally *)

(** A computation that returns from every state. *)
Definition returns {A} (m : M state A) : Prop :=
  forall s, exists a, fst (m s) = Ok a.

Lemma returns_ret {A} (a : A) : returns (ret a).
Proof. intros s. exists a. reflexivity. Qed.

Lemma returns_bind {A B} (m : M state A) (k : A -> M state B) :
  returns m -> (forall a, returns (k a)) -> returns (bind m k).
Proof.
  intros Hm Hk s. unfold bind. destruct (Hm s) as [a Ha].
  destruct (m s) as [[a'|e] s1]; [apply Hk | discriminate].
Qed.

Lemma returns_for_fold {A B} (l : list A) (body : B -> A -> M state B) :
  (forall acc x, In x l -> returns (body acc x)) ->
  forall acc, returns (for_fold l acc body).
Proof.
  induction l as [|x l IH]; intros Hbody acc; cbn [for_fold].
  - apply returns_ret.
  - apply returns_bind; [apply Hbody; left; reflexivity|].
    intros acc'. apply IH. intros acc0 x0 Hin. apply Hbody. right. exact Hin.
Qed.

Lemma returns_emit e : returns (emit e).
Proof. intros s. exists tt. reflexivity. Qed.

Lemma returns_if_writer writer rank (body : SummaryWriter -> M state unit) :
  (forall wr, returns (body wr)) -> returns (if_writer_and_rank0 writer rank body).
Proof.
  intros Hbody. unfold if_writer_and_rank0.
  destruct writer; [destruct (rank =? 0)|]; auto using returns_ret.
Qed.

Lemma returns_evaluate_and_checkpoint data name is_ddp dataset_name wr :
  returns (evaluate data) ->
  returns (evaluate_and_checkpoint data name is_ddp dataset_name wr).
Proof.
  intros Heval. unfold evaluate_and_checkpoint, log_metrics.
  apply returns_bind; [exact Heval | intros results].
  apply returns_bind; [apply returns_emit | intros _].
  apply returns_bind; [intros s; exists (global_step s); reflexivity | intros step].
  apply returns_bind; [apply returns_emit | intros _].
  apply returns_bind; [intros s; exists (global_step s); reflexivity | intros step'].
  apply returns_bind; [apply returns_emit | intros _].
  intros s. exists tt. rewrite checkpoint_check_run. reflexivity.
Qed.

Lemma returns_after_batches data name writer is_ddp rank dataset_name val_loader avg :
  returns (evaluate data) ->
  returns (after_batches data name writer is_ddp rank dataset_name val_loader avg).
Proof.
  intros Heval. unfold after_batches.
  apply returns_bind.
  - destruct val_loader as [val_loader|].
    + apply returns_bind; [intros s; exists tt; reflexivity | intros _].
      apply returns_bind.
      * intros s.
        destruct (validation_batches_run (batches val_loader) (Fin 0) s)
          as (total & s2 & Hrun & _).
        exists total. rewrite Hrun. reflexivity.
      * intros total. apply returns_bind.
        -- intros s. unfold lift. rewrite avg_val_loss_run. eexists. reflexivity.
        -- intros avg_val. apply returns_if_writer. intros wr.
           apply returns_bind; [apply returns_emit | intros _].
           apply returns_bind; [intros s; exists (global_step s); reflexivity | intros step].
           apply returns_emit.
    + apply returns_if_writer. intros _. apply returns_emit.
  - intros _. apply returns_if_writer. intros wr.
    apply returns_evaluate_and_checkpoint. exact Heval.
Qed.

Lemma returns_dataset_epoch data name writer is_ddp world_size rank epoch dataset_name :
  returns (evaluate data) ->
  has_batches data dataset_name ->
  returns (dataset_epoch data name writer is_ddp world_size rank epoch dataset_name).
Proof.
  intros Heval (splits & train_loader & Hd & Ht & Hb) s.
  assert (Hlen : len train_loader <> 0).
  { unfold len. destruct (batches train_loader); [congruence | discriminate]. }
  destruct (find_val_loader_ok data dataset_name is_ddp world_size rank splits Hd)
    as [val_loader Hv].
  destruct (dataset_epoch_run data name writer is_ddp world_size rank epoch dataset_name s
              splits train_loader val_loader Hd Ht Hlen Hv) as (total & s1 & _ & Hrun).
  rewrite Hrun. apply returns_after_batches. exact Heval.
Qed.

Lemma sum_train_lens_returns data dataset_names :
  Forall (has_batches data) dataset_names ->
  forall acc, exists r, sum_train_lens data dataset_names acc = Ok r.
Proof.
  induction 1 as [|dataset_name rest (splits & train_loader & Hd & Ht & _) _ IH];
    intros acc; cbn [sum_train_lens].
  - eauto.
  - unfold getitem, dict_mem. rewrite Hd. cbn [obind]. rewrite Ht. cbn [obind]. apply IH.
Qed.

(** With a non-empty train split for every dataset of the order, a
    schedule the library accepts and a benchmark evaluation that does not
    raise, [train_loop] ends normally. *)
Lemma train_loop_returns experiment name writer is_ddp world_size rank :
  Forall (has_batches (data_loaders experiment)) (train_datasets experiment) ->
  (forall w steps, exists w',
      get_linear_schedule_with_warmup w (warmup_steps experiment) steps = Ok w') ->
  returns (evaluate (data_loaders experiment)) ->
  returns (train_loop experiment name writer is_ddp world_size rank).
Proof.
  intros Hall Hsched Heval s. rewrite train_loop_run.
  destruct (sum_train_lens_returns _ _ Hall 0) as [per_epoch Hsum].
  unfold total_steps, total_steps_per_epoch. rewrite Hsum. cbn [obind].
  destruct (Hsched (world s) (per_epoch * num_epochs experiment)) as [w' Hw']. rewrite Hw'.
  assert (Hloop : returns (for_each (range (num_epochs experiment))
                             (epoch_body experiment name writer is_ddp world_size rank))).
  { unfold for_each. apply returns_for_fold. intros [] epoch _. unfold epoch_body.
    apply returns_bind; [destruct (rank =? 0); [apply returns_emit | apply returns_ret]|].
    intros _. apply returns_bind.
    - unfold for_each. apply returns_for_fold. intros [] dataset_name Hin.
      apply returns_dataset_epoch; [exact Heval|].
      rewrite Forall_forall in Hall. apply Hall. exact Hin.
    - intros _. destruct (rank =? 0); [apply returns_emit | apply returns_ret]. }
  destruct (Hloop (state_at_first_epoch experiment (per_epoch * num_epochs experiment) w' s))
    as [[] Hok].
  exists tt. exact Hok.
Qed.

(** ** Further properties of the code *)

(** What a single-process run has no use for: the process group and the
    epoch of a distributed sampler; and the opening and closing of the
    writer, which belong to [train] and [train_worker]. *)
Definition is_lifecycle_event (e : event) : bool :=
  match e with
  | EWriterOpen _ | EWriterClose _ | EInitProcessGroup _ _ | EDestroyProcessGroup
  | ESetEpoch _ _ => true
  | _ => false
  end.

(** The two prints that depend on the rank alone. *)
Definition is_epoch_banner (e : event) : bool :=
  match e with
  | EPrint (MsgEpoch _ _) | EPrint MsgBlank => true
  | _ => false
  end.

(** The steps at which the [train_loss] metric is logged, in order. *)
Definition train_loss_steps (evs : list event) : list Z :=
  flat_map (fun e =>
              match e with
              | EAddScalar _ _ metric_name _ step =>
                  if String.eqb metric_name "train_loss" then [step] else []
              | _ => []
              end) evs.

(** [n + 1, ..., n + k] *)
Definition steps_after (n : Z) (k : nat) : list Z :=
  map (fun i => n + Z.of_nat i) (seq 1 k).

Definition is_set_epoch (e : event) : bool :=
  match e with ESetEpoch _ _ => true | _ => false end.

(** *** [evaluate] *)

Lemma evaluate_batch_short w acc (batch : Batch Tensor) :
  (List.length batch < 5)%nat -> evaluate_batch w acc batch = Raise IndexError.
Proof.
  intros Hlen. unfold evaluate_batch. destruct acc as [[v1 v2] labels].
  destruct batch as [|t0 [|t1 [|t2 [|t3 [|t4 rest]]]]]; cbn in *; try reflexivity. lia.
Qed.

Lemma evaluate_batch_long w acc (batch : Batch Tensor) :
  (5 <= List.length batch)%nat -> exists acc', evaluate_batch w acc batch = Ok acc'.
Proof.
  intros Hlen. unfold evaluate_batch. destruct acc as [[v1 v2] labels].
  destruct batch as [|t0 [|t1 [|t2 [|t3 [|t4 rest]]]]]; cbn in *; try lia. eauto.
Qed.

Lemma evaluate_batches_short w (bs : list (Batch Tensor)) :
  forall acc,
    Exists (fun batch => (List.length batch < 5)%nat) bs ->
    evaluate_batches w acc bs = Raise IndexError.
Proof.
  induction bs as [|b bs IH]; intros acc Hex; [inversion Hex|].
  cbn [evaluate_batches].
  destruct (Nat.lt_ge_cases (List.length b) 5) as [Hshort|Hlong].
  - rewrite (evaluate_batch_short w acc b Hshort). reflexivity.
  - destruct (evaluate_batch_long w acc b Hlong) as [acc' Hacc].
    rewrite Hacc. cbn [obind]. apply IH.
    inversion Hex as [? ? Hb|? ? Hbs]; subst; [lia | exact Hbs].
Qed.

(** X2.  The loop of [evaluate] over the benchmark batches gets through
    exactly when every batch is a tuple of at least five tensors; a shorter
    batch raises [IndexError], and nothing else can go wrong in the loop. *)
Theorem evaluate_batches_arity w (bs : list (Batch Tensor)) :
  forall acc,
    (Forall (fun batch => (5 <= List.length batch)%nat) bs ->
     exists acc', evaluate_batches w acc bs = Ok acc') /\
    (Exists (fun batch => (List.length batch < 5)%nat) bs ->
     evaluate_batches w acc bs = Raise IndexError).
Proof.
  intros acc. split; [|apply evaluate_batches_short].
  revert acc. induction bs as [|b bs IH]; intros acc Hall.
  - exists acc. reflexivity.
  - inversion Hall as [|? ? Hb Hbs]; subst.
    destruct (evaluate_batch_long w acc b Hb) as [acc' Hacc].
    cbn [evaluate_batches]. rewrite Hacc. cbn [obind]. apply IH. exact Hbs.
Qed.

(** X3.  [evaluate] needs the benchmark: without a dataset "stsb" it raises
    [KeyError "stsb"], without a split "validation" in it
    [KeyError "validation"], with a benchmark loader that yields no batch
    whatever [torch.cat] raises on an empty list, and with a batch of fewer
    than five tensors [IndexError]. *)
Theorem evaluate_needs_benchmark data_loader s :
  (dict_get data_loader "stsb" = None ->
   fst (evaluate data_loader s) = Raise (KeyError "stsb")) /\
  (forall stsb,
      dict_get data_loader "stsb" = Some stsb ->
      dict_get stsb "validation" = None ->
      fst (evaluate data_loader s) = Raise (KeyError "validation")) /\
  (forall stsb validation,
      dict_get data_loader "stsb" = Some stsb ->
      dict_get stsb "validation" = Some validation ->
      batches validation = [] ->
      fst (evaluate data_loader s) = Raise torch_cat_empty) /\
  (forall stsb validation,
      dict_get data_loader "stsb" = Some stsb ->
      dict_get stsb "validation" = Some validation ->
      Exists (fun batch => (List.length batch < 5)%nat) (batches validation) ->
      fst (evaluate data_loader s) = Raise IndexError).
Proof.
  rewrite evaluate_run. cbn [fst]. unfold evaluate_result, getitem.
  split; [|split; [|split]].
  - intros ->. reflexivity.
  - intros stsb H1 H2. rewrite H1. cbn [obind]. rewrite H2. reflexivity.
  - intros stsb validation H1 H2 H3. rewrite H1. cbn [obind]. rewrite H2. cbn [obind].
    rewrite H3. reflexivity.
  - intros stsb validation H1 H2 Hex. rewrite H1. cbn [obind]. rewrite H2. cbn [obind].
    rewrite (evaluate_batches_short (inner_model_eval (world s)) (batches validation)
               ([], [], []) Hex).
    reflexivity.
Qed.

(** *** Dictionaries *)

Lemma dict_get_set_same {V} (d : dict V) (k : string) (v : V) :
  dict_get (dict_set d k v) k = Some v.
Proof.
  induction d as [|[k' v'] d IH]; cbn [dict_set dict_get].
  - rewrite String.eqb_refl. reflexivity.
  - destruct (String.eqb k k') eqn:E; cbn [dict_get]; rewrite E; [reflexivity | exact IH].
Qed.

Lemma dict_get_set_other {V} (d : dict V) (k k' : string) (v : V) :
  k' <> k -> dict_get (dict_set d k v) k' = dict_get d k'.
Proof.
  intros Hne. induction d as [|[k0 v0] d IH]; cbn [dict_set dict_get].
  - destruct (String.eqb_spec k' k); [contradiction | reflexivity].
  - destruct (String.eqb_spec k k0) as [->|Hk]; cbn [dict_get].
    + destruct (String.eqb_spec k' k0); [contradiction | reflexivity].
    + rewrite IH. reflexivity.
Qed.

Lemma keys_set_present {V} (d : dict V) (k : string) (v v0 : V) :
  dict_get d k = Some v0 -> keys (dict_set d k v) = keys d.
Proof.
  induction d as [|[k' v'] d IH]; cbn [dict_set dict_get]; [discriminate|].
  destruct (String.eqb k k'); intros Hget; cbn [keys map fst] in *; [reflexivity|].
  unfold keys in IH. rewrite IH by exact Hget. reflexivity.
Qed.

(** *** The distributed train loaders of [train_worker] *)

Definition has_train (data : dict (dict (Loader Tensor))) (dataset_name : string) : Prop :=
  exists splits train_loader,
    dict_get data dataset_name = Some splits /\
    dict_get splits "train" = Some train_loader.

(** What one pass of lines 289-300 keeps of the data: the dataset names and
    their order, and of every dataset the split names, their order and every
    split but "train". *)
Definition same_but_train (data data' : dict (dict (Loader Tensor))) : Prop :=
  keys data' = keys data /\
  (forall dataset_name,
      dict_get data dataset_name = None -> dict_get data' dataset_name = None) /\
  (forall dataset_name splits,
      dict_get data dataset_name = Some splits ->
      exists splits',
        dict_get data' dataset_name = Some splits' /\
        keys splits' = keys splits /\
        (dict_get splits "train" = None -> dict_get splits' "train" = None) /\
        (forall tl, dict_get splits "train" = Some tl ->
                    exists tl', dict_get splits' "train" = Some tl') /\
        (forall split, split <> "train" -> dict_get splits' split = dict_get splits split)).

Lemma same_but_train_refl data : same_but_train data data.
Proof.
  split; [reflexivity|]. split; [auto|].
  intros dataset_name splits Hd. exists splits. repeat split; eauto.
Qed.

Lemma same_but_train_trans d1 d2 d3 :
  same_but_train d1 d2 -> same_but_train d2 d3 -> same_but_train d1 d3.
Proof.
  intros (K12 & N12 & S12) (K23 & N23 & S23).
  split; [congruence|]. split; [auto|].
  intros dataset_name splits Hd.
  destruct (S12 dataset_name splits Hd) as (s2 & H2 & Hk2 & Hn2 & Ht2 & Ho2).
  destruct (S23 dataset_name s2 H2) as (s3 & H3 & Hk3 & Hn3 & Ht3 & Ho3).
  exists s3. split; [exact H3|]. split; [congruence|]. split; [auto|]. split.
  - intros tl Htl. destruct (Ht2 tl Htl) as [tl2 Htl2]. eauto.
  - intros split Hne. rewrite Ho3, Ho2 by exact Hne. reflexivity.
Qed.

Lemma same_but_train_step data dataset_name splits train_loader new_loader :
  dict_get data dataset_name = Some splits ->
  dict_get splits "train" = Some train_loader ->
  same_but_train data (dict_set data dataset_name (dict_set splits "train" new_loader)).
Proof.
  intros Hd Ht. split; [|split].
  - eapply keys_set_present. exact Hd.
  - intros other Hnone.
    rewrite dict_get_set_other; [exact Hnone | congruence].
  - intros other osplits Ho.
    destruct (String.eqb_spec other dataset_name) as [->|Hne].
    + rewrite Hd in Ho. injection Ho as <-.
      exists (dict_set splits "train" new_loader).
      rewrite dict_get_set_same. split; [reflexivity|].
      split; [eapply keys_set_present; exact Ht|].
      split; [congruence|]. split.
      * intros tl _. rewrite dict_get_set_same. eauto.
      * intros split Hs. apply dict_get_set_other. exact Hs.
    + exists osplits. rewrite dict_get_set_other by exact Hne.
      repeat split; eauto.
Qed.

Lemma has_train_kept data data' dataset_name :
  same_but_train data data' -> has_train data dataset_name -> has_train data' dataset_name.
Proof.
  intros (_ & _ & Hs) (splits & tl & Hd & Ht).
  destruct (Hs dataset_name splits Hd) as (splits' & Hd' & _ & _ & Htl & _).
  destruct (Htl tl Ht) as [tl' Htl']. exists splits', tl'. auto.
Qed.

Lemma has_train_back data data' dataset_name :
  same_but_train data data' -> has_train data' dataset_name -> has_train data dataset_name.
Proof.
  intros (_ & Hn & Hs) (splits' & tl' & Hd' & Ht').
  destruct (dict_get data dataset_name) as [splits|] eqn:Hd.
  - destruct (Hs dataset_name splits Hd) as (splits2 & Hd2 & _ & Hnone & _ & _).
    rewrite Hd' in Hd2. injection Hd2 as <-.
    destruct (dict_get splits "train") as [tl|] eqn:Ht.
    + exists splits, tl. auto.
    + rewrite (Hnone eq_refl) in Ht'. discriminate.
  - rewrite (Hn dataset_name Hd) in Hd'. discriminate.
Qed.

Lemma replace_train_loaders_outcome dataset_names world_size rank :
  forall data,
    match replace_train_loaders data dataset_names world_size rank with
    | Ok _ => Forall (has_train data) dataset_names
    | Raise e => exists key, e = KeyError key
    end.
Proof.
  induction dataset_names as [|dataset_name rest IH]; intros data;
    cbn [replace_train_loaders]; [constructor|].
  unfold getitem.
  destruct (dict_get data dataset_name) as [splits|] eqn:Hd; cbn [obind]; [|eauto].
  destruct (dict_get splits "train") as [train_loader|] eqn:Ht; cbn [obind]; [|eauto].
  pose proof (same_but_train_step data dataset_name splits train_loader
                (distributed_loader train_loader world_size rank true) Hd Ht) as Hstep.
  specialize (IH (dict_set data dataset_name
                    (dict_set splits "train"
                       (distributed_loader train_loader world_size rank true)))).
  destruct (replace_train_loaders _ rest world_size rank) as [data'|e]; [|exact IH].
  constructor.
  - exists splits, train_loader. auto.
  - eapply Forall_impl; [|exact IH].
    intros n Hn. eapply has_train_back; eauto.
Qed.

(** X4.  The loader replacement of [train_worker] gets through exactly when
    every dataset of the training order has a "train" split; otherwise it
    raises a [KeyError]. *)
Theorem replace_train_loaders_returns data dataset_names world_size rank :
  (Forall (has_train data) dataset_names <->
   exists data', replace_train_loaders data dataset_names world_size rank = Ok data') /\
  (forall e, replace_train_loaders data dataset_names world_size rank = Raise e ->
             exists key, e = KeyError key).
Proof.
  pose proof (replace_train_loaders_outcome dataset_names world_size rank data) as Hout.
  split; [split|].
  - clear Hout. revert data.
    induction dataset_names as [|dataset_name rest IH]; intros data Hall.
    + exists data. reflexivity.
    + inversion Hall as [|? ? (splits & train_loader & Hd & Ht) Hrest]; subst.
      pose proof (same_but_train_step data dataset_name splits train_loader
                    (distributed_loader train_loader world_size rank true) Hd Ht) as Hstep.
      cbn [replace_train_loaders]. unfold getitem.
      rewrite Hd. cbn [obind]. rewrite Ht. cbn [obind].
      apply IH. eapply Forall_impl; [|exact Hrest].
      intros n Hn. eapply has_train_kept; eauto.
  - intros [data' Hrun]. rewrite Hrun in Hout. exact Hout.
  - intros e Hrun. rewrite Hrun in Hout. exact Hout.
Qed.

Lemma replace_train_loaders_same_but_train dataset_names world_size rank :
  forall data data',
    replace_train_loaders data dataset_names world_size rank = Ok data' ->
    same_but_train data data'.
Proof.
  induction dataset_names as [|dataset_name rest IH]; intros data data' Hrun.
  - injection Hrun as <-. apply same_but_train_refl.
  - cbn [replace_train_loaders] in Hrun. unfold getitem in Hrun.
    destruct (dict_get data dataset_name) as [splits|] eqn:Hd; [|discriminate].
    cbn [obind] in Hrun.
    destruct (dict_get splits "train") as [train_loader|] eqn:Ht; [|discriminate].
    cbn [obind] in Hrun.
    eapply same_but_train_trans; [|apply IH; exact Hrun].
    eapply same_but_train_step; eauto.
Qed.

Lemma replace_train_loaders_untouched dataset_names world_size rank :
  forall data data' dataset_name,
    replace_train_loaders data dataset_names world_size rank = Ok data' ->
    ~ In dataset_name dataset_names ->
    dict_get data' dataset_name = dict_get data dataset_name.
Proof.
  induction dataset_names as [|n rest IH]; intros data data' dataset_name Hrun Hnot.
  - injection Hrun as <-. reflexivity.
  - cbn [replace_train_loaders] in Hrun. unfold getitem in Hrun.
    destruct (dict_get data n) as [splits|] eqn:Hd; [|discriminate].
    cbn [obind] in Hrun.
    destruct (dict_get splits "train") as [train_loader|] eqn:Ht; [|discriminate].
    cbn [obind] in Hrun.
    rewrite (IH _ _ dataset_name Hrun) by (intros Hin; apply Hnot; right; exact Hin).
    apply dict_get_set_other. intros ->. apply Hnot. left. reflexivity.
Qed.

(** X5.  When the loader replacement of [train_worker] gets through, the
    data keep their dataset names and split names in their order, every
    split other than "train" is the loader it was, a dataset outside the
    training order is untouched, and, the names of the order being
    distinct, the "train" loader of each of them is the distributed loader
    built from the one it was, shuffling, for this rank. *)
Theorem replace_train_loaders_effect data dataset_names world_size rank data' :
  replace_train_loaders data dataset_names world_size rank = Ok data' ->
  keys data' = keys data /\
  (forall dataset_name splits,
      dict_get data dataset_name = Some splits ->
      exists splits',
        dict_get data' dataset_name = Some splits' /\
        keys splits' = keys splits /\
        (forall split, split <> "train" -> dict_get splits' split = dict_get splits split)) /\
  (forall dataset_name,
      ~ In dataset_name dataset_names ->
      dict_get data' dataset_name = dict_get data dataset_name) /\
  (NoDup dataset_names ->
   forall dataset_name splits train_loader,
     In dataset_name dataset_names ->
     dict_get data dataset_name = Some splits ->
     dict_get splits "train" = Some train_loader ->
     exists splits',
       dict_get data' dataset_name = Some splits' /\
       dict_get splits' "train"
       = Some (distributed_loader train_loader world_size rank true)).
Proof.
  intros Hrun.
  pose proof (replace_train_loaders_same_but_train _ _ _ _ _ Hrun) as (Hk & _ & Hs).
  split; [exact Hk|]. split; [|split].
  - intros dataset_name splits Hd.
    destruct (Hs dataset_name splits Hd) as (splits' & Hd' & Hk' & _ & _ & Ho). eauto.
  - intros dataset_name Hnot. eapply replace_train_loaders_untouched; eauto.
  - clear Hk Hs. revert data Hrun.
    induction dataset_names as [|n rest IH];
      intros data Hrun Hnodup dataset_name splits train_loader Hin Hd Ht.
    + contradiction.
    + inversion Hnodup as [|? ? Hn Hrest]; subst.
      cbn [replace_train_loaders] in Hrun. unfold getitem in Hrun.
      destruct (dict_get data n) as [nsplits|] eqn:Hdn; [|discriminate].
      cbn [obind] in Hrun.
      destruct (dict_get nsplits "train") as [ntl|] eqn:Htn; [|discriminate].
      cbn [obind] in Hrun.
      destruct (String.eqb_spec dataset_name n) as [->|Hne].
      * rewrite Hdn in Hd. injection Hd as <-. rewrite Htn in Ht. injection Ht as <-.
        rewrite (replace_train_loaders_untouched _ _ _ _ _ n Hrun Hn).
        rewrite dict_get_set_same. eexists. split; [reflexivity|].
        apply dict_get_set_same.
      * destruct Hin as [->|Hin]; [congruence|].
        apply (IH _ Hrun Hrest dataset_name splits train_loader Hin); [|exact Ht].
        rewrite dict_get_set_other by exact Hne. exact Hd.
Qed.

Lemma train_worker_replacement_raises rank world_size experiment name s e :
  replace_train_loaders (data_loaders experiment) (train_datasets experiment)
    world_size rank = Raise e ->
  train_worker rank world_size experiment name s
  = (Raise e, state_before_train_loop rank world_size name s).
Proof.
  intros Hdata. unfold train_worker, state_before_train_loop, initialize_writer.
  unfold bind at 1. cbn [emit].
  destruct (rank =? 0);
    unfold bind at 1; cbn [bind emit ret when world events global_step best_stsb_score];
    unfold bind at 1, lift at 1; rewrite Hdata;
    repeat rewrite <- app_assoc; reflexivity.
Qed.

(** X6.  When a dataset of the training order has no "train" split, a
    worker raises a [KeyError] having joined the process group (and, as
    rank 0, opened its writer and made the weights directory) and nothing
    more: [train_loop] does not start and the group is not left. *)
Theorem train_worker_stops_at_replacement rank world_size experiment name s :
  ~ Forall (has_train (data_loaders experiment)) (train_datasets experiment) ->
  exists key,
    train_worker rank world_size experiment name s
    = (Raise (KeyError key),
       mk_state (world s)
         (events s
          ++ EInitProcessGroup rank world_size
             :: (if rank =? 0
                 then [EWriterOpen ("runs/" ++ name)%string; EMakedirs "weights"]
                 else []))
         (global_step s) (best_stsb_score s)).
Proof.
  intros Hnot.
  pose proof (replace_train_loaders_outcome (train_datasets experiment) world_size rank
                (data_loaders experiment)) as Hout.
  destruct (replace_train_loaders (data_loaders experiment) (train_datasets experiment)
              world_size rank) as [data'|e] eqn:Hrun.
  - exfalso. apply Hnot. exact Hout.
  - destruct Hout as [key ->].
    exists key. apply train_worker_replacement_raises. exact Hrun.
Qed.

(** *** The validation split of a dataset *)

Lemma prefix_spec (needle s : string) :
  String.prefix needle s = true <-> exists post, s = (needle ++ post)%string.
Proof.
  revert s. induction needle as [|a needle IH]; intros s.
  - split; [intros _; exists s; reflexivity | intros _; destruct s; reflexivity].
  - destruct s as [|b s]; cbn [String.prefix].
    + split; [discriminate | intros [post Hpost]; discriminate].
    + destruct (Ascii.ascii_dec a b) as [->|Hne].
      * rewrite IH. split; intros [post Hpost]; exists post.
        -- cbn. rewrite Hpost. reflexivity.
        -- cbn in Hpost. congruence.
      * split; [discriminate|]. intros [post Hpost]. cbn in Hpost. congruence.
Qed.

(** X7.  The test of line 136 takes a split as a validation split exactly
    when "validation" occurs somewhere in its name: [contains] is the
    substring test. *)
Theorem contains_spec (needle s : string) :
  contains needle s = true <->
  exists pre post, s = (pre ++ needle ++ post)%string.
Proof.
  induction s as [|c s IH]; cbn [contains].
  - rewrite orb_false_r, prefix_spec. split.
    + intros [post Hpost]. exists EmptyString, post. exact Hpost.
    + intros (pre & post & Hs). destruct pre as [|c pre]; [|discriminate].
      exists post. exact Hs.
  - rewrite orb_true_iff, prefix_spec, IH. split.
    + intros [[post Hpost]|(pre & post & Hs)].
      * exists EmptyString, post. exact Hpost.
      * exists (String c pre), post. cbn. rewrite Hs. reflexivity.
    + intros (pre & post & Hs). destruct pre as [|c' pre].
      * left. exists post. exact Hs.
      * right. cbn in Hs. injection Hs as _ Hs. eauto.
Qed.

Lemma dict_get_app_first {V} (pre post : dict V) (k : string) (v : V) :
  ~ In k (keys pre) -> dict_get (pre ++ (k, v) :: post) k = Some v.
Proof.
  induction pre as [|[k' v'] pre IH]; intros Hnot; cbn [app dict_get].
  - rewrite String.eqb_refl. reflexivity.
  - destruct (String.eqb_spec k k') as [->|Hne].
    + exfalso. apply Hnot. left. reflexivity.
    + apply IH. intros Hin. apply Hnot. right. exact Hin.
Qed.

(** X8.  The validation loader of a dataset is the loader of the first
    split, in the order of the mapping, whose name contains "validation",
    later ones being ignored; in distributed mode it is the non-shuffling
    distributed loader built from it; and there is none exactly when no
    split name contains "validation". *)
Theorem find_val_loader_first (data : dict (dict (Loader Tensor))) dataset_name
    is_ddp world_size rank (splits : dict (Loader Tensor)) :
  dict_get data dataset_name = Some splits ->
  (forall pre key val_loader post,
      splits = pre ++ (key, val_loader) :: post ->
      contains "validation" key = true ->
      Forall (fun kv => contains "validation" (fst kv) = false) pre ->
      find_val_loader data dataset_name is_ddp world_size rank
      = Ok (Some (if is_ddp
                  then distributed_loader val_loader world_size rank false
                  else val_loader))) /\
  (Forall (fun kv => contains "validation" (fst kv) = false) splits <->
   find_val_loader data dataset_name is_ddp world_size rank = Ok None).
Proof.
  intros Hd.
  assert (Hnone : forall l : dict (Loader Tensor),
             Forall (fun kv => contains "validation" (fst kv) = false) l ->
             filter (contains "validation") (keys l) = []).
  { induction 1 as [|[k v] l Hk _ IH]; [reflexivity|].
    cbn [keys map filter fst] in *. rewrite Hk. exact IH. }
  split.
  - intros pre key val_loader post Hsplits Hkey Hpre.
    unfold find_val_loader, getitem. rewrite Hd. cbn [obind]. subst splits.
    unfold keys. rewrite map_app, filter_app. fold (keys pre).
    rewrite (Hnone pre Hpre). cbn [app map filter fst]. rewrite Hkey.
    rewrite dict_get_app_first.
    + cbn [obind]. destruct is_ddp; reflexivity.
    + intros Hin. unfold keys in Hin. apply in_map_iff in Hin.
      destruct Hin as ([k v] & Hk & Hin). cbn in Hk. subst k.
      rewrite Forall_forall in Hpre. specialize (Hpre _ Hin). cbn in Hpre. congruence.
  - unfold find_val_loader, getitem. rewrite Hd. cbn [obind]. split.
    + intros Hall. rewrite (Hnone splits Hall). reflexivity.
    + intros Hfind.
      destruct (filter (contains "validation") (keys splits)) as [|key rest] eqn:Hf.
      * apply Forall_forall. intros [k v] Hin. cbn [fst].
        destruct (contains "validation" k) eqn:Hk; [|reflexivity].
        assert (Hkin : In k (filter (contains "validation") (keys splits))).
        { apply filter_In. split; [|exact Hk].
          unfold keys. apply in_map_iff. exists (k, v). auto. }
        rewrite Hf in Hkin. contradiction.
      * exfalso.
        destruct (dict_get splits key); cbn [obind] in Hfind;
          [destruct is_ddp|]; discriminate.
Qed.

(** *** [train] and its writer *)

Lemma train_loop_single_process experiment name writer world_size rank :
  respects (extends_with (fun e => is_lifecycle_event e = false))
    (train_loop experiment name writer false world_size rank).
Proof. extends_auto ltac:(reflexivity). Qed.

(** X12.  [train] opens the writer "runs/<name>" first and closes it last
    when [train_loop] returns; when [train_loop] raises, the writer is
    left open.  In between, a single-process run never touches a process
    group, a sampler epoch or the writer's life cycle. *)
Theorem train_writer_lifecycle experiment name s :
  exists evs,
    Forall (fun e => is_lifecycle_event e = false) evs /\
    match fst (train experiment name s) with
    | Ok _ =>
        events (snd (train experiment name s))
        = events s ++ EWriterOpen ("runs/" ++ name)%string
                      :: evs ++ [EWriterClose ("runs/" ++ name)%string]
    | Raise _ =>
        events (snd (train experiment name s))
        = events s ++ EWriterOpen ("runs/" ++ name)%string :: evs
    end.
Proof.
  unfold train, initialize_writer. unfold bind at 1. cbn [bind emit ret].
  destruct (train_loop_single_process experiment name
              (Some (mk_writer ("runs/" ++ name)%string)) 1 0
              (mk_state (world s) (events s ++ [EWriterOpen ("runs/" ++ name)%string])
                 (global_step s) (best_stsb_score s)))
    as (evs & Hev & Hall).
  exists evs. split; [exact Hall|].
  unfold bind.
  destruct (train_loop experiment name _ false 1 0 _) as [[u|e] s1];
    cbn [fst snd events writer_close emit log_dir] in *; rewrite Hev;
    repeat rewrite <- app_assoc; reflexivity.
Qed.

(** *** The step axis of the [train_loss] metric *)

Lemma map_seq_offset (f g : nat -> Z) (d : nat) :
  (forall i, f (i + d)%nat = g i) ->
  forall k a, map f (seq (a + d) k) = map g (seq a k).
Proof.
  intros Hfg. induction k as [|k IH]; intros a; cbn [seq map]; [reflexivity|].
  rewrite Hfg. f_equal. apply (IH (S a)).
Qed.

Lemma steps_after_app n k1 k2 :
  steps_after n (k1 + k2) = steps_after n k1 ++ steps_after (n + Z.of_nat k1) k2.
Proof.
  unfold steps_after. rewrite seq_app, map_app. f_equal.
  apply map_seq_offset. intros i. lia.
Qed.

Lemma train_loss_steps_app l1 l2 :
  train_loss_steps (l1 ++ l2) = train_loss_steps l1 ++ train_loss_steps l2.
Proof. unfold train_loss_steps. apply flat_map_app. Qed.

(** The [train_loss] entries added are logged at the steps the counter
    takes, one each on the coordinating process, none elsewhere. *)
Definition logs_each_step (coordinator : bool) (s s' : state) : Prop :=
  exists evs k,
    events s' = events s ++ evs /\
    global_step s' = global_step s + Z.of_nat k /\
    train_loss_steps evs = if coordinator then steps_after (global_step s) k else [].

Lemma logs_each_step_refl c s : logs_each_step c s s.
Proof.
  exists [], 0%nat. rewrite app_nil_r. split; [reflexivity|].
  split; [simpl; lia | destruct c; reflexivity].
Qed.

Lemma logs_each_step_trans c s1 s2 s3 :
  logs_each_step c s1 s2 -> logs_each_step c s2 s3 -> logs_each_step c s1 s3.
Proof.
  intros (e1 & k1 & H1 & G1 & L1) (e2 & k2 & H2 & G2 & L2).
  exists (e1 ++ e2), (k1 + k2)%nat.
  split; [rewrite H2, H1, app_assoc; reflexivity|]. split; [lia|].
  rewrite train_loss_steps_app, L1, L2. destruct c; [|reflexivity].
  rewrite steps_after_app, G1. reflexivity.
Qed.

Lemma logs_each_step_emit c e :
  train_loss_steps [e] = [] -> respects (logs_each_step c) (emit e).
Proof.
  intros He s. exists [e], 0%nat. split; [reflexivity|].
  split; [simpl; lia|]. rewrite He. destruct c; reflexivity.
Qed.

Lemma logs_each_step_silent c {A} (m : M state A) :
  (forall s, events (snd (m s)) = events s /\ global_step (snd (m s)) = global_step s) ->
  respects (logs_each_step c) m.
Proof.
  intros Hm s. destruct (Hm s) as [He Hg]. exists [], 0%nat.
  rewrite He, Hg, app_nil_r. split; [reflexivity|].
  split; [simpl; lia | destruct c; reflexivity].
Qed.

Lemma logs_each_step_train_batch writer rank dataset_name total batch :
  respects (logs_each_step (is_coordinator writer rank))
    (train_batch writer rank dataset_name total batch).
Proof.
  intros s. rewrite train_batch_run. cbn [snd events global_step].
  eexists _, 1%nat. split; [reflexivity|]. split; [simpl; lia|].
  rewrite train_loss_steps_app. unfold train_loss_log, is_coordinator.
  destruct writer; [destruct (rank =? 0)|]; reflexivity.
Qed.

Ltac logs_each_step_prim :=
  idtac;
  lazymatch goal with
  | |- respects _ (emit _) => apply logs_each_step_emit; reflexivity
  | |- respects _ (train_batch _ _ _ _ _) => apply logs_each_step_train_batch
  | |- respects _ get_world => apply logs_each_step_silent; intro; split; reflexivity
  | |- respects _ (set_world _) => apply logs_each_step_silent; intro; split; reflexivity
  | |- respects _ get_global_step => apply logs_each_step_silent; intro; split; reflexivity
  | |- respects _ get_best => apply logs_each_step_silent; intro; split; reflexivity
  | |- respects _ (set_best _) => apply logs_each_step_silent; intro; split; reflexivity
  end.

Ltac logs_each_step_order :=
  first [apply logs_each_step_refl | apply logs_each_step_trans].

Lemma epochs_log_each_step experiment name writer is_ddp world_size rank epochs :
  respects (logs_each_step (is_coordinator writer rank))
    (for_each epochs (epoch_body experiment name writer is_ddp world_size rank)).
Proof. respects_auto ltac:(logs_each_step_prim) ltac:(logs_each_step_order). Qed.

(** X13.  In a run of [train_loop] whose set-up succeeds, the coordinating
    process logs the [train_loss] metric at the steps 1, 2, ..., up to the
    final value of the step counter, each once and in order, whatever the
    datasets and epochs the batches belong to and whether the run ends
    normally or not; the other processes log none. *)
Theorem train_loss_logged_at_each_step experiment name writer is_ddp world_size rank s
    steps w' :
  total_steps experiment = Ok steps ->
  get_linear_schedule_with_warmup (world s) (warmup_steps experiment) steps = Ok w' ->
  exists evs k,
    events (snd (train_loop experiment name writer is_ddp world_size rank s))
    = events s ++ evs /\
    global_step (snd (train_loop experiment name writer is_ddp world_size rank s))
    = Z.of_nat k /\
    train_loss_steps evs
    = if is_coordinator writer rank then map Z.of_nat (seq 1 k) else [].
Proof.
  intros Hsteps Hsched. rewrite train_loop_run, Hsteps, Hsched.
  destruct (epochs_log_each_step experiment name writer is_ddp world_size rank
              (range (num_epochs experiment))
              (state_at_first_epoch experiment steps w' s))
    as (evs & k & Hev & Hstep & Hlog).
  exists (ESetupScheduler (warmup_steps experiment) steps :: evs), k.
  split; [|split].
  - rewrite Hev. cbn [state_at_first_epoch events]. rewrite <- app_assoc. reflexivity.
  - rewrite Hstep. cbn [state_at_first_epoch global_step]. lia.
  - change (train_loss_steps (ESetupScheduler (warmup_steps experiment) steps :: evs))
      with (train_loss_steps evs).
    rewrite Hlog. cbn [state_at_first_epoch global_step].
    destruct (is_coordinator writer rank); [|reflexivity].
    unfold steps_after. apply map_ext. intros i. lia.
Qed.

(** *** Checkpoints and evaluations *)

Lemma evaluate_and_checkpoint_events data name is_ddp dataset_name wr s :
  exists evs,
    events (snd (evaluate_and_checkpoint data name is_ddp dataset_name wr s))
    = events s ++ EEvaluate :: evs /\
    filter is_evaluate evs = [] /\
    (filter is_torch_save evs = [] \/
     filter is_torch_save evs = [ETorchSave ("weights/" ++ name ++ ".pt")%string]).
Proof.
  rewrite evaluate_and_checkpoint_run.
  destruct (evaluate_result data (inner_model_eval (world s))) as [results|e].
  2: { exists []. cbn [snd state_after_evaluate events]. auto. }
  cbn [snd events]. eexists. split; [reflexivity|].
  unfold report_events, save_events.
  destruct (float_gt _ _); cbn; auto.
Qed.

(** Every checkpoint goes to the file of the run, and there are no more
    checkpoints than evaluations. *)
Definition saves_after_evaluations (name : string) (s s' : state) : Prop :=
  exists evs,
    events s' = events s ++ evs /\
    Forall (fun e => is_torch_save e = true ->
                     e = ETorchSave ("weights/" ++ name ++ ".pt")%string) evs /\
    (List.length (filter is_torch_save evs) <= List.length (filter is_evaluate evs))%nat.

Lemma saves_after_evaluations_refl name s : saves_after_evaluations name s s.
Proof. exists []. rewrite app_nil_r. repeat split; [constructor | simpl; lia]. Qed.

Lemma saves_after_evaluations_trans name s1 s2 s3 :
  saves_after_evaluations name s1 s2 -> saves_after_evaluations name s2 s3 ->
  saves_after_evaluations name s1 s3.
Proof.
  intros (e1 & H1 & F1 & C1) (e2 & H2 & F2 & C2). exists (e1 ++ e2).
  split; [rewrite H2, H1, app_assoc; reflexivity|].
  split; [apply Forall_app; auto|].
  rewrite !filter_app, !length_app. lia.
Qed.

Lemma saves_after_evaluations_emit name e :
  is_torch_save e = false -> respects (saves_after_evaluations name) (emit e).
Proof.
  intros He s. exists [e]. split; [reflexivity|]. split.
  - constructor; [congruence | constructor].
  - cbn [filter]. rewrite He. simpl. lia.
Qed.

Lemma saves_after_evaluations_silent name {A} (m : M state A) :
  (forall s, events (snd (m s)) = events s) -> respects (saves_after_evaluations name) m.
Proof.
  intros Hm s. exists []. rewrite Hm, app_nil_r.
  repeat split; [constructor | simpl; lia].
Qed.

Lemma saves_after_evaluations_checkpoint data name is_ddp dataset_name wr :
  respects (saves_after_evaluations name)
    (evaluate_and_checkpoint data name is_ddp dataset_name wr).
Proof.
  intros s.
  destruct (evaluate_and_checkpoint_events data name is_ddp dataset_name wr s)
    as (evs & Hev & Hne & Hsave).
  exists (EEvaluate :: evs). split; [exact Hev|]. split.
  - constructor; [discriminate|].
    apply Forall_forall. intros e Hin He.
    assert (Hf : In e (filter is_torch_save evs)) by (apply filter_In; auto).
    destruct Hsave as [Hs|Hs]; rewrite Hs in Hf; cbn in Hf; [contradiction|].
    destruct Hf as [<-|[]]. reflexivity.
  - cbn [filter is_torch_save is_evaluate]. rewrite Hne.
    destruct Hsave as [-> | ->]; simpl; lia.
Qed.

Ltac saves_prim :=
  idtac;
  lazymatch goal with
  | |- respects _ (emit _) => apply saves_after_evaluations_emit; reflexivity
  | |- respects _ (evaluate_and_checkpoint _ _ _ _ _) =>
      apply saves_after_evaluations_checkpoint
  | |- respects _ get_world => apply saves_after_evaluations_silent; intro; reflexivity
  | |- respects _ (set_world _) => apply saves_after_evaluations_silent; intro; reflexivity
  | |- respects _ get_global_step =>
      apply saves_after_evaluations_silent; intro; reflexivity
  | |- respects _ (set_global_step _) =>
      apply saves_after_evaluations_silent; intro; reflexivity
  | |- respects _ get_best => apply saves_after_evaluations_silent; intro; reflexivity
  | |- respects _ (set_best _) => apply saves_after_evaluations_silent; intro; reflexivity
  end.

Ltac saves_order :=
  first [apply saves_after_evaluations_refl | apply saves_after_evaluations_trans].

(** X14.  Every checkpoint written during [train_loop] goes to the one file
    "weights/<name>.pt" of the run, which is thus overwritten at every
    improvement, and a checkpoint is only written after an evaluation: the
    trace holds no more checkpoint writes than evaluations. *)
Theorem checkpoints_follow_evaluations experiment name writer is_ddp world_size rank s :
  exists evs,
    events (snd (train_loop experiment name writer is_ddp world_size rank s))
    = events s ++ evs /\
    Forall (fun e => is_torch_save e = true ->
                     e = ETorchSave ("weights/" ++ name ++ ".pt")%string) evs /\
    (List.length (filter is_torch_save evs) <= List.length (filter is_evaluate evs))%nat.
Proof.
  assert (Hloop : respects (saves_after_evaluations name)
                    (train_loop experiment name writer is_ddp world_size rank))
    by respects_auto ltac:(saves_prim) ltac:(saves_order).
  apply Hloop.
Qed.

(** *** Without a writer *)

Lemma train_loop_without_writer experiment name is_ddp world_size rank :
  respects (extends_with (fun e => is_coordinator_effect e = true -> is_epoch_banner e = true))
    (train_loop experiment name None is_ddp world_size rank).
Proof. extends_auto ltac:(first [reflexivity | discriminate]). Qed.

(** X15.  The gate of lines 172-227 is [writer and rank == 0]: called
    without a writer, [train_loop] trains but never logs, evaluates or
    writes a checkpoint, on rank 0 as on any other; of the effects of the
    coordinating process only the epoch banner and the blank line after an
    epoch remain, which depend on the rank alone. *)
Theorem no_writer_no_checkpoint experiment name is_ddp world_size rank s :
  exists evs,
    events (snd (train_loop experiment name None is_ddp world_size rank s))
    = events s ++ evs /\
    Forall (fun e => is_coordinator_effect e = true -> is_epoch_banner e = true) evs /\
    filter is_evaluate evs = [] /\
    filter is_torch_save evs = [].
Proof.
  destruct (train_loop_without_writer experiment name is_ddp world_size rank s)
    as (evs & Hev & Hall).
  exists evs. split; [exact Hev|]. split; [exact Hall|].
  clear Hev. induction Hall as [|e evs He _ [IH1 IH2]]; [split; reflexivity|].
  cbn [filter]. rewrite IH1, IH2.
  destruct e; cbn in *; try (split; reflexivity); specialize (He eq_refl); discriminate.
Qed.

(** *** Averages over empty loaders *)

(** X16.  The train average of line 181 raises [ZeroDivisionError] exactly
    when the train loader yields no batch, whatever the total; the
    validation average of line 194 never raises, its divisor being at least
    1e-6, and over a validation loader without batches it is zero. *)
Theorem averages_on_empty_loaders :
  (forall total (train_loader : Loader Tensor),
      avg_train_loss total train_loader = Raise ZeroDivisionError <->
      batches train_loader = []) /\
  (forall total (val_loader : Loader Tensor),
      avg_val_loss total val_loader
      = Ok (fdiv total (Fin (inject_Z (len val_loader) + (1 # 1000000))))) /\
  (forall (val_loader : Loader Tensor) s,
      batches val_loader = [] ->
      exists q,
        (total <- for_fold (batches val_loader) (Fin 0) validation_batch ;;
         lift (avg_val_loss total val_loader)) s = (Ok (Fin q), s) /\
        (q == 0)%Q).
Proof.
  split; [|split].
  - intros total train_loader. unfold avg_train_loss, py_truediv_int, len.
    destruct (batches train_loader) as [|b l]; cbn [List.length].
    + split; reflexivity.
    + destruct (Z.of_nat (S (List.length l)) =? 0) eqn:E; [apply Z.eqb_eq in E; lia|].
      split; discriminate.
  - intros total val_loader. apply avg_val_loss_run.
  - intros val_loader s Hb. rewrite Hb. cbn [for_fold]. unfold bind, ret, lift.
    rewrite avg_val_loss_run. cbn [fdiv].
    rewrite inject_Z_plus_eps_nonzero by apply len_nonneg.
    eexists. split; [reflexivity|]. unfold Qdiv. ring.
Qed.

(** *** A dataset name that the data do not have *)

Lemma sum_train_lens_present data pre rest :
  Forall (fun n => dict_get data n <> None) pre ->
  forall acc, exists acc', sum_train_lens data (pre ++ rest) acc = sum_train_lens data rest acc'.
Proof.
  induction 1 as [|n pre Hn _ IH]; intros acc; cbn [app sum_train_lens]; [eauto|].
  unfold getitem, dict_mem.
  destruct (dict_get data n) as [splits|]; [|congruence]. cbn [obind].
  destruct (dict_get splits "train") as [tl|]; cbn [obind]; apply IH.
Qed.

(** X17.  The total-step computation fails on the first dataset name of the
    training order that the data mapping does not have: [train_loop] then
    raises [KeyError] with that name before anything else happens, the
    schedule is not even built; with every name present the computation
    returns, a dataset without a train split counting for nothing. *)
Theorem train_loop_missing_dataset experiment name writer is_ddp world_size rank s :
  (forall pre dataset_name post,
      train_datasets experiment = pre ++ dataset_name :: post ->
      Forall (fun n => dict_get (data_loaders experiment) n <> None) pre ->
      dict_get (data_loaders experiment) dataset_name = None ->
      train_loop experiment name writer is_ddp world_size rank s
      = (Raise (KeyError dataset_name), s)) /\
  (Forall (fun n => dict_get (data_loaders experiment) n <> None)
     (train_datasets experiment) ->
   total_steps experiment
   = Ok (steps_per_epoch (data_loaders experiment) (train_datasets experiment)
         * num_epochs experiment)).
Proof.
  split.
  - intros pre dataset_name post Hnames Hpre Hnone.
    rewrite train_loop_run. unfold total_steps, total_steps_per_epoch. rewrite Hnames.
    destruct (sum_train_lens_present (data_loaders experiment) pre (dataset_name :: post)
                Hpre 0) as [acc' ->].
    cbn [sum_train_lens]. unfold getitem. rewrite Hnone. reflexivity.
  - intros Hall. unfold total_steps, total_steps_per_epoch.
    destruct (sum_train_lens_present (data_loaders experiment) (train_datasets experiment)
                [] Hall 0) as [acc' Hsum].
    rewrite app_nil_r in Hsum. cbn [sum_train_lens] in Hsum.
    rewrite Hsum. cbn [obind].
    apply sum_train_lens_spec in Hsum. rewrite Hsum. f_equal.
Qed.

(** *** What the other processes do not need *)

Lemma returns_after_batches_gated data name writer is_ddp rank dataset_name val_loader avg :
  (is_coordinator writer rank = true -> returns (evaluate data)) ->
  returns (after_batches data name writer is_ddp rank dataset_name val_loader avg).
Proof.
  intros Heval. unfold is_coordinator in Heval.
  destruct writer as [wr|]; [destruct (rank =? 0) eqn:Hrank|].
  - apply returns_after_batches. apply Heval. reflexivity.
  - unfold after_batches, if_writer_and_rank0. rewrite Hrank.
    apply returns_bind; [|intros _; apply returns_ret].
    destruct val_loader as [val_loader|]; [|apply returns_ret].
    apply returns_bind; [intros s0; exists tt; reflexivity | intros _].
    apply returns_bind.
    + intros s0.
      destruct (validation_batches_run (batches val_loader) (Fin 0) s0)
        as (total & s2 & Hrun & _).
      exists total. rewrite Hrun. reflexivity.
    + intros total. apply returns_bind; [|intros _; apply returns_ret].
      intros s0. unfold lift. rewrite avg_val_loss_run. eexists. reflexivity.
  - unfold after_batches, if_writer_and_rank0.
    apply returns_bind; [|intros _; apply returns_ret].
    destruct val_loader as [val_loader|]; [|apply returns_ret].
    apply returns_bind; [intros s0; exists tt; reflexivity | intros _].
    apply returns_bind.
    + intros s0.
      destruct (validation_batches_run (batches val_loader) (Fin 0) s0)
        as (total & s2 & Hrun & _).
      exists total. rewrite Hrun. reflexivity.
    + intros total. apply returns_bind; [|intros _; apply returns_ret].
      intros s0. unfold lift. rewrite avg_val_loss_run. eexists. reflexivity.
Qed.

(** X18.  A process that is not the coordinator, or has no writer, needs
    neither the benchmark nor the correlation routines: with a non-empty
    train split for every dataset of the order and a schedule the library
    accepts, its [train_loop] ends normally. *)
Theorem other_processes_return experiment name writer is_ddp world_size rank :
  is_coordinator writer rank = false ->
  Forall (has_batches (data_loaders experiment)) (train_datasets experiment) ->
  (forall w steps, exists w',
      get_linear_schedule_with_warmup w (warmup_steps experiment) steps = Ok w') ->
  forall s, fst (train_loop experiment name writer is_ddp world_size rank s) = Ok tt.
Proof.
  intros Hc Hall Hsched s. rewrite train_loop_run.
  destruct (sum_train_lens_returns _ _ Hall 0) as [per_epoch Hsum].
  unfold total_steps, total_steps_per_epoch. rewrite Hsum. cbn [obind].
  destruct (Hsched (world s) (per_epoch * num_epochs experiment)) as [w' Hw']. rewrite Hw'.
  assert (Hloop : returns (for_each (range (num_epochs experiment))
                             (epoch_body experiment name writer is_ddp world_size rank))).
  { unfold for_each. apply returns_for_fold. intros [] epoch _. unfold epoch_body.
    apply returns_bind; [destruct (rank =? 0); [apply returns_emit | apply returns_ret]|].
    intros _. apply returns_bind.
    - unfold for_each. apply returns_for_fold. intros [] dataset_name Hin.
      rewrite Forall_forall in Hall.
      destruct (Hall _ Hin) as (splits & train_loader & Hd & Ht & Hb).
      intros s0.
      assert (Hlen : len train_loader <> 0).
      { unfold len. destruct (batches train_loader); [congruence | discriminate]. }
      destruct (find_val_loader_ok (data_loaders experiment) dataset_name is_ddp
                  world_size rank splits Hd) as [val_loader Hv].
      destruct (dataset_epoch_run (data_loaders experiment) name writer is_ddp world_size
                  rank epoch dataset_name s0 splits train_loader val_loader Hd Ht Hlen Hv)
        as (total & s1 & _ & Hrun).
      rewrite Hrun. apply returns_after_batches_gated. congruence.
    - intros _. destruct (rank =? 0); [apply returns_emit | apply returns_ret]. }
  destruct (Hloop (state_at_first_epoch experiment (per_epoch * num_epochs experiment) w' s))
    as [[] Hok].
  exact Hok.
Qed.

(** *** The coordinating process without the benchmark *)

Lemma train_loop_first_dataset_run experiment name writer is_ddp world_size rank s
    dataset_name rest steps w' e s1 :
  train_datasets experiment = dataset_name :: rest ->
  1 <= num_epochs experiment ->
  total_steps experiment = Ok steps ->
  get_linear_schedule_with_warmup (world s) (warmup_steps experiment) steps = Ok w' ->
  dataset_epoch (data_loaders experiment) name writer is_ddp world_size rank 0 dataset_name
    (snd (when (rank =? 0) (emit (EPrint (MsgEpoch (0 + 1) (num_epochs experiment))))
            (state_at_first_epoch experiment steps w' s)))
  = (Raise e, s1) ->
  train_loop experiment name writer is_ddp world_size rank s = (Raise e, s1).
Proof.
  intros Hnames Hepochs Hsteps Hsched Hfirst.
  rewrite train_loop_run, Hsteps, Hsched.
  destruct (range_first (num_epochs experiment) Hepochs) as [epochs ->].
  unfold for_each at 1. cbn [for_fold]. unfold bind at 1.
  unfold epoch_body at 1. rewrite Hnames. unfold bind at 1.
  destruct (when (rank =? 0) _ _) as [[u|e'] s0] eqn:Hw.
  2: { destruct (rank =? 0); discriminate. }
  cbn [snd] in Hfirst.
  unfold bind at 1. unfold for_each at 1. cbn [for_fold]. unfold bind at 1.
  rewrite Hfirst. reflexivity.
Qed.

(** X19.  On the coordinating process the benchmark is looked up only after
    the training batches of the first dataset-epoch: without a dataset
    "stsb" in the data, [train_loop] runs all the batches of the first
    dataset of the order and then raises [KeyError "stsb"], the step
    counter standing at the length of that train loader. *)
Theorem coordinator_trains_before_benchmark experiment name wr is_ddp world_size s
    dataset_name rest steps w' splits train_loader :
  train_datasets experiment = dataset_name :: rest ->
  1 <= num_epochs experiment ->
  total_steps experiment = Ok steps ->
  get_linear_schedule_with_warmup (world s) (warmup_steps experiment) steps = Ok w' ->
  dict_get (data_loaders experiment) dataset_name = Some splits ->
  dict_get splits "train" = Some train_loader ->
  len train_loader <> 0 ->
  dict_get (data_loaders experiment) "stsb" = None ->
  fst (train_loop experiment name (Some wr) is_ddp world_size 0 s)
  = Raise (KeyError "stsb") /\
  global_step (snd (train_loop experiment name (Some wr) is_ddp world_size 0 s))
  = len train_loader /\
  existsb is_evaluate
    (events (snd (train_loop experiment name (Some wr) is_ddp world_size 0 s))) = true.
Proof.
  intros Hnames Hepochs Hsteps Hsched Hd Ht Hlen Hstsb.
  set (s0 := snd (when (0 =? 0) (emit (EPrint (MsgEpoch (0 + 1) (num_epochs experiment))))
                    (state_at_first_epoch experiment steps w' s))).
  destruct (find_val_loader_ok (data_loaders experiment) dataset_name is_ddp world_size 0
              splits Hd) as [val_loader Hv].
  destruct (dataset_epoch_run (data_loaders experiment) name (Some wr) is_ddp world_size 0 0
              dataset_name s0 splits train_loader val_loader Hd Ht Hlen Hv)
    as (total & s1 & Hfold & Hrun).
  destruct (train_batches_run (Some wr) 0 dataset_name (batches train_loader) (Fin 0)
              (state_before_batches is_ddp 0 dataset_name s0))
    as (total' & s1' & Hfold' & Hstep).
  rewrite Hfold in Hfold'. injection Hfold' as <- <-.
  assert (Hgs1 : global_step s1 = len train_loader).
  { rewrite Hstep. unfold len, state_before_batches. destruct is_ddp; reflexivity. }
  unfold after_batches in Hrun.
  lazymatch type of Hrun with
  | _ = bind ?valpart ?k s1 =>
      assert (Hval : returns valpart /\ respects same_step valpart
                     /\ respects (extends_with (fun _ => True)) valpart)
  end.
  { split; [|split].
    - destruct val_loader as [val_loader|].
      + apply returns_bind; [intros x; exists tt; reflexivity | intros _].
        apply returns_bind.
        * intros x.
          destruct (validation_batches_run (batches val_loader) (Fin 0) x)
            as (tv & s2 & Hr & _).
          exists tv. rewrite Hr. reflexivity.
        * intros tv. apply returns_bind.
          -- intros x. unfold lift. rewrite avg_val_loss_run. eexists. reflexivity.
          -- intros avg_val. apply returns_if_writer. intros wr0.
             apply returns_bind; [apply returns_emit | intros _].
             apply returns_bind;
               [intros x; exists (global_step x); reflexivity | intros step].
             apply returns_emit.
      + apply returns_if_writer. intros _. apply returns_emit.
    - same_step_auto.
    - extends_auto ltac:(exact I). }
  destruct Hval as (Hret & Hsame & Hext).
  assert (Hdone : dataset_epoch (data_loaders experiment) name (Some wr) is_ddp world_size 0
                    0 dataset_name s0
                  = (Raise (KeyError "stsb"),
                     state_after_evaluate
                       (snd ((match val_loader with
                              | Some val_loader =>
                                  modify_world model_eval ;;
                                  total_val_loss <-
                                    for_fold (batches val_loader) (Fin 0) validation_batch ;;
                                  avg_val <- lift (avg_val_loss total_val_loss val_loader) ;;
                                  if_writer_and_rank0 (Some wr) 0 (fun wr0 =>
                                    emit (EPrint (MsgTrainVal dataset_name
                                            (fdiv total (Fin (inject_Z (len train_loader))))
                                            avg_val)) ;;
                                    step <- get_global_step ;;
                                    log_metrics wr0 dataset_name "val_loss" avg_val step)
                              | None =>
                                  if_writer_and_rank0 (Some wr) 0 (fun _ =>
                                    emit (EPrint (MsgTrainNoVal dataset_name
                                            (fdiv total
                                               (Fin (inject_Z (len train_loader)))))))
                              end) s1)))).
  { rewrite Hrun. unfold bind at 1.
    lazymatch goal with
    | |- context [match ?m s1 with _ => _ end] =>
        destruct (Hret s1) as [u Hu]; destruct (m s1) as [[u'|e'] s2] eqn:Hm;
        [|discriminate]
    end.
    cbn [snd]. unfold if_writer_and_rank0. cbn [Z.eqb].
    unfold evaluate_and_checkpoint. unfold bind at 1. rewrite evaluate_run.
    unfold evaluate_result, getitem. rewrite Hstsb. reflexivity. }
  rewrite (train_loop_first_dataset_run experiment name (Some wr) is_ddp world_size 0 s
             dataset_name rest steps w' _ _ Hnames Hepochs Hsteps Hsched Hdone).
  cbn [fst snd state_after_evaluate global_step events].
  split; [reflexivity|]. split.
  - rewrite (Hsame s1). exact Hgs1.
  - rewrite existsb_app. cbn. apply orb_true_r.
Qed.

(** *** No epoch at all *)

Lemma steps_per_epoch_nonneg data dataset_names : 0 <= steps_per_epoch data dataset_names.
Proof.
  unfold steps_per_epoch. induction dataset_names as [|n l IH]; cbn [fold_right]; [lia|].
  assert (0 <= train_len data n).
  { unfold train_len. destruct (dict_get data n) as [sp|]; [|lia].
    destruct (dict_get sp "train"); [apply len_nonneg | lia]. }
  lia.
Qed.

(** X20.  With an epoch count of zero or less the loops of [train_loop] do
    not run: once the schedule is built, for a number of steps that is
    then zero or negative, [train_loop] returns at once, having trained,
    logged, evaluated and saved nothing. *)
Theorem train_loop_without_epochs experiment name writer is_ddp world_size rank s steps w' :
  num_epochs experiment <= 0 ->
  total_steps experiment = Ok steps ->
  get_linear_schedule_with_warmup (world s) (warmup_steps experiment) steps = Ok w' ->
  steps <= 0 /\
  train_loop experiment name writer is_ddp world_size rank s
  = (Ok tt,
     mk_state (grad_scaler w')
       (events s ++ [ESetupScheduler (warmup_steps experiment) steps]) 0 NInf).
Proof.
  intros Hepochs Hsteps Hsched. split.
  - apply total_steps_spec in Hsteps. subst steps.
    pose proof (steps_per_epoch_nonneg (data_loaders experiment)
                  (train_datasets experiment)).
    nia.
  - rewrite train_loop_run, Hsteps, Hsched. unfold range.
    replace (Z.to_nat (num_epochs experiment)) with 0%nat by lia. reflexivity.
Qed.

(** *** What a run that ends normally did, dataset-epoch by dataset-epoch *)

(** The events of a class [c] are left as they are. *)
Definition same_class (c : event -> bool) (s s' : state) : Prop :=
  filter c (events s') = filter c (events s).

Lemma same_class_refl c s : same_class c s s.
Proof. reflexivity. Qed.

Lemma same_class_trans c s1 s2 s3 :
  same_class c s1 s2 -> same_class c s2 s3 -> same_class c s1 s3.
Proof. unfold same_class. congruence. Qed.

Lemma same_class_emit c e : c e = false -> respects (same_class c) (emit e).
Proof.
  intros He s. unfold same_class. cbn [emit snd events].
  rewrite filter_app. cbn [filter]. rewrite He. apply app_nil_r.
Qed.

Ltac same_class_prim :=
  idtac;
  lazymatch goal with
  | |- respects _ (emit _) => apply same_class_emit; reflexivity
  | |- respects _ get_world => intro; reflexivity
  | |- respects _ (set_world _) => intro; reflexivity
  | |- respects _ get_global_step => intro; reflexivity
  | |- respects _ (set_global_step _) => intro; reflexivity
  | |- respects _ get_best => intro; reflexivity
  | |- respects _ (set_best _) => intro; reflexivity
  end.

Ltac same_class_order := first [apply same_class_refl | apply same_class_trans].

Ltac same_class_auto := respects_auto ltac:(same_class_prim) ltac:(same_class_order).

(** From [H : m s0 = (_, s1)], that [m] leaves the events of its class. *)
Ltac same_class_of c H Hm :=
  lazymatch type of H with
  | ?m ?s0 = _ =>
      assert (Hm : respects (same_class c) m) by same_class_auto;
      specialize (Hm s0); rewrite H in Hm; cbn [snd] in Hm; unfold same_class in Hm
  end.

Lemma dataset_epoch_ok_evaluations data name writer is_ddp world_size rank epoch
    dataset_name s s' :
  dataset_epoch data name writer is_ddp world_size rank epoch dataset_name s = (Ok tt, s') ->
  filter is_evaluate (events s')
  = filter is_evaluate (events s)
    ++ (if is_coordinator writer rank then [EEvaluate] else []).
Proof.
  intros Hrun. unfold dataset_epoch in Hrun.
  bind_inv Hrun u0 s0 H0.
  bind_inv Hrun splits s1 H1. apply lift_ok in H1 as [H1 ->].
  bind_inv Hrun train_loader s2 H2. apply lift_ok in H2 as [H2 ->].
  bind_inv Hrun u3 s3 H3.
  bind_inv Hrun val_loader s4 H4. apply lift_ok in H4 as [H4 ->].
  bind_inv Hrun total s5 H5.
  bind_inv Hrun avg s6 H6. apply lift_ok in H6 as [H6 ->].
  bind_inv Hrun u7 s7 H7.
  same_class_of is_evaluate H0 E0. same_class_of is_evaluate H3 E3.
  same_class_of is_evaluate H5 E5. same_class_of is_evaluate H7 E7.
  assert (Hlast : filter is_evaluate (events s')
                  = filter is_evaluate (events s7)
                    ++ (if is_coordinator writer rank then [EEvaluate] else [])).
  { unfold if_writer_and_rank0, is_coordinator in *.
    destruct writer as [wr|]; [destruct (rank =? 0)|].
    - destruct (evaluate_and_checkpoint_events data name is_ddp dataset_name wr s7)
        as (evs & Hev & Hne & _).
      rewrite Hrun in Hev. cbn [snd] in Hev. rewrite Hev, filter_app.
      cbn [filter is_evaluate]. rewrite Hne. reflexivity.
    - injection Hrun as <-. rewrite app_nil_r. reflexivity.
    - injection Hrun as <-. rewrite app_nil_r. reflexivity. }
  rewrite Hlast. congruence.
Qed.

Lemma evaluate_and_checkpoint_no_set_epoch data name is_ddp dataset_name wr :
  respects (same_class is_set_epoch)
    (evaluate_and_checkpoint data name is_ddp dataset_name wr).
Proof. same_class_auto. Qed.

Lemma dataset_epoch_ok_set_epoch data name writer is_ddp world_size rank epoch
    dataset_name s s' :
  dataset_epoch data name writer is_ddp world_size rank epoch dataset_name s = (Ok tt, s') ->
  filter is_set_epoch (events s')
  = filter is_set_epoch (events s)
    ++ (if is_ddp then [ESetEpoch dataset_name epoch] else []).
Proof.
  intros Hrun. unfold dataset_epoch in Hrun.
  bind_inv Hrun u0 s0 H0.
  bind_inv Hrun splits s1 H1. apply lift_ok in H1 as [H1 ->].
  bind_inv Hrun train_loader s2 H2. apply lift_ok in H2 as [H2 ->].
  bind_inv Hrun u3 s3 H3.
  bind_inv Hrun val_loader s4 H4. apply lift_ok in H4 as [H4 ->].
  same_class_of is_set_epoch H0 E0.
  assert (E3 : filter is_set_epoch (events s3)
               = filter is_set_epoch (events s0)
                 ++ (if is_ddp then [ESetEpoch dataset_name epoch] else [])).
  { destruct is_ddp; cbn in H3; injection H3 as _ <-; cbn [events].
    - rewrite filter_app. reflexivity.
    - rewrite app_nil_r. reflexivity. }
  assert (Hrest : filter is_set_epoch (events s') = filter is_set_epoch (events s3)).
  { lazymatch type of Hrun with
    | ?m _ = _ =>
        assert (Hm : respects (same_class is_set_epoch) m)
          by respects_auto
               ltac:(first [same_class_prim
                           | apply evaluate_and_checkpoint_no_set_epoch])
               ltac:(same_class_order);
        specialize (Hm s3); rewrite Hrun in Hm; exact Hm
    end. }
  rewrite Hrest, E3, E0. reflexivity.
Qed.

Section LoopTrace.
Variables (c : event -> bool) (k : Z -> string -> list event).
Variables (experiment : Experiment) (name : string) (writer : option SummaryWriter)
          (is_ddp : bool) (world_size rank : Z).
Hypothesis c_print : forall m, c (EPrint m) = false.
Hypothesis c_dataset_epoch :
  forall epoch dataset_name s s',
    dataset_epoch (data_loaders experiment) name writer is_ddp world_size rank epoch
      dataset_name s = (Ok tt, s') ->
    filter c (events s') = filter c (events s) ++ k epoch dataset_name.

Lemma datasets_loop_class epoch dataset_names :
  forall s s',
    for_each dataset_names
      (dataset_epoch (data_loaders experiment) name writer is_ddp world_size rank epoch) s
    = (Ok tt, s') ->
    filter c (events s') = filter c (events s) ++ flat_map (k epoch) dataset_names.
Proof.
  unfold for_each. induction dataset_names as [|dataset_name rest IH]; intros s s' Hrun.
  - injection Hrun as <-. cbn [flat_map]. rewrite app_nil_r. reflexivity.
  - cbn [for_fold] in Hrun. bind_inv Hrun u s1 H1. destruct u.
    apply c_dataset_epoch in H1. apply IH in Hrun.
    rewrite Hrun, H1. cbn [flat_map]. rewrite app_assoc. reflexivity.
Qed.

Lemma epochs_loop_class epochs :
  forall s s',
    for_each epochs (epoch_body experiment name writer is_ddp world_size rank) s
    = (Ok tt, s') ->
    filter c (events s')
    = filter c (events s)
      ++ flat_map (fun epoch => flat_map (k epoch) (train_datasets experiment)) epochs.
Proof.
  unfold for_each. induction epochs as [|epoch rest IH]; intros s s' Hrun.
  - injection Hrun as <-. cbn [flat_map]. rewrite app_nil_r. reflexivity.
  - cbn [for_fold] in Hrun. bind_inv Hrun u s3 H3. destruct u.
    apply IH in Hrun. rewrite Hrun. cbn [flat_map]. rewrite app_assoc. f_equal.
    unfold epoch_body in H3.
    bind_inv H3 u0 s0 H0. bind_inv H3 u1 s1 H1. destruct u1.
    apply datasets_loop_class in H1.
    assert (E0 : filter c (events s0) = filter c (events s)).
    { destruct (rank =? 0); cbn in H0; injection H0 as _ <-; cbn [events];
        [rewrite filter_app; cbn [filter]; rewrite c_print; apply app_nil_r | reflexivity]. }
    assert (E3 : filter c (events s3) = filter c (events s1)).
    { destruct (rank =? 0); cbn in H3; injection H3 as <-; cbn [events];
        [rewrite filter_app; cbn [filter]; rewrite c_print; apply app_nil_r | reflexivity]. }
    rewrite E3, H1, E0. reflexivity.
Qed.

Lemma train_loop_class s :
  (forall warmup total, c (ESetupScheduler warmup total) = false) ->
  fst (train_loop experiment name writer is_ddp world_size rank s) = Ok tt ->
  filter c (events (snd (train_loop experiment name writer is_ddp world_size rank s)))
  = filter c (events s)
    ++ flat_map (fun epoch => flat_map (k epoch) (train_datasets experiment))
         (range (num_epochs experiment)).
Proof.
  intros Hsetup Hok. rewrite train_loop_run in Hok |- *.
  destruct (total_steps experiment) as [steps|e]; [|discriminate].
  destruct (get_linear_schedule_with_warmup _ _ _) as [w'|e]; [|discriminate].
  destruct (for_each _ _ _) as [r s'] eqn:Hloop. cbn [fst snd] in *. subst r.
  apply epochs_loop_class in Hloop. rewrite Hloop.
  cbn [state_at_first_epoch events]. rewrite filter_app. cbn [filter].
  rewrite Hsetup, app_nil_r. reflexivity.
Qed.

End LoopTrace.

Lemma flat_map_const_length {A B} (l : list A) (x : list B) :
  List.length (flat_map (fun _ => x) l) = (List.length l * List.length x)%nat.
Proof.
  induction l as [|a l IH]; cbn [flat_map List.length]; [reflexivity|].
  rewrite length_app, IH. lia.
Qed.

Lemma train_loop_grows experiment name writer is_ddp world_size rank :
  respects (extends_with (fun _ => True))
    (train_loop experiment name writer is_ddp world_size rank).
Proof. extends_auto ltac:(exact I). Qed.

(** X21.  A run of [train_loop] that ends normally has evaluated the
    benchmark once per dataset-epoch on the coordinating process, that is
    [num_epochs] times the number of names of the training order, and not
    at all on another process. *)
Theorem evaluations_per_dataset_epoch experiment name writer is_ddp world_size rank s :
  fst (train_loop experiment name writer is_ddp world_size rank s) = Ok tt ->
  exists evs,
    events (snd (train_loop experiment name writer is_ddp world_size rank s))
    = events s ++ evs /\
    List.length (filter is_evaluate evs)
    = if is_coordinator writer rank
      then (Z.to_nat (num_epochs experiment)
            * List.length (train_datasets experiment))%nat
      else 0%nat.
Proof.
  intros Hok.
  destruct (train_loop_grows experiment name writer is_ddp world_size rank s)
    as (evs & Hev & _).
  exists evs. split; [exact Hev|].
  pose proof (train_loop_class is_evaluate
                (fun _ _ => if is_coordinator writer rank then [EEvaluate] else [])
                experiment name writer is_ddp world_size rank
                ltac:(reflexivity)
                ltac:(intros; eapply dataset_epoch_ok_evaluations; eassumption)
                s ltac:(reflexivity) Hok) as Hclass.
  rewrite Hev, filter_app in Hclass. apply app_inv_head in Hclass. rewrite Hclass.
  rewrite !flat_map_const_length. unfold range. rewrite length_map, length_seq.
  destruct (is_coordinator writer rank); cbn [List.length]; lia.
Qed.

(** X22.  A distributed run of [train_loop] that ends normally has set the
    epoch of the train sampler once per dataset-epoch, to the current
    epoch, in the order of the loops: for each epoch from 0, each dataset
    of the order in turn; a run that is not distributed never sets it. *)
Theorem sampler_epoch_per_dataset_epoch experiment name writer is_ddp world_size rank s :
  fst (train_loop experiment name writer is_ddp world_size rank s) = Ok tt ->
  exists evs,
    events (snd (train_loop experiment name writer is_ddp world_size rank s))
    = events s ++ evs /\
    filter is_set_epoch evs
    = if is_ddp
      then flat_map (fun epoch =>
                       map (fun dataset_name => ESetEpoch dataset_name epoch)
                         (train_datasets experiment))
             (range (num_epochs experiment))
      else [].
Proof.
  intros Hok.
  destruct (train_loop_grows experiment name writer is_ddp world_size rank s)
    as (evs & Hev & _).
  exists evs. split; [exact Hev|].
  pose proof (train_loop_class is_set_epoch
                (fun epoch dataset_name =>
                   if is_ddp then [ESetEpoch dataset_name epoch] else [])
                experiment name writer is_ddp world_size rank
                ltac:(reflexivity)
                ltac:(intros; eapply dataset_epoch_ok_set_epoch; eassumption)
                s ltac:(reflexivity) Hok) as Hclass.
  rewrite Hev, filter_app in Hclass. apply app_inv_head in Hclass. rewrite Hclass.
  clear Hclass Hev Hok.
  destruct is_ddp.
  - apply flat_map_ext. intros epoch.
    induction (train_datasets experiment) as [|d l IHl]; cbn [flat_map map app];
      [reflexivity | rewrite IHl; reflexivity].
  - apply length_zero_iff_nil. rewrite !flat_map_const_length. cbn [List.length]. lia.
Qed.

End TrainerFacts.

(** ** More on [cosine_sim] *)

Section CosineFacts.
Context {F : Type}.
Variables (zero : F) (add mul div : F -> F -> F) (sqrt : F -> F).

Local Abbreviation cos_ := (cosine_sim zero add mul div sqrt).
Local Abbreviation cosine_of_ := (cosine_of zero add mul div sqrt).

(** The widths [einsum] accepts for the shared axis. *)
Definition broadcastable (a b : tensor2 F) : Prop :=
  ncols a = ncols b \/ ncols a = 1%nat \/ ncols b = 1%nat.

(** The product of two rows as [einsum] takes it, a row of width 1 being
    stretched to the width of the other operand. *)
Definition broadcast_dot (a b : tensor2 F) (ai bk : list F) : F :=
  if Nat.eqb (ncols a) (ncols b) then dot zero add mul ai bk
  else if Nat.eqb (ncols a) 1 then dot zero add mul (stretch (ncols b) ai) bk
  else dot zero add mul ai (stretch (ncols a) bk).

Definition broadcast_cosine_of (a b : tensor2 F) (ai bk : list F) : F :=
  div (broadcast_dot a b ai bk)
    (mul (norm zero add mul sqrt ai) (norm zero add mul sqrt bk)).

Lemma einsum_ij_kj_ik_returns (a b : tensor2 F) :
  (exists c, einsum_ij_kj_ik zero add mul a b = Ok c) <-> broadcastable a b.
Proof.
  unfold einsum_ij_kj_ik, broadcastable.
  destruct (Nat.eqb_spec (ncols a) (ncols b)) as [Heq|Hne]; [split; eauto|].
  destruct (Nat.eqb_spec (ncols a) 1) as [Ha|Ha]; [split; eauto|].
  destruct (Nat.eqb_spec (ncols b) 1) as [Hb|Hb]; [split; eauto|].
  split; [intros [c Hc]; discriminate | intros [H|[H|H]]; contradiction].
Qed.

Lemma cosine_sim_broadcast_rows (a b : tensor2 F) :
  broadcastable a b ->
  cos_ a b =
  Ok (mk_tensor2 (nrows b)
        (map (fun p => map (fun q => div (fst q) (snd q)) (combine (fst p) (snd p)))
           (combine
              (map (fun ai => map (fun bk => broadcast_dot a b ai bk) (rows b)) (rows a))
              (map (fun x => map (fun y => mul x y)
                               (map (norm zero add mul sqrt) (rows b)))
                 (map (norm zero add mul sqrt) (rows a)))))).
Proof.
  intros Hb. unfold cosine_sim, einsum_ij_kj_ik, broadcast_dot.
  assert (Hcases : Nat.eqb (ncols a) (ncols b) = true \/
                   Nat.eqb (ncols a) 1 = true \/ Nat.eqb (ncols b) 1 = true).
  { destruct Hb as [Hb|[Hb|Hb]]; rewrite Hb, ?Nat.eqb_refl; auto. }
  destruct (Nat.eqb (ncols a) (ncols b));
    [|destruct (Nat.eqb (ncols a) 1);
      [|destruct (Nat.eqb (ncols b) 1);
        [|destruct Hcases as [Hx|[Hx|Hx]]; discriminate]]];
    cbn [obind]; rewrite !einsum_norms;
    unfold tensor_div, einsum_i_j_ij; cbn [rows ncols]; rewrite !map_map; reflexivity.
Qed.

Lemma cosine_sim_ok_broadcastable (a b c : tensor2 F) :
  cos_ a b = Ok c -> broadcastable a b.
Proof.
  intros Hc. apply einsum_ij_kj_ik_returns.
  unfold cosine_sim in Hc.
  destruct (einsum_ij_kj_ik zero add mul a b) as [d|e]; [eauto | discriminate].
Qed.

Lemma cosine_sim_broadcast_entry (a b c : tensor2 F) (i j : nat) (ai bj : list F) :
  cos_ a b = Ok c ->
  nth_error (rows a) i = Some ai ->
  nth_error (rows b) j = Some bj ->
  entry c i j = Some (broadcast_cosine_of a b ai bj).
Proof.
  intros Hc Hi Hj.
  rewrite (cosine_sim_broadcast_rows a b (cosine_sim_ok_broadcastable a b c Hc)) in Hc.
  injection Hc as <-. unfold entry. simpl.
  rewrite nth_error_map, nth_error_combine, !nth_error_map, Hi. simpl.
  rewrite nth_error_map, nth_error_combine, !nth_error_map, Hj. simpl.
  reflexivity.
Qed.

Lemma cosine_sim_broadcast_shape (a b c : tensor2 F) :
  cos_ a b = Ok c ->
  nrows c = nrows a /\ ncols c = nrows b /\ well_shaped c.
Proof.
  intros Hc.
  rewrite (cosine_sim_broadcast_rows a b (cosine_sim_ok_broadcastable a b c Hc)) in Hc.
  injection Hc as <-. unfold nrows, well_shaped. simpl.
  rewrite length_map, length_combine, !length_map. repeat split; [lia|].
  apply Forall_forall. intros r Hr.
  apply in_map_iff in Hr. destruct Hr as [[u v] [<- Hin]]. simpl.
  apply in_combine_l in Hin as Hu. apply in_combine_r in Hin as Hv.
  apply in_map_iff in Hu. destruct Hu as [ai [<- _]].
  apply in_map_iff in Hv. destruct Hv as [x [<- _]].
  rewrite length_map, length_combine, !length_map. unfold nrows. lia.
Qed.

(** X9.  [cosine_sim] returns exactly when the column widths of its two
    operands are equal or one of them is 1, the widths the first [einsum]
    accepts; with any other pair of widths that [einsum] raises. *)
Theorem cosine_sim_returns_iff (a b : tensor2 F) :
  (exists c, cos_ a b = Ok c) <->
  (ncols a = ncols b \/ ncols a = 1%nat \/ ncols b = 1%nat).
Proof.
  split.
  - intros [c Hc]. exact (cosine_sim_ok_broadcastable a b c Hc).
  - intros Hb. rewrite (cosine_sim_broadcast_rows a b Hb). eauto.
Qed.

Lemma entry_out_of_rows (c : tensor2 F) (i j : nat) :
  (nrows c <= i)%nat -> entry c i j = None.
Proof.
  intros Hi. unfold entry.
  rewrite (proj2 (nth_error_None (rows c) i)); [reflexivity | exact Hi].
Qed.

Lemma entry_out_of_cols (c : tensor2 F) (i j : nat) :
  well_shaped c -> (ncols c <= j)%nat -> entry c i j = None.
Proof.
  intros Hw Hj. unfold entry. destruct (nth_error (rows c) i) as [r|] eqn:Er; [|reflexivity].
  apply nth_error_None. unfold well_shaped in Hw. rewrite Forall_forall in Hw.
  rewrite (Hw r); [exact Hj | eapply nth_error_In; eauto].
Qed.

Lemma dot_comm_from (u v : list F) :
  (forall x y, mul x y = mul y x) ->
  forall acc,
    fold_left (fun acc p => add acc (mul (fst p) (snd p))) (combine u v) acc
    = fold_left (fun acc p => add acc (mul (fst p) (snd p))) (combine v u) acc.
Proof.
  intros Hmul. revert v. induction u as [|x u IH]; intros [|y v] acc; cbn; auto.
  rewrite (Hmul x y). apply IH.
Qed.

(** X10.  With a commutative multiplication, as that of floats,
    [cosine_sim b a] is the transpose of [cosine_sim a b]. *)
Theorem cosine_sim_transpose (a b ab ba : tensor2 F) :
  (forall x y, mul x y = mul y x) ->
  cos_ a b = Ok ab ->
  cos_ b a = Ok ba ->
  forall i j, entry ab i j = entry ba j i.
Proof.
  intros Hmul Hab Hba i j.
  destruct (cosine_sim_broadcast_shape a b ab Hab) as (Hr1 & Hc1 & Hw1).
  destruct (cosine_sim_broadcast_shape b a ba Hba) as (Hr2 & Hc2 & Hw2).
  destruct (nth_error (rows a) i) as [ai|] eqn:Hi.
  - destruct (nth_error (rows b) j) as [bj|] eqn:Hj.
    + rewrite (cosine_sim_broadcast_entry a b ab i j ai bj Hab Hi Hj).
      rewrite (cosine_sim_broadcast_entry b a ba j i bj ai Hba Hj Hi).
      unfold broadcast_cosine_of. f_equal. f_equal; [|apply Hmul].
      pose proof (cosine_sim_ok_broadcastable a b ab Hab) as Hb.
      unfold broadcast_dot, broadcastable, dot in *.
      rewrite (Nat.eqb_sym (ncols b) (ncols a)).
      destruct (Nat.eqb_spec (ncols a) (ncols b)) as [Heq|Hne];
        [apply dot_comm_from; exact Hmul|].
      destruct (Nat.eqb_spec (ncols a) 1) as [Ha|Ha].
      * destruct (Nat.eqb_spec (ncols b) 1) as [Hb1|Hb1]; [congruence|].
        apply dot_comm_from. exact Hmul.
      * destruct (Nat.eqb_spec (ncols b) 1) as [Hb1|Hb1];
          [apply dot_comm_from; exact Hmul|].
        destruct Hb as [Hx|[Hx|Hx]]; contradiction.
    + apply nth_error_None in Hj.
      rewrite (entry_out_of_cols ab i j Hw1) by (rewrite Hc1; exact Hj).
      rewrite (entry_out_of_rows ba j i) by (rewrite Hr2; exact Hj). reflexivity.
  - apply nth_error_None in Hi.
    rewrite (entry_out_of_rows ab i j) by (rewrite Hr1; exact Hi).
    rewrite (entry_out_of_cols ba j i Hw2) by (rewrite Hc2; exact Hi). reflexivity.
Qed.

End CosineFacts.

(** *** Rows of zeros *)

(** A float that is zero or NaN. *)
Definition zero_or_nan (x : pyfloat) : Prop :=
  x = NaN \/ exists q, x = Fin q /\ (q == 0)%Q.

Lemma fmul_zero_l (q : Q) (y : pyfloat) : (q == 0)%Q -> zero_or_nan (fmul (Fin q) y).
Proof.
  intros Hq. destruct y as [r| | |]; cbn.
  - right. exists (q * r)%Q. split; [reflexivity | rewrite Hq; ring].
  - left. rewrite (proj1 (Qeq_alt q 0) Hq). reflexivity.
  - left. rewrite (proj1 (Qeq_alt q 0) Hq). reflexivity.
  - left. reflexivity.
Qed.

Lemma fadd_zero_or_nan (x y : pyfloat) :
  zero_or_nan x -> zero_or_nan y -> zero_or_nan (fadd x y).
Proof.
  intros [->|(q & -> & Hq)] [->|(r & -> & Hr)]; cbn; try (left; reflexivity).
  right. exists (q + r)%Q. split; [reflexivity | rewrite Hq, Hr; ring].
Qed.

Lemma fdiv_zero_or_nan (n d : pyfloat) :
  zero_or_nan n -> zero_or_nan d -> fdiv n d = NaN.
Proof.
  intros [->|(q & -> & Hq)] [->|(r & -> & Hr)]; cbn; try reflexivity.
  rewrite (proj2 (Qeq_bool_iff r 0) Hr), (proj1 (Qeq_alt q 0) Hq). reflexivity.
Qed.

Definition zero_row (u : list pyfloat) : Prop :=
  Forall (fun x => exists q, x = Fin q /\ (q == 0)%Q) u.

Lemma dot_zero_row (u v : list pyfloat) :
  zero_row u -> zero_or_nan (dot (Fin 0) fadd fmul u v).
Proof.
  intros Hu. unfold dot.
  assert (Hacc : zero_or_nan (Fin 0)) by (right; exists 0%Q; split; reflexivity).
  revert Hacc. generalize (Fin 0). revert v.
  induction Hu as [|x u (q & -> & Hq) _ IH]; intros [|y v] acc Hacc; cbn; auto.
  apply IH. apply fadd_zero_or_nan; [exact Hacc | apply fmul_zero_l; exact Hq].
Qed.

(** X11.  A row of zeros among the embeddings raises nothing: where the
    square root of zero is zero, every similarity [cosine_sim] computes for
    that row is NaN, whatever the other row is. *)
Theorem cosine_sim_zero_row_is_nan (sqrt : pyfloat -> pyfloat)
    (a b c : tensor2 pyfloat) (i j : nat) (ai bj : list pyfloat) :
  (forall q, (q == 0)%Q -> exists q', sqrt (Fin q) = Fin q' /\ (q' == 0)%Q) ->
  sqrt NaN = NaN ->
  cosine_sim (Fin 0) fadd fmul fdiv sqrt a b = Ok c ->
  nth_error (rows a) i = Some ai ->
  nth_error (rows b) j = Some bj ->
  zero_row ai ->
  entry c i j = Some NaN.
Proof.
  intros Hsqrt Hnan Hc Hi Hj Hzero.
  rewrite (cosine_sim_broadcast_entry (Fin 0) fadd fmul fdiv sqrt a b c i j ai bj Hc Hi Hj).
  unfold broadcast_cosine_of. f_equal. apply fdiv_zero_or_nan.
  - unfold broadcast_dot.
    destruct (Nat.eqb (ncols a) (ncols b)); [apply dot_zero_row; exact Hzero|].
    destruct (Nat.eqb (ncols a) 1); apply dot_zero_row; [|exact Hzero].
    unfold stretch. destruct Hzero as [|x u Hx Hu]; [constructor|].
    destruct Hu; [|constructor; [exact Hx | constructor; assumption]].
    apply Forall_forall. intros y Hy. apply repeat_spec in Hy. subst y. exact Hx.
  - unfold norm.
    destruct (dot_zero_row ai ai Hzero) as [Hd|(q & Hd & Hq)]; rewrite Hd.
    + rewrite Hnan. left. reflexivity.
    + destruct (Hsqrt q Hq) as (q' & -> & Hq'). apply fmul_zero_l. exact Hq'.
Qed.

(** * Runs on concrete inputs *)

#[local] Existing Instance Stub.collaborators.

(** The coordinating process, one epoch over a dataset whose only split is
    "train": the similarity evaluation runs and the checkpoint is written. *)
Lemma evaluation_runs_without_validation_split :
  find_val_loader Stub.data_no_validation "nli" false 1 0 = Ok None /\
  existsb is_evaluate
    (events (snd (dataset_epoch Stub.data_no_validation "demo" (Some Stub.writer)
                    false 1 0 0 "nli" (initial_state Stub.start)))) = true /\
  existsb is_torch_save
    (events (snd (dataset_epoch Stub.data_no_validation "demo" (Some Stub.writer)
                    false 1 0 0 "nli" (initial_state Stub.start)))) = true.
Proof. vm_compute. repeat split. Qed.

Lemma no_validation_split_epoch_witness :
  (exists evs,
      events (snd (dataset_epoch Stub.data_no_validation "demo" (Some Stub.writer)
                     false 1 0 0 "nli" (initial_state Stub.start)))
      = events (initial_state Stub.start) ++ evs /\
      Forall (fun e => is_validation_event e = false) evs) /\
  (exists total s1,
      for_fold [Stub.batch 1; Stub.batch 2] (Fin 0) (train_batch (Some Stub.writer) 0 "nli")
        (state_before_batches false 0 "nli" (initial_state Stub.start)) = (Ok total, s1) /\
      events
        (snd (evaluate Stub.data_no_validation
                (mk_state (world s1)
                   (events s1
                    ++ [no_validation_message "nli" total
                          (mk_loader [Stub.batch 1; Stub.batch 2])])
                   (global_step s1) (best_stsb_score s1))))
      = events s1
        ++ [no_validation_message "nli" total (mk_loader [Stub.batch 1; Stub.batch 2]);
            EEvaluate]).
Proof.
  destruct (no_validation_split_epoch Stub.data_no_validation "demo" (Some Stub.writer)
              false 1 0 0 "nli" (initial_state Stub.start)
              [("train", mk_loader [Stub.batch 1; Stub.batch 2])])
    as [Hquiet Hrun].
  - reflexivity.
  - reflexivity.
  - split; [exact Hquiet|].
    destruct (Hrun (mk_loader [Stub.batch 1; Stub.batch 2])) as (total & s1 & Hfold & _ & Hco).
    + reflexivity.
    + discriminate.
    + exists total, s1. split; [exact Hfold|].
      exact (proj1 (Hco Stub.writer eq_refl eq_refl)).
Defined.

(** Four optimization steps in all and a warm-up of ten: the schedule is
    built, the run ends normally, and at its end the learning rate is still
    in its warm-up, at four tenths of the base rate. *)
Lemma long_warmup_is_accepted :
  total_steps (Stub.experiment Stub.data_with_validation 1 10) = Ok 4 /\
  fst (setup_scheduler 10 4 (initial_state Stub.start)) = Ok tt /\
  fst (train (Stub.experiment Stub.data_with_validation 1 10) "demo"
         (initial_state Stub.start)) = Ok tt /\
  Stub.lr_multiplier
    (world (snd (train (Stub.experiment Stub.data_with_validation 1 10) "demo"
                   (initial_state Stub.start)))) = Some (4 # 10).
Proof. vm_compute. repeat split. Qed.

Lemma setup_scheduler_defers_to_library_witness :
  setup_scheduler 10 4 (initial_state Stub.start)
  = (Ok tt,
     mk_state (Stub.mk_world true true false 0 0 (Some (10, 4)))
       [ESetupScheduler 10 4] 0 NInf).
Proof.
  exact (proj1 (setup_scheduler_defers_to_library 10 4 (initial_state Stub.start))
           (Stub.mk_world true true false 0 0 (Some (10, 4))) eq_refl).
Defined.

(** The coordinating worker of a group of two, on a train loader without
    batches: the group is joined, [train_loop] raises, the group is never
    left. *)
Lemma group_not_left_when_training_raises :
  fst (train_worker 0 2 (Stub.experiment Stub.data_empty_train 1 0) "demo"
         (initial_state Stub.start)) = Raise ZeroDivisionError /\
  existsb is_init
    (events (snd (train_worker 0 2 (Stub.experiment Stub.data_empty_train 1 0) "demo"
                    (initial_state Stub.start)))) = true /\
  existsb is_destroy
    (events (snd (train_worker 0 2 (Stub.experiment Stub.data_empty_train 1 0) "demo"
                    (initial_state Stub.start)))) = false.
Proof. vm_compute. repeat split. Qed.

Lemma train_worker_teardown_witness :
  fst (train_worker 0 2 (Stub.experiment Stub.data_empty_train 1 0) "demo"
         (initial_state Stub.start)) = Raise ZeroDivisionError.
Proof.
  destruct (train_worker_teardown 0 2 (Stub.experiment Stub.data_empty_train 1 0) "demo"
              (initial_state Stub.start)) as (evs & _ & _ & Hraise).
  erewrite Hraise; [reflexivity | vm_compute; reflexivity | vm_compute; reflexivity].
Defined.

Lemma global_step_counts_batches_witness :
  global_step
    (snd (train_loop (Stub.experiment Stub.data_with_validation 2 2) "demo"
            (Some Stub.writer) false 1 0 (initial_state Stub.start)))
  = 2 * 4.
Proof.
  destruct (global_step_counts_batches (Stub.experiment Stub.data_with_validation 2 2)
              "demo" (Some Stub.writer) false 1 0 (initial_state Stub.start))
    as (evs & flags & _ & _ & _ & Hend).
  - discriminate.
  - destruct Hend as [Hgs _]; [vm_compute; reflexivity | exact Hgs].
Defined.

Lemma best_score_tracker_witness :
  exists evs scores,
    events (snd (train_loop (Stub.experiment Stub.data_with_validation 2 0) "demo"
                   (Some Stub.writer) false 1 0 (initial_state Stub.start)))
    = events (initial_state Stub.start) ++ evs /\
    tracker_view evs = expected_view "weights/demo.pt" NInf scores /\
    best_stsb_score
      (snd (train_loop (Stub.experiment Stub.data_with_validation 2 0) "demo"
              (Some Stub.writer) false 1 0 (initial_state Stub.start)))
    = best_after NInf scores.
Proof.
  destruct (best_score_tracker (Stub.experiment Stub.data_with_validation 2 0) "demo"
              (Some Stub.writer) false 1 0 (initial_state Stub.start) 8
              (Stub.mk_world true true false 0 0 (Some (0, 8))))
    as (evs & scores & Hev & Hview & Hbest & _).
  - reflexivity.
  - reflexivity.
  - exists evs, scores. split; [exact Hev|]. split; [exact Hview | exact Hbest].
Defined.

Lemma rank_gated_side_effects_witness :
  exists evs,
    events (snd (train_worker 1 2 (Stub.experiment Stub.data_with_validation 1 0) "demo"
                   (initial_state Stub.start)))
    = events (initial_state Stub.start) ++ evs /\
    Forall (fun e => is_coordinator_effect e = false) evs.
Proof.
  destruct (rank_gated_side_effects (Stub.experiment Stub.data_with_validation 1 0)
              "demo" None true 2 1 (initial_state Stub.start))
    as [_ Hworker].
  - discriminate.
  - exact Hworker.
Defined.

Lemma train_split_required_witness :
  fst (train_loop (Stub.experiment Stub.data_no_train 1 0) "demo" (Some Stub.writer)
         false 1 0 (initial_state Stub.start))
  = Raise (KeyError "train").
Proof.
  destruct (train_split_required (Stub.experiment Stub.data_no_train 1 0) "demo"
              (Some Stub.writer) false 1 0)
    as (_ & _ & Hfirst & _).
  destruct (Hfirst (initial_state Stub.start) "nli" []
              [("validation", mk_loader [Stub.batch 1])] 0
              (Stub.mk_world true true false 0 0 (Some (0, 0))))
    as [Hkey _].
  - reflexivity.
  - discriminate.
  - reflexivity.
  - reflexivity.
  - reflexivity.
  - apply Hkey. reflexivity.
Defined.

(** A validation batch whose loss overflows to infinity. *)
Definition data_infinite_validation : dict (dict (Loader (@Tensor Stub.collaborators))) :=
  [ ("nli", [("train", mk_loader [Stub.batch 1]);
             ("validation", mk_loader [[[PInf]]])]); Stub.stsb ].

(** A positive total that is not damped: the validation loss is infinite,
    the reported average is infinite, and so is the exact mean. *)
Lemma infinite_total_is_not_damped :
  float_gt (Stub.loss [[PInf]]) (Fin 0) = true /\
  In (EAddScalar "runs/demo" "nli" "val_loss" PInf 1)
     (events (snd (dataset_epoch data_infinite_validation "demo" (Some Stub.writer)
                     false 1 0 0 "nli" (initial_state Stub.start)))) /\
  fdiv (Stub.loss [[PInf]]) (Fin (inject_Z 1)) = PInf /\
  float_gt (fdiv (Stub.loss [[PInf]]) (Fin (inject_Z 1))) PInf = false.
Proof.
  split; [reflexivity|]. split; [|split; reflexivity].
  vm_compute. tauto.
Qed.

Lemma validation_average_is_damped_witness :
  float_le (fdiv (Fin 8) (Fin (inject_Z 2 + (1 # 1000000)))) (fdiv (Fin 8) (Fin (inject_Z 2)))
  = true.
Proof.
  destruct (validation_average_is_damped Stub.data_with_validation "demo" Stub.writer
              false 1 0 "nli" (initial_state Stub.start)
              [("train", mk_loader [Stub.batch 1; Stub.batch 2; Stub.batch 3; Stub.batch 4]);
               ("validation_matched", mk_loader [Stub.batch 3; Stub.batch 5])]
              (mk_loader [Stub.batch 1; Stub.batch 2; Stub.batch 3; Stub.batch 4])
              (mk_loader [Stub.batch 3; Stub.batch 5]))
    as (total_train & s1 & total_val & s2 & Hfold & Hval & _ & _ & _ & Hle & _).
  - reflexivity.
  - reflexivity.
  - discriminate.
  - reflexivity.
  - cbn in Hfold. injection Hfold as <- <-.
    cbn in Hval. injection Hval as <- <-.
    apply Hle; [discriminate | reflexivity].
Defined.

(** The pairwise matrix at a 1-by-2 and a 2-by-2 integer matrix, and the
    similarities of the benchmark of the stand-in data, two pairs of
    embeddings. *)
Lemma cosine_sim_pairwise_and_diagonal_witness :
  (exists c,
      cosine_sim 0 Z.add Z.mul Z.div Z.sqrt
        (mk_tensor2 2 [[3; 4]]) (mk_tensor2 2 [[3; 4]; [0; 5]]) = Ok c /\
      entry c 0 1 = Some (20 / (5 * 5)) /\
      diagonal c = [25 / (5 * 5)]) /\
  (exists c,
      cosine_sim (Fin 0) fadd fmul fdiv Stub.sqrt
        (mk_tensor2 2 [[Fin 1; Fin 1]; [Fin 2; Fin 1]])
        (mk_tensor2 2 [[Fin 1; Fin 1]; [Fin 3; Fin 1]]) = Ok c /\
      List.length (diagonal c) = 2%nat /\
      fst (evaluate Stub.data_with_validation (initial_state Stub.start))
      = (let! eval_pearson_cosine := Stub.correlation (diagonal c) [Fin 1; Fin 0] in
         let! eval_spearman_cosine := Stub.correlation (diagonal c) [Fin 1; Fin 0] in
         Ok (eval_pearson_cosine, eval_spearman_cosine))).
Proof.
  destruct cosine_sim_pairwise_and_diagonal as [Hmatrix Hevaluate]. split.
  - destruct (Hmatrix Z 0 Z.add Z.mul Z.div Z.sqrt
                (mk_tensor2 2 [[3; 4]]) (mk_tensor2 2 [[3; 4]; [0; 5]]))
      as (c & Hc & _ & _ & _ & He & _ & Hl & Hd).
    + reflexivity.
    + exists c. split; [exact Hc|]. split.
      * exact (He 0%nat 1%nat [3; 4] [0; 5] eq_refl eq_refl).
      * pose proof (Hd 0%nat [3; 4] [3; 4] eq_refl eq_refl) as H0.
        destruct (diagonal c) as [|x [|y l]]; simpl in Hl; try discriminate.
        simpl in H0. injection H0 as ->. reflexivity.
  - destruct (Hevaluate Stub.data_with_validation (initial_state Stub.start)
                [("validation", mk_loader [Stub.stsb_batch])]
                (mk_loader [Stub.stsb_batch])
                [mk_tensor2 2 [[Fin 1; Fin 1]; [Fin 2; Fin 1]]]
                [mk_tensor2 2 [[Fin 1; Fin 1]; [Fin 3; Fin 1]]]
                [Fin 1; Fin 0]
                (mk_tensor2 2 [[Fin 1; Fin 1]; [Fin 2; Fin 1]])
                (mk_tensor2 2 [[Fin 1; Fin 1]; [Fin 3; Fin 1]]))
      as (c & Hc & Hl & _ & Hrun).
    + reflexivity.
    + reflexivity.
    + reflexivity.
    + reflexivity.
    + reflexivity.
    + reflexivity.
    + exists c. split; [exact Hc|]. split; [exact Hl | exact Hrun].
Defined.

(** ** Runs for the further properties *)

(** The data of a run whose benchmark was forgotten. *)
Definition data_without_benchmark : dict (dict (Loader (@Tensor Stub.collaborators))) :=
  [ ("nli", [("train", mk_loader [Stub.batch 1; Stub.batch 2])]) ].

Lemma replace_train_loaders_effect_witness :
  exists data',
    replace_train_loaders Stub.data_with_validation ["nli"] 2 1 = Ok data' /\
    keys data' = ["nli"; "stsb"].
Proof.
  destruct (replace_train_loaders Stub.data_with_validation ["nli"] 2 1)
    as [data'|e] eqn:Hrun; [|vm_compute in Hrun; discriminate].
  exists data'. split; [reflexivity|].
  exact (proj1 (replace_train_loaders_effect Stub.data_with_validation ["nli"] 2 1 data' Hrun)).
Defined.

Lemma train_worker_stops_at_replacement_witness :
  exists key,
    fst (train_worker 1 2 (Stub.experiment Stub.data_no_train 1 0) "demo"
           (initial_state Stub.start)) = Raise (KeyError key).
Proof.
  destruct (train_worker_stops_at_replacement 1 2 (Stub.experiment Stub.data_no_train 1 0)
              "demo" (initial_state Stub.start)) as [key Hrun].
  - intros Hall. inversion Hall as [|? ? (splits & train_loader & Hd & Ht) _]; subst.
    cbn in Hd. injection Hd as <-. discriminate.
  - exists key. rewrite Hrun. reflexivity.
Defined.

Lemma find_val_loader_first_witness :
  find_val_loader Stub.data_with_validation "nli" false 1 0
  = Ok (Some (mk_loader [Stub.batch 3; Stub.batch 5])).
Proof.
  destruct (find_val_loader_first Stub.data_with_validation "nli" false 1 0
              [("train", mk_loader [Stub.batch 1; Stub.batch 2; Stub.batch 3; Stub.batch 4]);
               ("validation_matched", mk_loader [Stub.batch 3; Stub.batch 5])])
    as [Hfirst _].
  - reflexivity.
  - apply (Hfirst
             [("train", mk_loader [Stub.batch 1; Stub.batch 2; Stub.batch 3; Stub.batch 4])]
             "validation_matched" (mk_loader [Stub.batch 3; Stub.batch 5]) []).
    + reflexivity.
    + reflexivity.
    + repeat constructor.
Defined.

(** A width of 1 is broadcast: one row of four columns against one row of
    one column. *)
Example cosine_sim_broadcasts_width_one :
  cosine_sim 0 Z.add Z.mul Z.div Z.sqrt
    (mk_tensor2 4 [[1; 2; 3; 4]]) (mk_tensor2 1 [[2]])
  = Ok (mk_tensor2 1 [[20 / (5 * 2)]]).
Proof. reflexivity. Qed.

Lemma cosine_sim_transpose_witness :
  exists ab ba,
    cosine_sim 0 Z.add Z.mul Z.div Z.sqrt
      (mk_tensor2 2 [[3; 4]]) (mk_tensor2 2 [[3; 4]; [0; 5]]) = Ok ab /\
    cosine_sim 0 Z.add Z.mul Z.div Z.sqrt
      (mk_tensor2 2 [[3; 4]; [0; 5]]) (mk_tensor2 2 [[3; 4]]) = Ok ba /\
    forall i j, entry ab i j = entry ba j i.
Proof.
  eexists. eexists. split; [reflexivity|]. split; [reflexivity|].
  apply (cosine_sim_transpose 0 Z.add Z.mul Z.div Z.sqrt
           (mk_tensor2 2 [[3; 4]]) (mk_tensor2 2 [[3; 4]; [0; 5]])).
  - exact Z.mul_comm.
  - reflexivity.
  - reflexivity.
Defined.

Lemma stub_sqrt_zero (q : Q) :
  (q == 0)%Q -> exists q', Stub.sqrt (Fin q) = Fin q' /\ (q' == 0)%Q.
Proof.
  intros Hq. unfold Stub.sqrt.
  assert (Hle : Qle_bool 0 q = true) by (apply Qle_bool_iff; rewrite Hq; apply Qle_refl).
  rewrite Hle. eexists. split; [reflexivity|].
  assert (Hnum : Qnum q = 0) by (unfold Qeq in Hq; cbn in Hq; lia).
  rewrite Hnum. reflexivity.
Qed.

Lemma cosine_sim_zero_row_is_nan_witness :
  exists c,
    cosine_sim (Fin 0) fadd fmul fdiv Stub.sqrt
      (mk_tensor2 2 [[Fin 0; Fin 0]]) (mk_tensor2 2 [[Fin 1; Fin 2]]) = Ok c /\
    entry c 0 0 = Some NaN.
Proof.
  eexists. split; [reflexivity|].
  apply (cosine_sim_zero_row_is_nan Stub.sqrt
           (mk_tensor2 2 [[Fin 0; Fin 0]]) (mk_tensor2 2 [[Fin 1; Fin 2]]) _ 0 0
           [Fin 0; Fin 0] [Fin 1; Fin 2]).
  - exact stub_sqrt_zero.
  - reflexivity.
  - reflexivity.
  - reflexivity.
  - reflexivity.
  - repeat constructor; exists 0%Q; split; reflexivity.
Defined.

Lemma train_loss_logged_at_each_step_witness :
  exists evs k,
    events (snd (train_loop (Stub.experiment Stub.data_with_validation 1 0) "demo"
                   (Some Stub.writer) false 1 0 (initial_state Stub.start)))
    = events (initial_state Stub.start) ++ evs /\
    train_loss_steps evs = map Z.of_nat (seq 1 k).
Proof.
  destruct (train_loss_logged_at_each_step (Stub.experiment Stub.data_with_validation 1 0)
              "demo" (Some Stub.writer) false 1 0 (initial_state Stub.start) 4
              (Stub.mk_world true true false 0 0 (Some (0, 4))))
    as (evs & k & Hev & _ & Hlog).
  - reflexivity.
  - reflexivity.
  - exists evs, k. split; [exact Hev | exact Hlog].
Defined.

Lemma other_processes_return_witness :
  fst (train_loop (Stub.experiment data_without_benchmark 1 0) "demo" None true 2 1
         (initial_state Stub.start)) = Ok tt.
Proof.
  apply (other_processes_return (Stub.experiment data_without_benchmark 1 0) "demo"
           None true 2 1).
  - reflexivity.
  - constructor; [|constructor].
    exists [("train", mk_loader [Stub.batch 1; Stub.batch 2])],
           (mk_loader [Stub.batch 1; Stub.batch 2]).
    repeat split. discriminate.
  - intros w steps. eexists. reflexivity.
Defined.

Lemma coordinator_trains_before_benchmark_witness :
  fst (train_loop (Stub.experiment data_without_benchmark 1 0) "demo" (Some Stub.writer)
         false 1 0 (initial_state Stub.start)) = Raise (KeyError "stsb") /\
  global_step
    (snd (train_loop (Stub.experiment data_without_benchmark 1 0) "demo" (Some Stub.writer)
            false 1 0 (initial_state Stub.start))) = 2.
Proof.
  destruct (coordinator_trains_before_benchmark (Stub.experiment data_without_benchmark 1 0)
              "demo" Stub.writer false 1 (initial_state Stub.start) "nli" [] 2
              (Stub.mk_world true true false 0 0 (Some (0, 2)))
              [("train", mk_loader [Stub.batch 1; Stub.batch 2])]
              (mk_loader [Stub.batch 1; Stub.batch 2]))
    as (Hraise & Hstep & _).
  - reflexivity.
  - discriminate.
  - reflexivity.
  - reflexivity.
  - reflexivity.
  - reflexivity.
  - discriminate.
  - reflexivity.
  - split; [exact Hraise | exact Hstep].
Defined.

Lemma train_loop_without_epochs_witness :
  fst (train_loop (Stub.experiment Stub.data_with_validation 0 0) "demo"
         (Some Stub.writer) false 1 0 (initial_state Stub.start)) = Ok tt.
Proof.
  destruct (train_loop_without_epochs (Stub.experiment Stub.data_with_validation 0 0)
              "demo" (Some Stub.writer) false 1 0 (initial_state Stub.start) 0
              (Stub.mk_world true true false 0 0 (Some (0, 0))))
    as [_ Hrun].
  - discriminate.
  - reflexivity.
  - reflexivity.
  - rewrite Hrun. reflexivity.
Defined.

Lemma evaluations_per_dataset_epoch_witness :
  exists evs,
    events (snd (train_loop (Stub.experiment Stub.data_with_validation 2 0) "demo"
                   (Some Stub.writer) false 1 0 (initial_state Stub.start)))
    = events (initial_state Stub.start) ++ evs /\
    List.length (filter is_evaluate evs) = 2%nat.
Proof.
  apply (evaluations_per_dataset_epoch (Stub.experiment Stub.data_with_validation 2 0)
           "demo" (Some Stub.writer) false 1 0 (initial_state Stub.start)).
  vm_compute. reflexivity.
Defined.

Lemma sampler_epoch_per_dataset_epoch_witness :
  exists evs,
    events (snd (train_loop (Stub.experiment Stub.data_with_validation 2 0) "demo"
                   None true 2 1 (initial_state Stub.start)))
    = events (initial_state Stub.start) ++ evs /\
    filter is_set_epoch evs = [ESetEpoch "nli" 0; ESetEpoch "nli" 1].
Proof.
  apply (sampler_epoch_per_dataset_epoch (Stub.experiment Stub.data_with_validation 2 0)
           "demo" None true 2 1 (initial_state Stub.start)).
  vm_compute. reflexivity.
Defined.
